(** * LifeOS reminder scheduler (server.js): shallow embedding

    The push-notification cron of [server.js] (the [setInterval] callback):
    candidate query, minute-bucket matcher, payload construction,
    per-subscriber delivery with its [catch] handler, and the
    [notified] commit, over an explicit model of the two MongoDB
    collections it touches.

    Numbers.  A [reminderOffset] is a count of minutes and a time value
    is a count of milliseconds since the epoch, of absolute value at most
    8.64e15; both are modelled as integers ([Z]).  On such values the
    double arithmetic of the source agrees with [Z]: [offset * 60000] is
    exact below 2^58 and the subtraction from a time value below 2^53,
    and beyond those bounds the result is outside the range of time
    values in both readings, where [new Date] makes an invalid date
    ([TimeClip]); [Math.floor(x / 60000)] is the floored integer quotient,
    because the quotient is below 2^38 and its distance to the next
    integer is at least 1/60000, more than the rounding error there.

    Time.  A tick is modelled as running alone: no other request changes
    the collections while it runs, and ticks follow one another.  What
    the outside answers to one tick (clock, connection, store failures,
    push results) is an [Env]; the properties hold for every [Env]. *)

From Stdlib Require Import ZArith List String Ascii Bool Lia.
From Stdlib Require Import DecimalString DecimalZ DecimalPos.
Import ListNotations.
Local Open Scope list_scope.
Local Open Scope string_scope.
Local Open Scope Z_scope.

(** ** Documents *)

(** [taskSchema], the fields the scheduler reads or writes.  A path of a
    Mongoose document may be absent ([undefined]): [None]. *)
Record Task := mkTask {
  _id            : nat;             (* MongoDB's document key *)
  title          : option string;
  date           : option string;
  startTime      : option string;
  completed      : option bool;
  reminderOffset : option Z;
  notified       : option bool
}.

(** [subscriptionSchema]. *)
Record Keys := mkKeys { p256dh : string; auth : string }.

Record Subscription := mkSubscription {
  endpoint : string;
  keys     : Keys
}.

(** The error a rejected [webpush.sendNotification] carries. *)
Record WebPushError := mkWebPushError {
  statusCode : option Z;
  message    : string
}.

(** ** The runtime: template literals, numbers, dates *)

(** The one-character string holding a double quote (code 34). *)
Definition dquote : string := String (ascii_of_nat 34) EmptyString.

(** [`${x}`] for a string-valued path. *)
Definition template (x : option string) : string :=
  match x with
  | Some s => s
  | None => "undefined"
  end.

(** [`${n}`] for an integer number below 10^21 in absolute value: the
    decimal numeral, with a leading minus sign.  (The offset of a due task
    is far below that bound, see [due_offset_bounded].) *)
Definition Number_toString (n : Z) : string :=
  NilZero.string_of_int (Z.to_int n).

(** Reading the decimal back, used to state that the substitution is exact. *)
Definition Number_parse (s : string) : option Z :=
  option_map Z.of_int (NilZero.int_of_string s).

(** ECMAScript's TimeClip: a time value outside +-8.64e15 is NaN. *)
Definition TimeClip (t : Z) : option Z :=
  if Z.abs t <=? 8640000000000000 then Some t else None.

(** [Math.floor(ms / 60000) * 60000] *)
Definition minuteBucket (ms : Z) : Z := ms / 60000 * 60000.

(** A date parser is the runtime's [new Date(str).getTime()];
    [None] is the NaN of an invalid date. *)
Definition DateParser := string -> option Z.

(** ** The matcher (server.js 161-171) *)

(** [`${t.date}T${t.startTime}:00`] *)
Definition taskTimeStr (t : Task) : string :=
  template t.(date) ++ "T" ++ template t.(startTime) ++ ":00".

(** The callback of [tasks.filter]. *)
Definition isDue (Date_parse : DateParser) (currentTimestamp : Z) (t : Task) : bool :=
  match Date_parse (taskTimeStr t) with
  | None => false                                   (* isNaN(taskDate.getTime()) *)
  | Some taskDate =>
      let offset := match t.(reminderOffset) with
                    | Some o => o
                    | None => 5
                    end in
      match TimeClip (taskDate - offset * 60000) with
      | None => false                               (* NaN === currentTimestamp *)
      | Some triggerDate =>
          let triggerTimestamp := minuteBucket triggerDate in
          currentTimestamp =? triggerTimestamp
      end
  end.

Definition tasksToNotify (Date_parse : DateParser) (currentTimestamp : Z)
    (tasks : list Task) : list Task :=
  filter (isDue Date_parse currentTimestamp) tasks.

(** ** The candidate query (server.js 159) *)

(** [{ path: value }]: the path is present and equal to the value. *)
Definition field_eq_bool (x : option bool) (v : bool) : bool :=
  match x with
  | Some b => Bool.eqb b v
  | None => false
  end.

(** [{ path: { $ne: value } }]: the path is absent or differs. *)
Definition field_ne_Z (x : option Z) (v : Z) : bool :=
  match x with
  | Some z => negb (z =? v)
  | None => true
  end.

(** [{ completed: false, notified: false, reminderOffset: { $ne: -1 } }] *)
Definition candidateQuery (t : Task) : bool :=
  field_eq_bool t.(completed) false
  && field_eq_bool t.(notified) false
  && field_ne_Z t.(reminderOffset) (-1).

(** ** The payload (server.js 177-184) *)

(** The object given to [JSON.stringify]; [n_title] is its [title]. *)
Record Notification := mkNotification {
  n_title : string;
  body    : string;
  icon    : string
}.

(** [offset === 0 ? '...' : `... ${offset} ...`] *)
Definition timeDesc (offset : Z) : string :=
  if offset =? 0 then "现在开始"
  else "将在 " ++ Number_toString offset ++ " 分钟后开始".

(** The object literal of line 180, for the [task] of the loop. *)
Definition notificationOf (task : Task) : Notification :=
  let offset := match task.(reminderOffset) with
                | Some o => o
                | None => 5
                end in
  {| n_title := "LifeOS 日程提醒";
     body := "任务 " ++ dquote ++ template task.(title) ++ dquote ++ " " ++ timeDesc offset
             ++ " (" ++ template task.(startTime) ++ ")";
     icon := "/icon.png" |}.

(** [JSON.stringify] of a string: the quoted form with the escapes of
    QuoteJSONString.  Strings are UTF-8 byte sequences; bytes from 128 up
    belong to multi-byte characters and pass through unchanged. *)
Definition hexDigit (n : nat) : ascii :=
  if Nat.ltb n 10 then ascii_of_nat (48 + n) else ascii_of_nat (87 + n).

Definition escapeChar (c : ascii) : string :=
  let n := nat_of_ascii c in
  if Nat.eqb n 34 then "\" ++ dquote
  else if Nat.eqb n 92 then "\\"
  else if Nat.eqb n 8 then "\b"
  else if Nat.eqb n 9 then "\t"
  else if Nat.eqb n 10 then "\n"
  else if Nat.eqb n 12 then "\f"
  else if Nat.eqb n 13 then "\r"
  else if Nat.ltb n 32 then
    "\u00" ++ String (hexDigit (Nat.div n 16)) (String (hexDigit (Nat.modulo n 16)) EmptyString)
  else String c EmptyString.

Fixpoint escapeString (s : string) : string :=
  match s with
  | EmptyString => EmptyString
  | String c s' => escapeChar c ++ escapeString s'
  end.

Definition quoteJSONString (s : string) : string :=
  dquote ++ escapeString s ++ dquote.

(** [JSON.stringify({ title: ..., body: ..., icon: ... })]: the properties
    in insertion order, no white space. *)
Definition JSON_stringify (o : Notification) : string :=
  "{" ++ quoteJSONString "title" ++ ":" ++ quoteJSONString o.(n_title) ++ ","
      ++ quoteJSONString "body" ++ ":" ++ quoteJSONString o.(body) ++ ","
      ++ quoteJSONString "icon" ++ ":" ++ quoteJSONString o.(icon) ++ "}".

Definition payload (task : Task) : string := JSON_stringify (notificationOf task).

(** ** The world the tick runs in *)

(** What a tick does to the outside, in order. *)
Inductive Event :=
| Subscription_find
| Task_find
| sendNotification (sub : Subscription) (payload : string)
| Subscription_deleteOne (endpoint : string)
| Task_save (id : nat)
| console_log (line : string)
| console_error (line : string).

(** The two collections and the journal of what happened. *)
Record World := mkWorld {
  Tasks         : list Task;
  Subscriptions : list Subscription;
  journal       : list Event
}.

(** What the outside answers during one tick: the connection state, the
    clock, the date parser of the runtime, whether a store operation
    rejects (with which error), and how each push ends. *)
Record Env := mkEnv {
  Date_parse         : DateParser;
  readyState         : Z;                       (* mongoose.connection.readyState *)
  now                : Z;                       (* new Date().getTime() *)
  Subscription_find_rejects : option string;
  Task_find_rejects         : option string;
  push               : Subscription -> string -> option WebPushError;
  deleteOne_rejects  : string -> option string;
  save_rejects       : Task -> option string
}.

(** ** Asynchronous code: state, journal, exceptions *)

Inductive Completion (A : Type) :=
| Normal (a : A)
| Throw (e : string).
Arguments Normal {A} a.
Arguments Throw {A} e.

(** A store write that happened before a [Throw] stays: nothing here is
    transactional. *)
Definition Async (A : Type) := World -> World * Completion A.

Definition ret {A} (a : A) : Async A := fun w => (w, Normal a).

Definition bind {A B} (m : Async A) (k : A -> Async B) : Async B :=
  fun w => match m w with
           | (w', Normal a) => k a w'
           | (w', Throw e) => (w', Throw e)
           end.

Notation "x <- m ;; k" := (bind m (fun x => k))
  (at level 61, m at next level, right associativity).
Notation "m ;; k" := (bind m (fun _ => k))
  (at level 61, right associativity).

(** [try { m } catch (e) { h(e) }] *)
Definition try_catch {A} (m : Async A) (h : string -> Async A) : Async A :=
  fun w => match m w with
           | (w', Normal a) => (w', Normal a)
           | (w', Throw e) => h e w'
           end.

Definition throw {A} (e : string) : Async A := fun w => (w, Throw e).

Definition emit (ev : Event) : Async unit :=
  fun w => (mkWorld w.(Tasks) w.(Subscriptions) (w.(journal) ++ [ev])%list, Normal tt).

(** [for (const x of l) { await body(x) }] *)
Fixpoint for_of {A} (l : list A) (body : A -> Async unit) : Async unit :=
  match l with
  | [] => ret tt
  | x :: l' => body x ;; for_of l' body
  end.

(** [await Promise.all(ps)]: every promise of the list runs to its end,
    also after one of them has rejected; the [await] throws the first
    rejection.  The handlers of this program only delete by endpoint and
    write to the console, so the store they leave does not depend on the
    order in which the pushes come back; they are run in list order. *)
Fixpoint Promise_all {A} (ps : list (Async A)) : Async (list A) :=
  match ps with
  | [] => ret []
  | p :: ps' => fun w =>
      match p w with
      | (w1, r1) =>
          match Promise_all ps' w1 with
          | (w2, r2) =>
              (w2, match r1, r2 with
                   | Normal a, Normal l => Normal (a :: l)
                   | Throw e, _ => Throw e
                   | Normal _, Throw e => Throw e
                   end)
          end
      end
  end.

(** ** Store operations *)

(** [await Subscription.find({})] *)
Definition find_subscriptions (env : Env) : Async (list Subscription) :=
  emit Subscription_find ;;
  match env.(Subscription_find_rejects) with
  | Some e => throw e
  | None => fun w => (w, Normal w.(Subscriptions))
  end.

(** [await Task.find(query)] *)
Definition find_tasks (env : Env) (query : Task -> bool) : Async (list Task) :=
  emit Task_find ;;
  match env.(Task_find_rejects) with
  | Some e => throw e
  | None => fun w => (w, Normal (filter query w.(Tasks)))
  end.

(** [deleteOne] removes the first document that matches. *)
Fixpoint remove_first (ep : string) (subs : list Subscription) : list Subscription :=
  match subs with
  | [] => []
  | s :: subs' => if String.eqb s.(endpoint) ep then subs' else s :: remove_first ep subs'
  end.

(** [await Subscription.deleteOne({ endpoint: ep })] *)
Definition deleteOne (env : Env) (ep : string) : Async unit :=
  emit (Subscription_deleteOne ep) ;;
  match env.(deleteOne_rejects) ep with
  | Some e => throw e
  | None => fun w =>
      (mkWorld w.(Tasks) (remove_first ep w.(Subscriptions)) w.(journal), Normal tt)
  end.

(** [task.notified = v] on the loaded document. *)
Definition set_notified (v : bool) (t : Task) : Task :=
  mkTask t.(_id) t.(title) t.(date) t.(startTime) t.(completed)
         t.(reminderOffset) (Some v).

(** [await task.save()]: the modified path, [notified], is written to the
    stored document that has the key of [task]. *)
Definition save (env : Env) (task : Task) : Async unit :=
  emit (Task_save task.(_id)) ;;
  match env.(save_rejects) task with
  | Some e => throw e
  | None => fun w =>
      (mkWorld
         (map (fun d => if Nat.eqb d.(_id) task.(_id)
                        then mkTask d.(_id) d.(title) d.(date) d.(startTime)
                                    d.(completed) d.(reminderOffset) task.(notified)
                        else d) w.(Tasks))
         w.(Subscriptions) w.(journal), Normal tt)
  end.

(** ** Delivery (server.js 186-195) *)

(** [err.statusCode === code] *)
Definition statusCode_is (err : WebPushError) (code : Z) : bool :=
  match err.(statusCode) with
  | Some c => c =? code
  | None => false
  end.

(** [webpush.sendNotification(sub, payload).catch(async err => { ... })],
    the promise made for one subscriber. *)
Definition notifySubscriber (env : Env) (payload : string) (sub : Subscription)
    : Async unit :=
  emit (sendNotification sub payload) ;;
  match env.(push) sub payload with
  | None => ret tt
  | Some err =>
      if statusCode_is err 410 || statusCode_is err 404
      then deleteOne env sub.(endpoint)
      else emit (console_error ("Push Error: " ++ err.(message)))
  end.

Definition promises (env : Env) (payload : string) (subs : list Subscription)
    : list (Async unit) :=
  map (notifySubscriber env payload) subs.

(** The body of [for (const task of tasksToNotify)]. *)
Definition notifyTask (env : Env) (subs : list Subscription) (task : Task)
    : Async unit :=
  Promise_all (promises env (payload task) subs) ;;
  save env (set_notified true task).

(** ** The tick (server.js 147-205) *)

(** The [try] block. *)
Definition tickBody (env : Env) : Async unit :=
  subs <- find_subscriptions env ;;
  if Nat.eqb (List.length subs) 0 then ret tt
  else
    let currentTimestamp := minuteBucket env.(now) in
    tasks <- find_tasks env candidateQuery ;;
    let due := tasksToNotify env.(Date_parse) currentTimestamp tasks in
    if Nat.ltb 0 (List.length due) then
      emit (console_log ("Found " ++ Number_toString (Z.of_nat (List.length due))
                         ++ " tasks to notify.")) ;;
      for_of due (notifyTask env subs)
    else ret tt.

Definition tick (env : Env) : Async unit :=
  if negb (env.(readyState) =? 1) then ret tt
  else try_catch (tickBody env)
         (fun e => emit (console_error ("Notification Loop Error: " ++ e))).

(** The world after one tick, and after a run of ticks (one [Env] each). *)
Definition after_tick (env : Env) (w : World) : World := fst (tick env w).

Fixpoint run (envs : list Env) (w : World) : World :=
  match envs with
  | [] => w
  | env :: envs' => run envs' (after_tick env w)
  end.

(** What the tick of [env] would match in the world [w]. *)
Definition dueIn (env : Env) (w : World) : list Task :=
  tasksToNotify env.(Date_parse) (minuteBucket env.(now))
                (filter candidateQuery w.(Tasks)).

(** ** A reference date parser

    The date-time form [YYYY-MM-DDTHH:mm:ss] without a zone designator,
    read as local time in a zone at a fixed offset of [tzMinutes] east of
    Greenwich, with the element ranges Node's parser accepts (day 1-31,
    carried into the next month by MakeDay; 24:00:00 for the end of the
    day).  Any other string is an invalid date here. *)

Definition digit (c : ascii) : option Z :=
  let n := nat_of_ascii c in
  if Nat.leb 48 n && Nat.leb n 57 then Some (Z.of_nat (n - 48)) else None.

Fixpoint digits (acc : Z) (cs : list ascii) : option Z :=
  match cs with
  | [] => Some acc
  | c :: cs' =>
      match digit c with
      | Some d => digits (acc * 10 + d) cs'
      | None => None
      end
  end.

(** Days from 1970-01-01 to the given civil date (proleptic Gregorian). *)
Definition daysFromCivil (y m d : Z) : Z :=
  let y' := if m <=? 2 then y - 1 else y in
  let era := y' / 400 in
  let yoe := y' - era * 400 in
  let mp := (m + 9) mod 12 in
  let doy := (153 * mp + 2) / 5 + d - 1 in
  let doe := yoe * 365 + yoe / 4 - yoe / 100 + doy in
  era * 146097 + doe - 719468.

Definition isoLocalParse (tzMinutes : Z) : DateParser := fun s =>
  match list_ascii_of_string s with
  | [y1; y2; y3; y4; c1; m1; m2; c2; d1; d2; c3; h1; h2; c4; n1; n2; c5; s1; s2] =>
      if Ascii.eqb c1 "-" && Ascii.eqb c2 "-" && Ascii.eqb c3 "T"
         && Ascii.eqb c4 ":" && Ascii.eqb c5 ":"
      then
        match digits 0 [y1; y2; y3; y4], digits 0 [m1; m2], digits 0 [d1; d2],
              digits 0 [h1; h2], digits 0 [n1; n2], digits 0 [s1; s2] with
        | Some y, Some m, Some d, Some h, Some n, Some sec =>
            if (1 <=? m) && (m <=? 12) && (1 <=? d) && (d <=? 31)
               && ((h <=? 23) && (n <=? 59) && (sec <=? 59)
                   || (h =? 24) && (n =? 0) && (sec =? 0))
            then TimeClip (daysFromCivil y m d * 86400000
                           + h * 3600000 + n * 60000 + sec * 1000
                           - tzMinutes * 60000)
            else None
        | _, _, _, _, _, _ => None
        end
      else None
  | _ => None
  end.

(** ** Reading a payload back

    What a client's [JSON.parse] makes of the text, for an object of the
    three string properties [title], [body], [icon] written without white
    space.  [\u] escapes are read for the ASCII range only. *)

Definition hexValue (c : ascii) : option nat :=
  let n := nat_of_ascii c in
  if Nat.leb 48 n && Nat.leb n 57 then Some (n - 48)%nat
  else if Nat.leb 97 n && Nat.leb n 102 then Some (n - 87)%nat
  else if Nat.leb 65 n && Nat.leb n 70 then Some (n - 55)%nat
  else None.

(** The characters of a JSON string after its opening quote, up to the
    closing quote; returns the string and what follows it. *)
Fixpoint readChars (s : string) : option (string * string) :=
  match s with
  | EmptyString => None
  | String c s' =>
      let n := nat_of_ascii c in
      if Nat.eqb n 34 then Some (EmptyString, s')
      else if Nat.eqb n 92 then
        match s' with
        | String e s'' =>
            let k := nat_of_ascii e in
            let continue (d : nat) (rest : string) :=
              match readChars rest with
              | Some (r, tail) => Some (String (ascii_of_nat d) r, tail)
              | None => None
              end in
            if Nat.eqb k 34 then continue 34%nat s''
            else if Nat.eqb k 92 then continue 92%nat s''
            else if Nat.eqb k 47 then continue 47%nat s''
            else if Nat.eqb k 98 then continue 8%nat s''
            else if Nat.eqb k 116 then continue 9%nat s''
            else if Nat.eqb k 110 then continue 10%nat s''
            else if Nat.eqb k 102 then continue 12%nat s''
            else if Nat.eqb k 114 then continue 13%nat s''
            else if Nat.eqb k 117 then
              match s'' with
              | String h1 (String h2 (String h3 (String h4 rest))) =>
                  match hexValue h1, hexValue h2, hexValue h3, hexValue h4 with
                  | Some 0%nat, Some 0%nat, Some a, Some b =>
                      if Nat.ltb (16 * a + b) 128
                      then match readChars rest with
                           | Some (r, tail) =>
                               Some (String (ascii_of_nat (16 * a + b)) r, tail)
                           | None => None
                           end
                      else None
                  | _, _, _, _ => None
                  end
              | _ => None
              end
            else None
        | EmptyString => None
        end
      else if Nat.ltb n 32 then None
      else match readChars s' with
           | Some (r, tail) => Some (String c r, tail)
           | None => None
           end
  end.

(** Drop the literal [p] from the front of [s]. *)
Fixpoint expect (p s : string) : option string :=
  match p with
  | EmptyString => Some s
  | String c p' =>
      match s with
      | String c' s' => if Ascii.eqb c c' then expect p' s' else None
      | EmptyString => None
      end
  end.

Definition readProperty (name : string) (s : string) : option (string * string) :=
  match expect (quoteJSONString name ++ ":" ++ dquote) s with
  | Some s1 => readChars s1
  | None => None
  end.

Definition JSON_parse (s : string) : option Notification :=
  match expect "{" s with
  | None => None
  | Some s0 =>
      match readProperty "title" s0 with
      | None => None
      | Some (t, s1) =>
          match expect "," s1 with
          | None => None
          | Some s2 =>
              match readProperty "body" s2 with
              | None => None
              | Some (b, s3) =>
                  match expect "," s3 with
                  | None => None
                  | Some s4 =>
                      match readProperty "icon" s4 with
                      | None => None
                      | Some (i, s5) =>
                          if String.eqb s5 "}" then Some (mkNotification t b i)
                          else None
                      end
                  end
              end
          end
      end
  end.

(** ** Vocabulary of the properties *)

(** A push that ended with 404 or 410: the test of the [catch] handler. *)
Definition isGone (r : option WebPushError) : bool :=
  match r with
  | Some err => statusCode_is err 410 || statusCode_is err 404
  | None => false
  end.

(** The store answers every operation of the tick. *)
Definition storeAvailable (env : Env) : Prop :=
  env.(readyState) = 1
  /\ env.(Subscription_find_rejects) = None
  /\ env.(Task_find_rejects) = None
  /\ (forall ep, env.(deleteOne_rejects) ep = None)
  /\ (forall t, env.(save_rejects) t = None).

(** The store cannot be read when the tick starts. *)
Definition storeDownAtStart (env : Env) : Prop :=
  env.(readyState) <> 1
  \/ env.(Subscription_find_rejects) <> None
  \/ env.(Task_find_rejects) <> None.

(** The unique index on [endpoint], and the uniqueness of document keys. *)
Definition uniqueEndpoints (w : World) : Prop := NoDup (map endpoint w.(Subscriptions)).
Definition uniqueKeys (w : World) : Prop := NoDup (map _id w.(Tasks)).

(** The task collection after the documents with the given keys were
    marked. *)
Definition markNotified (ids : list nat) (l : list Task) : list Task :=
  map (fun d => if existsb (Nat.eqb d.(_id)) ids then set_notified true d else d) l.

(** The subscription collection after [deleteOne] for each endpoint. *)
Definition removeAll (eps : list string) (subs : list Subscription) : list Subscription :=
  fold_left (fun l ep => remove_first ep l) eps subs.

(** What the promise of one subscriber writes to the journal. *)
Definition handlerEvents (env : Env) (p : string) (sub : Subscription) : list Event :=
  sendNotification sub p ::
  match env.(push) sub p with
  | None => []
  | Some err =>
      if statusCode_is err 410 || statusCode_is err 404
      then [Subscription_deleteOne sub.(endpoint)]
      else [console_error ("Push Error: " ++ err.(message))]
  end.

Definition goneEndpoints (env : Env) (p : string) (subs : list Subscription) : list string :=
  map endpoint (filter (fun s => isGone (env.(push) s p)) subs).

Definition taskEvents (env : Env) (subs : list Subscription) (t : Task) : list Event :=
  (flat_map (handlerEvents env (payload t)) subs ++ [Task_save t.(_id)])%list.

(** Two worlds with the same collections (the journals may differ). *)
Definition sameStore (w1 w2 : World) : Prop :=
  w1.(Tasks) = w2.(Tasks) /\ w1.(Subscriptions) = w2.(Subscriptions).

(** A tick wrote a store event or a push. *)
Definition isEffect (ev : Event) : bool :=
  match ev with
  | Task_find | sendNotification _ _ | Subscription_deleteOne _ | Task_save _ => true
  | _ => false
  end.

(** The world with more lines in its journal and the same collections. *)
Definition journaled (w : World) (evs : list Event) : World :=
  mkWorld w.(Tasks) w.(Subscriptions) (w.(journal) ++ evs)%list.

(** [m] moves every world to one related to it by [R], however it ends. *)
Definition preserves (R : World -> World -> Prop) {A} (m : Async A) : Prop :=
  forall w, R w (fst (m w)).

(** The only change to the task collection is that documents with keys
    satisfying [P] were marked. *)
Definition marks (P : nat -> Prop) (w w' : World) : Prop :=
  exists ids, Forall P ids /\ w'.(Tasks) = markNotified ids w.(Tasks).

Definition tasksKept (w w' : World) : Prop := w'.(Tasks) = w.(Tasks).

Definition subscriptionsKept (w w' : World) : Prop :=
  w'.(Subscriptions) = w.(Subscriptions).

(** [m] reads nothing but the collections: from worlds with the same
    store it ends the same way in worlds with the same store. *)
Definition respects {A} (m : Async A) : Prop :=
  forall w1 w2, sameStore w1 w2 ->
    sameStore (fst (m w1)) (fst (m w2)) /\ snd (m w1) = snd (m w2).

(** What the tick of [env] adds to the journal of [w]. *)
Definition tickEvents (env : Env) (w : World) : list Event :=
  skipn (List.length w.(journal)) (after_tick env w).(journal).

(** The journal grew by events that satisfy [P]. *)
Definition appends (P : Event -> Prop) (w w' : World) : Prop :=
  exists evs, w'.(journal) = (w.(journal) ++ evs)%list /\ Forall P evs.

(** A push goes to one of [subs] with the payload of one of [due], and a
    save is the save of one of [due]; queries, deletes and console lines
    are not restricted. *)
Definition concerns (subs : list Subscription) (due : list Task) (ev : Event) : Prop :=
  match ev with
  | sendNotification sub p => In sub subs /\ exists d, In d due /\ p = payload d
  | Task_save id => exists d, In d due /\ id = d.(_id)
  | _ => True
  end.

(** A store operation that is not rejected. *)
Definition accepted (r : option string) : bool :=
  match r with
  | None => true
  | Some _ => false
  end.

(** Every promise made for the payload [p] resolves: no [deleteOne] of a
    handler is rejected. *)
Definition deliveryResolves (env : Env) (p : string) (subs : list Subscription) : bool :=
  forallb (fun s => negb (isGone (env.(push) s p))
                    || accepted (env.(deleteOne_rejects) s.(endpoint))) subs.

(** The endpoints the handlers of the payload [p] delete. *)
Definition deletedEndpoints (env : Env) (p : string) (subs : list Subscription)
    : list string :=
  map endpoint
      (filter (fun s => isGone (env.(push) s p)
                        && accepted (env.(deleteOne_rejects) s.(endpoint))) subs).

(** No step of the loop body throws for the task [t]. *)
Definition taskCompletes (env : Env) (subs : list Subscription) (t : Task) : bool :=
  deliveryResolves env (payload t) subs
  && accepted (env.(save_rejects) (set_notified true t)).

(** ** Sample data *)

Definition reportTask : Task :=
  mkTask 1 (Some "Write report") (Some "2024-01-15") (Some "10:00")
         (Some false) (Some 5) (Some false).

Definition standupTask : Task :=
  mkTask 2 (Some "Stand-up") (Some "2024-01-15") (Some "09:55")
         (Some false) (Some 0) (Some false).

(** Reminder switched off; with the offset taken at face value the trigger
    would fall at 09:55. *)
Definition mutedTask : Task :=
  mkTask 3 (Some "Muted") (Some "2024-01-15") (Some "09:54")
         (Some false) (Some (-1)) (Some false).

(** Already completed, trigger at 09:55. *)
Definition doneTask : Task :=
  mkTask 4 (Some "Done") (Some "2024-01-15") (Some "10:00")
         (Some true) (Some 5) (Some false).

(** No parseable date. *)
Definition brokenTask : Task :=
  mkTask 5 (Some "Broken") (Some "tomorrow") (Some "10:00")
         (Some false) (Some 5) (Some false).

(** No [reminderOffset] path at all. *)
Definition plainTask : Task :=
  mkTask 6 (Some "Plain") (Some "2024-01-15") (Some "10:00")
         (Some false) None (Some false).

Definition laptop : Subscription :=
  mkSubscription "https://push.example/laptop" (mkKeys "BPk1" "a1").

Definition oldPhone : Subscription :=
  mkSubscription "https://push.example/old-phone" (mkKeys "BPk2" "a2").

Definition tablet : Subscription :=
  mkSubscription "https://push.example/tablet" (mkKeys "BPk3" "a3").

(** 2024-01-15 09:55:00.123 UTC *)
Definition at_0955 : Z := 1705312500123.

(** The old phone answers 410, the tablet times out, the laptop receives. *)
Definition pushOutcome (sub : Subscription) (p : string) : option WebPushError :=
  if String.eqb sub.(endpoint) "https://push.example/old-phone"
  then Some (mkWebPushError (Some 410) "push subscription has unsubscribed or expired.")
  else if String.eqb sub.(endpoint) "https://push.example/tablet"
  then Some (mkWebPushError None "connect ETIMEDOUT")
  else None.

Definition healthyEnv : Env :=
  mkEnv (isoLocalParse 0) 1 at_0955 None None pushOutcome
        (fun _ => None) (fun _ => None).

(** The same minute, but every [task.save()] rejects. *)
Definition saveFailsEnv : Env :=
  mkEnv (isoLocalParse 0) 1 at_0955 None None pushOutcome
        (fun _ => None) (fun _ => Some "MongoNetworkError").

(** The same minute; the save of the stand-up task rejects, the others
    go through. *)
Definition secondSaveFailsEnv : Env :=
  mkEnv (isoLocalParse 0) 1 at_0955 None None pushOutcome
        (fun _ => None)
        (fun t => if Nat.eqb t.(_id) 2 then Some "MongoNetworkError" else None).

(** The connection is up but the first query rejects. *)
Definition findFailsEnv : Env :=
  mkEnv (isoLocalParse 0) 1 at_0955 (Some "MongoNetworkError") None pushOutcome
        (fun _ => None) (fun _ => None).

(** Every push fails without a 404 or 410. *)
Definition outageEnv : Env :=
  mkEnv (isoLocalParse 0) 1 at_0955 None None
        (fun _ _ => Some (mkWebPushError (Some 503) "Received unexpected response code"))
        (fun _ => None) (fun _ => None).

Definition sampleWorld : World :=
  mkWorld [reportTask; standupTask] [laptop; oldPhone; tablet] [].

Definition busyWorld : World :=
  mkWorld [reportTask; mutedTask; doneTask; brokenTask; plainTask]
          [laptop; oldPhone; tablet] [].

(** Nobody has subscribed yet. *)
Definition lonelyWorld : World :=
  mkWorld [reportTask; standupTask] [] [].


(** * The HTTP API (server.js 118-144, 209-255, 294-324)

    The handlers that read or write the collections of the scheduler:
    the authorization middleware, login, subscribe, the full-overwrite
    sync, the data dump and the two tool calls of the assistant.  A
    request body is taken as already parsed by [express.json()]; the
    fields of a document are typed as the schemas declare them. *)

(** ** Truthiness *)

(** [x || d] for a string-valued [x]: absent and empty are falsy. *)
Definition or_default (x : option string) (d : string) : string :=
  match x with
  | Some s => if String.eqb s EmptyString then d else s
  | None => d
  end.

(** [!x] for a string-valued [x]. *)
Definition falsy (x : option string) : bool :=
  match x with
  | Some s => String.eqb s EmptyString
  | None => true
  end.

(** [process.env.APP_PASSWORD || '123456'] (line 21) *)
Definition APP_PASSWORD (process_env_APP_PASSWORD : option string) : string :=
  or_default process_env_APP_PASSWORD "123456".

(** ** Documents as a client sends them *)

(** A JSON object of a request body, read through the paths the four
    schemas declare ([_id] is the key, when the client sends one back).
    The paths of [taskSchema] that no server code reads ([id],
    [duration], [category], [goalId], [history]) are not part of [Task]
    and are left out here too. *)
Record RawDoc := mkRawDoc {
  r__id            : option nat;
  r_id             : option string;
  r_title          : option string;
  r_date           : option string;
  r_startTime      : option string;
  r_completed      : option bool;
  r_reminderOffset : option Z;
  r_notified       : option bool;
  r_name           : option string;
  r_logs           : option (list (string * bool));
  r_status         : option string;
  r_deadline       : option string;
  r_category       : option string;
  r_quantity       : option Z;
  r_purchaseDate   : option string;
  r_expiryDate     : option string
}.

(** A stored habit, goal or inventory document: its key and the paths of
    its schema (the others are dropped by the cast). *)
Record Document := mkDocument {
  doc_id : nat;
  fields : RawDoc
}.

(** [new Task(raw)]: the paths of [taskSchema], with the default of
    [notified] (line 36) when the path is absent. *)
Definition castTask (key : nat) (raw : RawDoc) : Task :=
  mkTask key raw.(r_title) raw.(r_date) raw.(r_startTime) raw.(r_completed)
         raw.(r_reminderOffset)
         (match raw.(r_notified) with
          | Some b => Some b
          | None => Some false
          end).

(** [habitSchema]: [id], [name], [logs]. *)
Definition castHabit (key : nat) (raw : RawDoc) : Document :=
  mkDocument key
    (mkRawDoc None raw.(r_id) None None None None None None raw.(r_name) raw.(r_logs)
              None None None None None None).

(** [goalSchema]: [id], [title], [status], [deadline]. *)
Definition castGoal (key : nat) (raw : RawDoc) : Document :=
  mkDocument key
    (mkRawDoc None raw.(r_id) raw.(r_title) None None None None None None None
              raw.(r_status) raw.(r_deadline) None None None None).

(** [inventorySchema]: [id], [name], [category], [quantity], [status],
    [purchaseDate], [expiryDate]. *)
Definition castInventory (key : nat) (raw : RawDoc) : Document :=
  mkDocument key
    (mkRawDoc None raw.(r_id) None None None None None None raw.(r_name) None
              raw.(r_status) None raw.(r_category) raw.(r_quantity)
              raw.(r_purchaseDate) raw.(r_expiryDate)).

(** ** The database *)

(** The collections of the scheduler (with its journal) and the three
    others. *)
Record Database := mkDatabase {
  core      : World;
  Habits    : list Document;
  Goals     : list Document;
  Inventory : list Document
}.

(** A Mongoose model: its collection in the database, the key of a
    stored document and the cast of a raw object. *)
Record Model (D : Type) := mkModel {
  modelName : string;
  docs      : Database -> list D;
  store     : list D -> Database -> Database;
  keyOf     : D -> nat;
  cast      : nat -> RawDoc -> D
}.
Arguments modelName {D} _.
Arguments docs {D} _ _.
Arguments store {D} _ _ _.
Arguments keyOf {D} _ _.
Arguments cast {D} _ _ _.

Definition TaskModel : Model Task :=
  mkModel Task "Task"
    (fun db => db.(core).(Tasks))
    (fun l db => mkDatabase (mkWorld l db.(core).(Subscriptions) db.(core).(journal))
                            db.(Habits) db.(Goals) db.(Inventory))
    _id castTask.

Definition HabitModel : Model Document :=
  mkModel Document "Habit"
    Habits
    (fun l db => mkDatabase db.(core) l db.(Goals) db.(Inventory))
    doc_id castHabit.

Definition GoalModel : Model Document :=
  mkModel Document "Goal"
    Goals
    (fun l db => mkDatabase db.(core) db.(Habits) l db.(Inventory))
    doc_id castGoal.

Definition InventoryModel : Model Document :=
  mkModel Document "Inventory"
    Inventory
    (fun l db => mkDatabase db.(core) db.(Habits) db.(Goals) l)
    doc_id castInventory.

(** What the store answers during one request: which operation rejects
    (an [insertMany] after how many documents were written), and the keys
    the driver generates for documents sent without one. *)
Record ApiEnv := mkApiEnv {
  findOneAndUpdate_rejects : option string;
  find_rejects             : string -> option string;
  deleteMany_rejects       : string -> option string;
  insertMany_rejects       : string -> option (nat * string);
  create_rejects           : option string;
  ObjectId                 : nat -> nat
}.

(** ** Handlers: state, journal, exceptions over the database *)

Definition Api (A : Type) := Database -> Database * Completion A.

Definition retApi {A} (a : A) : Api A := fun db => (db, Normal a).

Definition bindApi {A B} (m : Api A) (k : A -> Api B) : Api B :=
  fun db => match m db with
            | (db', Normal a) => k a db'
            | (db', Throw e) => (db', Throw e)
            end.

Definition throwApi {A} (e : string) : Api A := fun db => (db, Throw e).

Definition try_catchApi {A} (m : Api A) (h : string -> Api A) : Api A :=
  fun db => match m db with
            | (db', Normal a) => (db', Normal a)
            | (db', Throw e) => h e db'
            end.

Declare Scope api_scope.
Delimit Scope api_scope with api.
Notation "x <- m ;; k" := (bindApi m (fun x => k))
  (at level 61, m at next level, right associativity) : api_scope.
Notation "m ;; k" := (bindApi m (fun _ => k))
  (at level 61, right associativity) : api_scope.

(** Code of the scheduler's monad, run on the [core] of the database. *)
Definition onCore {A} (m : Async A) : Api A :=
  fun db => match m db.(core) with
            | (w, r) => (mkDatabase w db.(Habits) db.(Goals) db.(Inventory), r)
            end.

Definition console (ev : Event) : Api unit := onCore (emit ev).

(** ** Store operations of the handlers *)

(** [Subscription.findOneAndUpdate({ endpoint }, subData, { upsert: true })]:
    the first stored subscription with that endpoint takes the paths of
    [subData]; without one, [subData] is inserted. *)
Fixpoint upsert (subData : Subscription) (subs : list Subscription) : list Subscription :=
  match subs with
  | [] => [subData]
  | s :: subs' =>
      if String.eqb s.(endpoint) subData.(endpoint)
      then subData :: subs'
      else s :: upsert subData subs'
  end.

Definition findOneAndUpdate (env : ApiEnv) (subData : Subscription) : Api unit :=
  match env.(findOneAndUpdate_rejects) with
  | Some e => throwApi e
  | None => fun db =>
      (mkDatabase (mkWorld db.(core).(Tasks)
                           (upsert subData db.(core).(Subscriptions))
                           db.(core).(journal))
                  db.(Habits) db.(Goals) db.(Inventory), Normal tt)
  end.

(** [await M.find({})] *)
Definition findAll {D} (M : Model D) (env : ApiEnv) : Api (list D) :=
  match env.(find_rejects) (modelName M) with
  | Some e => throwApi e
  | None => fun db => (db, Normal (docs M db))
  end.

(** [await M.deleteMany({})] *)
Definition deleteMany {D} (M : Model D) (env : ApiEnv) : Api unit :=
  match env.(deleteMany_rejects) (modelName M) with
  | Some e => throwApi e
  | None => fun db => (store M [] db, Normal tt)
  end.

(** The documents of an insert, written one after the other (the ordered
    default).  A document sent without [_id] gets the key the driver
    generates; the unique index on [_id] refuses a key that is already
    stored, which ends the operation there with the earlier documents
    written. *)
Fixpoint insertDocs {D} (M : Model D) (newKey : nat -> nat) (i : nat)
    (data : list RawDoc) (stored : list D) : list D * option string :=
  match data with
  | [] => (stored, None)
  | raw :: rest =>
      let key := match raw.(r__id) with
                 | Some k => k
                 | None => newKey i
                 end in
      if existsb (Nat.eqb key) (map (keyOf M) stored)
      then (stored, Some "E11000 duplicate key error")
      else insertDocs M newKey (S i) rest (stored ++ [cast M key raw])%list
  end.

(** [await M.insertMany(data)] *)
Definition insertMany {D} (M : Model D) (env : ApiEnv) (data : list RawDoc) : Api unit :=
  fun db =>
    let sent := match env.(insertMany_rejects) (modelName M) with
                | Some (n, _) => firstn n data
                | None => data
                end in
    match insertDocs M env.(ObjectId) 0 sent (docs M db) with
    | (l, Some e) => (store M l db, Throw e)
    | (l, None) =>
        (store M l db,
         match env.(insertMany_rejects) (modelName M) with
         | Some (_, e) => Throw e
         | None => Normal tt
         end)
    end.

(** [await M.create(raw)] *)
Definition create {D} (M : Model D) (env : ApiEnv) (raw : RawDoc) : Api unit :=
  match env.(create_rejects) with
  | Some e => throwApi e
  | None => fun db =>
      match insertDocs M env.(ObjectId) 0 [raw] (docs M db) with
      | (l, Some e) => (store M l db, Throw e)
      | (l, None) => (store M l db, Normal tt)
      end
  end.

(** ** Requests and responses *)

Inductive ResponseBody :=
| EmptyObject                                  (* {} *)
| LoginOk (token : string)                     (* { success: true, token } *)
| LoginFailed                                  (* { success: false } *)
| ErrorBody (error : string)                   (* { error } *)
| SuccessBody                                  (* { success: true } *)
| DataBody (tasks : list Task) (habits goals inventory : list Document).

(** [res.status(s).json(b)]; [res.json(b)] alone answers 200. *)
Record Response := mkResponse {
  res_status : Z;
  res_json   : ResponseBody
}.

(** [req.body] of a sync request, as [express.json()] leaves it: a JSON
    array of objects; a JSON object, of which the handler evaluates
    [data.length > 0] ([length_positive]: false for an object without a
    [length], true for one such as [{ length: 1 }]) and which
    [insertMany] takes as a single document, read through the paths of
    the schema ([doc]); or [undefined], when the parser left the request
    alone and the Express in use does not default the body to the empty
    object. *)
Inductive Body :=
| ArrayBody (data : list RawDoc)
| ObjectBody (length_positive : bool) (doc : RawDoc)
| NoBody.

(** ** The handlers *)

(** [authMiddleware] (lines 118-122) in front of the handler [next]. *)
Definition authMiddleware (password : string) (authorization : option string)
    (next : Api Response) : Api Response :=
  if falsy authorization
     || negb (String.eqb (match authorization with
                          | Some token => token
                          | None => EmptyString
                          end) password)
  then retApi (mkResponse 401 (ErrorBody "Unauthorized"))
  else next.

(** [POST /api/subscribe] (lines 129-144) *)
Definition post_subscribe (env : ApiEnv) (subData : Subscription) : Api Response :=
  try_catchApi
    (findOneAndUpdate env subData ;;
     console (console_log "Client subscribed/updated.") ;;
     retApi (mkResponse 201 EmptyObject))%api
    (fun e =>
       (console (console_error ("Subscribe Error: " ++ e)) ;;
        retApi (mkResponse 500 EmptyObject))%api).

(** [POST /api/login] (lines 209-212); [password] is [req.body.password]
    when it is a string. *)
Definition post_login (password : string) (req_password : option string) : Api Response :=
  match req_password with
  | Some p =>
      if String.eqb p password
      then retApi (mkResponse 200 (LoginOk password))
      else retApi (mkResponse 401 LoginFailed)
  | None => retApi (mkResponse 401 LoginFailed)
  end.

(** [GET /api/data] (lines 214-226).  The four queries only read, so the
    order in which they are awaited does not show. *)
Definition get_data (password : string) (env : ApiEnv) (authorization : option string)
    : Api Response :=
  authMiddleware password authorization
    (try_catchApi
       (tasks <- findAll TaskModel env ;;
        habits <- findAll HabitModel env ;;
        goals <- findAll GoalModel env ;;
        inventory <- findAll InventoryModel env ;;
        retApi (mkResponse 200 (DataBody tasks habits goals inventory)))%api
       (fun e => retApi (mkResponse 500 (ErrorBody e)))).

(** [await M.deleteMany({}); if (data.length > 0) await M.insertMany(data);] *)
Definition overwrite {D} (M : Model D) (env : ApiEnv) (data : Body) : Api unit :=
  (deleteMany M env ;;
   match data with
   | ArrayBody l =>
       if Nat.ltb 0 (List.length l) then insertMany M env l else retApi tt
   | ObjectBody length_positive doc =>
       if length_positive then insertMany M env [doc] else retApi tt
   | NoBody =>
       throwApi "TypeError: Cannot read properties of undefined (reading 'length')"
   end)%api.

(** [POST /api/sync/:module] (lines 230-255) *)
Definition post_sync (password : string) (env : ApiEnv) (authorization : option string)
    (module : string) (data : Body) : Api Response :=
  authMiddleware password authorization
    (try_catchApi
       (if String.eqb module "tasks" then
          (overwrite TaskModel env data ;; retApi (mkResponse 200 SuccessBody))%api
        else if String.eqb module "habits" then
          (overwrite HabitModel env data ;; retApi (mkResponse 200 SuccessBody))%api
        else if String.eqb module "goals" then
          (overwrite GoalModel env data ;; retApi (mkResponse 200 SuccessBody))%api
        else if String.eqb module "inventory" then
          (overwrite InventoryModel env data ;; retApi (mkResponse 200 SuccessBody))%api
        else retApi (mkResponse 400 (ErrorBody "Invalid module")))
       (fun e =>
          (console (console_error e) ;;
           retApi (mkResponse 500 (ErrorBody "Sync failed")))%api)).

(** The arguments of a [createTask] tool call, as far as [Task] keeps
    them. *)
Record ToolArgs := mkToolArgs {
  a_title          : option string;
  a_date           : option string;
  a_startTime      : option string;
  a_category       : option string;
  a_reminderOffset : option Z
}.

(** The object [newTask] of lines 295-305; [id] is [generateId()] and
    [today] is [now.toISOString().split('T')[0]]. *)
Definition newTask (args : ToolArgs) (id today : string) : RawDoc :=
  mkRawDoc None (Some id)
           (Some (or_default args.(a_title) "新任务"))
           (Some (or_default args.(a_date) today))
           (Some (or_default args.(a_startTime) "09:00"))
           (Some false)
           (Some match args.(a_reminderOffset) with
                 | Some o => o
                 | None => 5
                 end)
           None None None None None
           (Some (or_default args.(a_category) "工作"))
           None None None.

(** The [createTask] branch of [POST /api/chat] (lines 294-308) inside
    its [try] (322-324): the reply text and [dataChanged]. *)
Definition createTask (env : ApiEnv) (args : ToolArgs) (id today responseText : string)
    : Api (string * bool) :=
  try_catchApi
    (create TaskModel env (newTask args id today) ;;
     retApi ("已创建任务: " ++ or_default args.(a_title) "新任务", true))%api
    (fun e =>
       (console (console_error ("Tool execution failed " ++ e)) ;;
        retApi (responseText, false))%api).

(** A value as [JSON.parse] makes it, where the handler uses it before
    a schema has cast it: [null], a boolean, a number (an integer here),
    a string, or an array or object. *)
Inductive JSValue :=
| JSNull
| JSBoolean (b : bool)
| JSNumber (n : Z)
| JSString (s : string)
| JSObject.

(** ToBoolean of a property that may be absent. *)
Definition truthy (x : option JSValue) : bool :=
  match x with
  | None => false
  | Some JSNull => false
  | Some (JSBoolean b) => b
  | Some (JSNumber n) => negb (n =? 0)
  | Some (JSString s) => negb (String.eqb s EmptyString)
  | Some JSObject => true
  end.

(** [x || d] on such a value: the value itself when it is truthy. *)
Definition or_value (x : option JSValue) (d : JSValue) : JSValue :=
  match x with
  | Some v => if truthy x then v else d
  | None => d
  end.

(** The runtime's [Number(s)] for a string [s]; [None] is NaN. *)
Definition NumberParser := string -> option Z.

(** The cast of a path of type [Number] (Mongoose's [castNumber]):
    [null] stays, the empty string becomes [null], a string or a boolean
    goes through [Number], and NaN, an array or an object is refused
    with a CastError, here [None]. *)
Definition castNumber (Number_ofString : NumberParser) (v : JSValue) : option (option Z) :=
  match v with
  | JSNull => Some None
  | JSBoolean b => Some (Some (if b then 1 else 0))
  | JSNumber n => Some (Some n)
  | JSString s =>
      if String.eqb s EmptyString then Some None
      else match Number_ofString s with
           | Some n => Some (Some n)
           | None => None
           end
  | JSObject => None
  end.

(** The arguments of an [addToInventory] tool call; [quantity] is used
    as the tool call gives it. *)
Record ItemArgs := mkItemArgs {
  i_name     : option string;
  i_quantity : option JSValue;
  i_category : option string
}.

(** [toolCall.args.quantity || 1] (line 313) *)
Definition newItem_quantity (args : ItemArgs) : JSValue :=
  or_value args.(i_quantity) (JSNumber 1).

(** The object [newItem] of lines 310-317 as a document of
    [inventorySchema]; [quantity] is what the cast makes of
    [newItem_quantity]. *)
Definition newItem (args : ItemArgs) (quantity : option Z) (id today : string) : RawDoc :=
  mkRawDoc None (Some id) None None None None None None
           (Some (or_default args.(i_name) "新物品"))
           None
           (Some "全新")
           None
           (Some (or_default args.(i_category) "通用"))
           quantity
           (Some today)
           None.

(** The [addToInventory] branch of [POST /api/chat] (lines 309-321)
    inside the same [try].  [Inventory.create] casts the paths first: a
    quantity that cannot be cast rejects it before the store is
    reached. *)
Definition addToInventory (Number_ofString : NumberParser) (env : ApiEnv)
    (args : ItemArgs) (id today responseText : string) : Api (string * bool) :=
  try_catchApi
    (match castNumber Number_ofString (newItem_quantity args) with
     | Some quantity => create InventoryModel env (newItem args quantity id today)
     | None => throwApi "ValidationError: Cast to Number failed at path quantity"
     end ;;
     retApi ("已添加物品: " ++ or_default args.(i_name) "新物品", true))%api
    (fun e =>
       (console (console_error ("Tool execution failed " ++ e)) ;;
        retApi (responseText, false))%api).

(** The tick of the scheduler, on the database. *)
Definition tickDb (env : Env) : Api unit := onCore (tick env).

(** ** Runs of the server *)

Inductive Operation :=
| Tick (env : Env)
| Subscribe (env : ApiEnv) (subData : Subscription)
| Login (req_password : option string)
| GetData (env : ApiEnv) (authorization : option string)
| Sync (env : ApiEnv) (authorization : option string) (module : string) (data : Body)
| CreateTask (env : ApiEnv) (args : ToolArgs) (id today responseText : string)
| AddToInventory (Number_ofString : NumberParser) (env : ApiEnv) (args : ItemArgs)
                 (id today responseText : string).

(** The database after one operation, for the configured password. *)
Definition perform (password : string) (op : Operation) (db : Database) : Database :=
  match op with
  | Tick env => fst (tickDb env db)
  | Subscribe env subData => fst (post_subscribe env subData db)
  | Login req_password => fst (post_login password req_password db)
  | GetData env authorization => fst (get_data password env authorization db)
  | Sync env authorization module data =>
      fst (post_sync password env authorization module data db)
  | CreateTask env args id today responseText =>
      fst (createTask env args id today responseText db)
  | AddToInventory Number_ofString env args id today responseText =>
      fst (addToInventory Number_ofString env args id today responseText db)
  end.

Fixpoint performAll (password : string) (ops : list Operation) (db : Database) : Database :=
  match ops with
  | [] => db
  | op :: ops' => performAll password ops' (perform password op db)
  end.

Definition emptyDatabase : Database := mkDatabase (mkWorld [] [] []) [] [] [].

(** ** Vocabulary of the further properties *)

Definition isPush (ev : Event) : bool :=
  match ev with
  | sendNotification _ _ => true
  | _ => false
  end.

(** A push, a delete or a save. *)
Definition isWrite (ev : Event) : bool :=
  match ev with
  | sendNotification _ _ | Subscription_deleteOne _ | Task_save _ => true
  | _ => false
  end.

(** The only change to the subscription collection is that endpoints
    satisfying [P] were deleted. *)
Definition prunes (P : string -> Prop) (w w' : World) : Prop :=
  exists eps, Forall P eps /\ w'.(Subscriptions) = removeAll eps w.(Subscriptions).

(** Clock readings of successive ticks: each one later than the one
    before by at most [gap] milliseconds. *)
Fixpoint spaced (gap : Z) (first : Z) (later : list Z) : Prop :=
  match later with
  | [] => True
  | n :: later' => first <= n <= first + gap /\ spaced gap n later'
  end.

(** The keys an insert gives the documents of [data], counted from the
    [i]-th of the request, and the documents it stores. *)
Fixpoint assignedKeys (newKey : nat -> nat) (i : nat) (data : list RawDoc) : list nat :=
  match data with
  | [] => []
  | raw :: rest =>
      match raw.(r__id) with
      | Some k => k
      | None => newKey i
      end :: assignedKeys newKey (S i) rest
  end.

Fixpoint castAll {D} (M : Model D) (newKey : nat -> nat) (i : nat) (data : list RawDoc)
    : list D :=
  match data with
  | [] => []
  | raw :: rest =>
      cast M match raw.(r__id) with
             | Some k => k
             | None => newKey i
             end raw :: castAll M newKey (S i) rest
  end.

(** The store answers every operation of a request. *)
Definition apiAvailable (env : ApiEnv) : Prop :=
  env.(findOneAndUpdate_rejects) = None
  /\ (forall m, env.(find_rejects) m = None)
  /\ (forall m, env.(deleteMany_rejects) m = None)
  /\ (forall m, env.(insertMany_rejects) m = None)
  /\ env.(create_rejects) = None.

(** ** Sample requests *)

Definition sampleDatabase : Database :=
  mkDatabase sampleWorld
    [mkDocument 7 (mkRawDoc None (Some "h-1") None None None None None None
                            (Some "Read") (Some [("2024-01-14", true)])
                            None None None None None None)]
    [] [].

(** Every store operation goes through. *)
Definition okApi : ApiEnv :=
  mkApiEnv None (fun _ => None) (fun _ => None) (fun _ => None) None
           (fun i => (100 + i)%nat).

(** The connection drops after the first document of an insert. *)
Definition flakyApi : ApiEnv :=
  mkApiEnv None (fun _ => None) (fun _ => None)
           (fun _ => Some (1%nat, "MongoNetworkError")) None
           (fun i => (100 + i)%nat).

(** The store rejects the upsert of a subscription. *)
Definition downApi : ApiEnv :=
  mkApiEnv (Some "MongoNetworkError") (fun _ => None) (fun _ => None)
           (fun _ => None) None (fun i => (100 + i)%nat).

Definition newPhone : Subscription :=
  mkSubscription "https://push.example/new-phone" (mkKeys "BPk4" "a4").

(** The laptop registers again, with fresh keys. *)
Definition laptopAgain : Subscription :=
  mkSubscription "https://push.example/laptop" (mkKeys "BPk9" "a9").

(** The report task as a client holds it after a data request: with its
    key, without a [notified] path. *)
Definition reportRaw : RawDoc :=
  mkRawDoc (Some 1%nat) (Some "t-1") (Some "Write report") (Some "2024-01-15")
           (Some "10:00") (Some false) (Some 5) None
           None None None None None None None None.

(** A task the client has just made: no key yet, reminder at the start. *)
Definition lunchRaw : RawDoc :=
  mkRawDoc None (Some "t-9") (Some "Lunch") (Some "2024-01-15")
           (Some "12:00") (Some false) (Some 0) None
           None None None None None None None None.

(** The new phone's subscription has expired; the others receive. *)
Definition expiredEnv : Env :=
  mkEnv (isoLocalParse 0) 1 at_0955 None None
        (fun sub _ =>
           if String.eqb sub.(endpoint) "https://push.example/new-phone"
           then Some (mkWebPushError (Some 404) "Not Found")
           else None)
        (fun _ => None) (fun _ => None).

Definition laptopOnly : Database :=
  mkDatabase (mkWorld [reportTask] [laptop] []) [] [] [].

(** The handler [m] leaves the reading [f] of the database as it was,
    however it ends. *)
Definition keeps {X A} (f : Database -> X) (m : Api A) : Prop :=
  forall db, f (fst (m db)) = f db.

(** The handler [m] keeps the property [P] of the database, however it
    ends. *)
Definition maintains {A} (P : Database -> Prop) (m : Api A) : Prop :=
  forall db, P db -> P (fst (m db)).

(** Endpoints and task keys are unique. *)
Definition wellKeyed (db : Database) : Prop :=
  uniqueEndpoints db.(core) /\ uniqueKeys db.(core).

(** A tool call that names a title and a time and leaves the rest open. *)
Definition reviewArgs : ToolArgs :=
  mkToolArgs (Some "Review") (Some "2024-01-15") (Some "10:00") None None.

(** [Task.create] is rejected. *)
Definition createFailsApi : ApiEnv :=
  mkApiEnv None (fun _ => None) (fun _ => None) (fun _ => None)
           (Some "ValidationError") (fun i => (100 + i)%nat).


(** * Properties *)

(** ** Minute buckets and the matcher *)

Lemma minuteBucket_shift (x k : Z) :
  minuteBucket (x - k * 60000) = minuteBucket x - k * 60000.
Proof.
  unfold minuteBucket.
  replace (x - k * 60000) with (x + (- k) * 60000) by ring.
  rewrite Z.div_add by lia. ring.
Qed.

Lemma minuteBucket_multiple (x : Z) :
  x mod 60000 = 0 -> minuteBucket x = x.
Proof.
  intros H. unfold minuteBucket.
  pose proof (Z.div_mod x 60000 ltac:(lia)). lia.
Qed.

Lemma TimeClip_Some (x y : Z) : TimeClip x = Some y -> y = x.
Proof.
  unfold TimeClip. destruct (Z.abs x <=? 8640000000000000); congruence.
Qed.

Lemma isDue_true_iff (Date_parse : DateParser) (ts : Z) (t : Task) :
  isDue Date_parse ts t = true <->
  exists start trigger,
    Date_parse (taskTimeStr t) = Some start
    /\ TimeClip (start - match reminderOffset t with
                         | Some o => o
                         | None => 5
                         end * 60000) = Some trigger
    /\ ts = minuteBucket trigger.
Proof.
  unfold isDue. split.
  - destruct (Date_parse (taskTimeStr t)) as [start|]; [|discriminate].
    destruct (TimeClip _) as [trigger|] eqn:E; [|discriminate].
    intros H. exists start, trigger. apply Z.eqb_eq in H. auto.
  - intros (start & trigger & -> & -> & ->). apply Z.eqb_refl.
Qed.

Lemma TimeClip_bound (x y : Z) : TimeClip x = Some y -> Z.abs x <= 8640000000000000.
Proof.
  unfold TimeClip. destruct (Z.leb_spec (Z.abs x) 8640000000000000); [auto | discriminate].
Qed.

(** A task can only be due with an offset of less than 2.9e11 minutes,
    when its start is a valid time value. *)
Lemma due_offset_bounded (Date_parse : DateParser) (ts : Z) (t : Task) (start : Z) :
  Date_parse (taskTimeStr t) = Some start ->
  Z.abs start <= 8640000000000000 ->
  isDue Date_parse ts t = true ->
  Z.abs match reminderOffset t with
        | Some o => o
        | None => 5
        end <= 288000000000.
Proof.
  intros Hp Hs Hdue. apply isDue_true_iff in Hdue.
  destruct Hdue as (s & trigger & Hs' & Ht & _).
  rewrite Hp in Hs'. injection Hs' as <-.
  apply TimeClip_bound in Ht. lia.
Qed.

Lemma tasksToNotify_In (Date_parse : DateParser) (ts : Z) (tasks : list Task) (t : Task) :
  In t (tasksToNotify Date_parse ts tasks) <-> In t tasks /\ isDue Date_parse ts t = true.
Proof. unfold tasksToNotify. apply filter_In. Qed.

Lemma candidateQuery_true_iff (t : Task) :
  candidateQuery t = true <->
  completed t = Some false /\ notified t = Some false /\ reminderOffset t <> Some (-1).
Proof.
  unfold candidateQuery, field_eq_bool, field_ne_Z.
  destruct (completed t) as [[|]|], (notified t) as [[|]|],
           (reminderOffset t) as [o|]; simpl;
    try (split; [discriminate | intros (? & ? & ?); congruence]).
  - destruct (Z.eqb_spec o (-1)); simpl; split; try discriminate.
    + intros (_ & _ & H). subst. congruence.
    + intros _. repeat split. congruence.
    + auto.
  - split; auto. repeat split. discriminate.
Qed.

Lemma dueIn_In (env : Env) (w : World) (t : Task) :
  In t (dueIn env w) <->
  In t (Tasks w) /\ candidateQuery t = true
  /\ isDue (Date_parse env) (minuteBucket (now env)) t = true.
Proof.
  unfold dueIn. rewrite tasksToNotify_In, filter_In. tauto.
Qed.

(** ** The reference parser *)

Lemma isoLocalParse_length (tz : Z) (s : string) (v : Z) :
  isoLocalParse tz s = Some v -> String.length s = 19%nat.
Proof.
  unfold isoLocalParse.
  do 19 (destruct s as [|? s]; [simpl; discriminate|]).
  destruct s; [reflexivity | simpl; discriminate].
Qed.

Lemma length_append (a b : string) :
  String.length (a ++ b) = (String.length a + String.length b)%nat.
Proof. induction a; simpl; auto. Qed.

Lemma isoLocalParse_same_day (tz : Z) (d : string) (start : Z) :
  isoLocalParse tz (d ++ "T10:00:00") = Some start ->
  start mod 60000 = 0
  /\ isoLocalParse tz (d ++ "T09:55:00") = TimeClip (start - 5 * 60000)
  /\ isoLocalParse tz (d ++ "T09:54:00") = TimeClip (start - 6 * 60000)
  /\ isoLocalParse tz (d ++ "T09:56:00") = TimeClip (start - 4 * 60000).
Proof.
  intros H. pose proof (isoLocalParse_length _ _ _ H) as L.
  rewrite length_append in L. simpl in L.
  do 10 (destruct d as [|? d]; [simpl in L; lia|]).
  destruct d; [|simpl in L; lia]. clear L.
  revert H. unfold isoLocalParse.
  cbn [append list_ascii_of_string].
  change (digits 0 ["1"%char; "0"%char]) with (Some 10).
  change (digits 0 ["0"%char; "0"%char]) with (Some 0).
  change (digits 0 ["0"%char; "9"%char]) with (Some 9).
  change (digits 0 ["5"%char; "5"%char]) with (Some 55).
  change (digits 0 ["5"%char; "4"%char]) with (Some 54).
  change (digits 0 ["5"%char; "6"%char]) with (Some 56).
  destruct (_ && _ && _ && _ && _); [|discriminate].
  destruct (digits 0 [a; a0; a1; a2]) as [y|]; [|discriminate].
  destruct (digits 0 [a4; a5]) as [m|]; [|discriminate].
  destruct (digits 0 [a7; a8]) as [dd|]; [|discriminate].
  cbv beta iota.
  change ((10 <=? 23) && (0 <=? 59) && (0 <=? 59) || (10 =? 24) && (0 =? 0) && (0 =? 0))
    with true.
  change ((9 <=? 23) && (55 <=? 59) && (0 <=? 59) || (9 =? 24) && (55 =? 0) && (0 =? 0))
    with true.
  change ((9 <=? 23) && (54 <=? 59) && (0 <=? 59) || (9 =? 24) && (54 =? 0) && (0 =? 0))
    with true.
  change ((9 <=? 23) && (56 <=? 59) && (0 <=? 59) || (9 =? 24) && (56 =? 0) && (0 =? 0))
    with true.
  destruct ((1 <=? m) && (m <=? 12) && (1 <=? dd) && (dd <=? 31) && true);
    [|discriminate].
  intros H. apply TimeClip_Some in H. subst start.
  set (D := daysFromCivil y m dd).
  split; [|repeat split; f_equal; ring].
  replace (D * 86400000 + 10 * 3600000 + 0 * 60000 + 0 * 1000 - tz * 60000)
    with ((D * 1440 + 600 - tz) * 60000) by ring.
  apply Z.mod_mul. lia.
Qed.

(** ** C1: boundary precision of the matcher *)

(** C1.  The matcher keeps a task exactly when its start instant parses,
    the trigger instant (start minus the resolved offset in minutes) is a
    valid time value, and the minute bucket of the trigger equals the
    minute bucket of the clock reading of the tick.  For a task with
    [reminderOffset = 5] and [startTime = "10:00"] whose start is a valid
    instant, read by the reference parser in any fixed-offset zone: it is
    kept exactly when the bucket of the clock is 09:55 of the task's day,
    and dropped when that bucket is 09:54 or 09:56. *)
Theorem matcher_minute_bucket_precision
    (Date_parse : DateParser) (tz now : Z) (tasks : list Task) (t : Task)
    (d : string) (start : Z) :
  (In t (tasksToNotify Date_parse (minuteBucket now) tasks) <->
   In t tasks /\
   exists s trigger,
     Date_parse (taskTimeStr t) = Some s
     /\ TimeClip (s - match reminderOffset t with
                      | Some o => o
                      | None => 5
                      end * 60000) = Some trigger
     /\ trigger / 60000 * 60000 = now / 60000 * 60000)
  /\ (In t tasks ->
      date t = Some d -> startTime t = Some "10:00" -> reminderOffset t = Some 5 ->
      isoLocalParse tz (d ++ "T10:00:00") = Some start ->
      (In t (tasksToNotify (isoLocalParse tz) (minuteBucket now) tasks) <->
       isoLocalParse tz (d ++ "T09:55:00") = Some (minuteBucket now))
      /\ (isoLocalParse tz (d ++ "T09:54:00") = Some (minuteBucket now) ->
          ~ In t (tasksToNotify (isoLocalParse tz) (minuteBucket now) tasks))
      /\ (isoLocalParse tz (d ++ "T09:56:00") = Some (minuteBucket now) ->
          ~ In t (tasksToNotify (isoLocalParse tz) (minuteBucket now) tasks))).
Proof.
  split.
  - rewrite tasksToNotify_In, isDue_true_iff. fold (minuteBucket now).
    split.
    + intros (Hin & s & trigger & Hs & Ht & Hb). split; [assumption|].
      exists s, trigger. fold (minuteBucket trigger). auto.
    + intros (Hin & s & trigger & Hs & Ht & Hb). split; [assumption|].
      exists s, trigger. fold (minuteBucket trigger) in Hb. auto.
  - intros Hin Hd Hst Ho Hstart.
    destruct (isoLocalParse_same_day _ _ _ Hstart) as (Hmod & H55 & H54 & H56).
    assert (Hstr : taskTimeStr t = d ++ "T10:00:00").
    { unfold taskTimeStr. rewrite Hd, Hst. reflexivity. }
    assert (Hdue : In t (tasksToNotify (isoLocalParse tz) (minuteBucket now) tasks) <->
                   TimeClip (start - 5 * 60000) = Some (minuteBucket now)).
    { rewrite tasksToNotify_In, isDue_true_iff, Hstr, Ho. split.
      - intros (_ & s & trigger & Hs & Ht & Hb).
        rewrite Hstart in Hs. injection Hs as <-.
        rewrite Ht, Hb. f_equal.
        apply TimeClip_Some in Ht. subst trigger.
        rewrite minuteBucket_shift, (minuteBucket_multiple start) by assumption.
        reflexivity.
      - intros Ht. split; [assumption|].
        exists start, (minuteBucket now). repeat split; try assumption.
        apply TimeClip_Some in Ht. rewrite Ht at 2.
        rewrite minuteBucket_shift, (minuteBucket_multiple start) by assumption.
        exact Ht. }
    rewrite H55, H54, H56. split; [assumption|].
    split; intros Hother Habs; apply Hdue in Habs;
      apply TimeClip_Some in Hother; apply TimeClip_Some in Habs; lia.
Qed.

Lemma matcher_minute_bucket_precision_witness :
  In reportTask (tasksToNotify (isoLocalParse 0) (minuteBucket at_0955) (Tasks sampleWorld))
  /\ ~ In reportTask (tasksToNotify (isoLocalParse 0) (minuteBucket (at_0955 - 60000))
                                    (Tasks sampleWorld))
  /\ ~ In reportTask (tasksToNotify (isoLocalParse 0) (minuteBucket (at_0955 + 60000))
                                    (Tasks sampleWorld)).
Proof.
  assert (Hin : In reportTask (Tasks sampleWorld)) by (simpl; auto).
  split; [|split].
  - destruct (proj2 (matcher_minute_bucket_precision (isoLocalParse 0) 0 at_0955
                (Tasks sampleWorld) reportTask "2024-01-15" 1705312800000)
                Hin eq_refl eq_refl eq_refl eq_refl) as (H55 & _ & _).
    apply H55. reflexivity.
  - destruct (proj2 (matcher_minute_bucket_precision (isoLocalParse 0) 0 (at_0955 - 60000)
                (Tasks sampleWorld) reportTask "2024-01-15" 1705312800000)
                Hin eq_refl eq_refl eq_refl eq_refl) as (_ & H54 & _).
    apply H54. reflexivity.
  - destruct (proj2 (matcher_minute_bucket_precision (isoLocalParse 0) 0 (at_0955 + 60000)
                (Tasks sampleWorld) reportTask "2024-01-15" 1705312800000)
                Hin eq_refl eq_refl eq_refl eq_refl) as (_ & _ & H56).
    apply H56. reflexivity.
Defined.

(** ** Asynchronous code: combinators and relations *)

Section Preservation.
Variable R : World -> World -> Prop.
Hypothesis R_refl : forall w, R w w.
Hypothesis R_trans : forall a b c, R a b -> R b c -> R a c.

Lemma preserves_ret {A} (a : A) : preserves R (ret a).
Proof. intros w. apply R_refl. Qed.

Lemma preserves_throw {A} (e : string) : preserves R (@throw A e).
Proof. intros w. apply R_refl. Qed.

Lemma preserves_bind {A B} (m : Async A) (k : A -> Async B) :
  preserves R m -> (forall a, preserves R (k a)) -> preserves R (bind m k).
Proof.
  intros Hm Hk w. unfold bind. specialize (Hm w).
  destruct (m w) as [w1 [a|e]]; simpl in *.
  - eapply R_trans; [exact Hm | apply Hk].
  - exact Hm.
Qed.

Lemma preserves_try_catch {A} (m : Async A) (h : string -> Async A) :
  preserves R m -> (forall e, preserves R (h e)) -> preserves R (try_catch m h).
Proof.
  intros Hm Hh w. unfold try_catch. specialize (Hm w).
  destruct (m w) as [w1 [a|e]]; simpl in *.
  - exact Hm.
  - eapply R_trans; [exact Hm | apply Hh].
Qed.

Lemma preserves_for_of {A} (l : list A) (body : A -> Async unit) :
  (forall x, In x l -> preserves R (body x)) -> preserves R (for_of l body).
Proof.
  induction l as [|x l IH]; intros H; simpl.
  - apply preserves_ret.
  - apply preserves_bind.
    + apply H. left. reflexivity.
    + intros _. apply IH. intros y Hy. apply H. right. exact Hy.
Qed.

Lemma preserves_Promise_all {A} (ps : list (Async A)) :
  Forall (preserves R) ps -> preserves R (Promise_all ps).
Proof.
  induction 1 as [|p ps Hp _ IH]; intros w; simpl.
  - apply R_refl.
  - specialize (Hp w). destruct (p w) as [w1 r1]. simpl in Hp.
    specialize (IH w1). destruct (Promise_all ps w1) as [w2 r2]. simpl in *.
    eapply R_trans; eassumption.
Qed.
End Preservation.

Lemma markNotified_nil (l : list Task) : markNotified [] l = l.
Proof. unfold markNotified. simpl. apply map_id. Qed.

Lemma markNotified_app (ids1 ids2 : list nat) (l : list Task) :
  markNotified ids2 (markNotified ids1 l) = markNotified (ids1 ++ ids2) l.
Proof.
  unfold markNotified. rewrite map_map. apply map_ext. intros d.
  rewrite existsb_app.
  destruct (existsb (Nat.eqb (_id d)) ids1); simpl.
  - destruct (existsb (Nat.eqb (_id d)) ids2); reflexivity.
  - reflexivity.
Qed.

Lemma marks_refl (P : nat -> Prop) (w : World) : marks P w w.
Proof. exists []. split; [constructor | symmetry; apply markNotified_nil]. Qed.

Lemma marks_trans (P : nat -> Prop) (a b c : World) :
  marks P a b -> marks P b c -> marks P a c.
Proof.
  intros (i1 & F1 & E1) (i2 & F2 & E2). exists (i1 ++ i2)%list. split.
  - apply Forall_app. auto.
  - rewrite E2, E1. apply markNotified_app.
Qed.

Lemma marks_weaken (P Q : nat -> Prop) (w w' : World) :
  (forall id, P id -> Q id) -> marks P w w' -> marks Q w w'.
Proof.
  intros H (ids & F & E). exists ids. split; [|exact E].
  eapply Forall_impl; eassumption.
Qed.

Lemma tasksKept_marks (P : nat -> Prop) (w w' : World) : tasksKept w w' -> marks P w w'.
Proof.
  intros H. exists []. split; [constructor|].
  rewrite markNotified_nil. exact H.
Qed.

Lemma tasksKept_refl (w : World) : tasksKept w w.
Proof. reflexivity. Qed.

Lemma tasksKept_trans (a b c : World) : tasksKept a b -> tasksKept b c -> tasksKept a c.
Proof. unfold tasksKept. congruence. Qed.

Lemma subscriptionsKept_refl (w : World) : subscriptionsKept w w.
Proof. reflexivity. Qed.

Lemma subscriptionsKept_trans (a b c : World) :
  subscriptionsKept a b -> subscriptionsKept b c -> subscriptionsKept a c.
Proof. unfold subscriptionsKept. congruence. Qed.

(** ** What each operation touches *)

Lemma emit_run (ev : Event) (w : World) : emit ev w = (journaled w [ev], Normal tt).
Proof. reflexivity. Qed.

Lemma deleteOne_run (env : Env) (ep : string) (w : World) :
  deleteOne env ep w =
  match deleteOne_rejects env ep with
  | Some e => (journaled w [Subscription_deleteOne ep], Throw e)
  | None => (mkWorld (Tasks w) (remove_first ep (Subscriptions w))
                     (journal w ++ [Subscription_deleteOne ep]), Normal tt)
  end.
Proof.
  unfold deleteOne, bind. rewrite emit_run.
  destruct (deleteOne_rejects env ep); reflexivity.
Qed.

Lemma save_run (env : Env) (t : Task) (w : World) :
  save env (set_notified true t) w =
  match save_rejects env (set_notified true t) with
  | Some e => (journaled w [Task_save (_id t)], Throw e)
  | None => (mkWorld (markNotified [_id t] (Tasks w)) (Subscriptions w)
                     (journal w ++ [Task_save (_id t)]), Normal tt)
  end.
Proof.
  unfold save, bind. rewrite emit_run.
  destruct (save_rejects env (set_notified true t)); [reflexivity|].
  simpl. unfold markNotified. simpl. f_equal. f_equal.
  apply map_ext. intros d. rewrite Bool.orb_false_r. reflexivity.
Qed.

Lemma notifySubscriber_run (env : Env) (p : string) (sub : Subscription) (w : World) :
  notifySubscriber env p sub w =
  match push env sub p with
  | None => (journaled w [sendNotification sub p], Normal tt)
  | Some err =>
      if statusCode_is err 410 || statusCode_is err 404
      then deleteOne env (endpoint sub) (journaled w [sendNotification sub p])
      else (journaled w [sendNotification sub p;
                         console_error ("Push Error: " ++ message err)], Normal tt)
  end.
Proof.
  unfold notifySubscriber, bind. rewrite emit_run.
  destruct (push env sub p) as [err|]; [|reflexivity].
  destruct (statusCode_is err 410 || statusCode_is err 404); [reflexivity|].
  rewrite emit_run. unfold journaled. simpl. rewrite <- app_assoc. reflexivity.
Qed.

Lemma notifySubscriber_tasksKept (env : Env) (p : string) (sub : Subscription) :
  preserves tasksKept (notifySubscriber env p sub).
Proof.
  intros w. rewrite notifySubscriber_run.
  destruct (push env sub p) as [err|]; [|reflexivity].
  destruct (_ || _); [|reflexivity].
  rewrite deleteOne_run. destruct (deleteOne_rejects _ _); reflexivity.
Qed.

Lemma delivery_tasksKept (env : Env) (p : string) (subs : list Subscription) :
  preserves tasksKept (Promise_all (promises env p subs)).
Proof.
  apply preserves_Promise_all.
  - exact tasksKept_refl.
  - exact tasksKept_trans.
  - unfold promises. apply Forall_map, Forall_forall. intros sub _.
    apply notifySubscriber_tasksKept.
Qed.

Lemma save_marks (env : Env) (t : Task) :
  preserves (marks (eq (_id t))) (save env (set_notified true t)).
Proof.
  intros w. rewrite save_run. destruct (save_rejects _ _).
  - apply tasksKept_marks. reflexivity.
  - exists [_id t]. split; [repeat constructor | reflexivity].
Qed.

Lemma notifyTask_marks (env : Env) (subs : list Subscription) (t : Task) :
  preserves (marks (eq (_id t))) (notifyTask env subs t).
Proof.
  unfold notifyTask. apply preserves_bind.
  - apply marks_trans.
  - intros w. apply tasksKept_marks. apply delivery_tasksKept.
  - intros _. apply save_marks.
Qed.

Lemma loop_marks (env : Env) (subs : list Subscription) (due : list Task) :
  preserves (marks (fun id => In id (map _id due))) (for_of due (notifyTask env subs)).
Proof.
  apply preserves_for_of.
  - apply marks_refl.
  - apply marks_trans.
  - intros t Ht w. eapply marks_weaken; [|apply notifyTask_marks].
    intros id <-. apply in_map. exact Ht.
Qed.

(** ** The tick, step by step *)

Lemma journaled_journaled (w : World) (a b : list Event) :
  journaled (journaled w a) b = journaled w (a ++ b).
Proof. unfold journaled. simpl. rewrite <- app_assoc. reflexivity. Qed.

Lemma tick_unfold (env : Env) (w : World) :
  tick env w =
  if negb (readyState env =? 1) then (w, Normal tt)
  else
    match Subscription_find_rejects env with
    | Some e =>
        (journaled w [Subscription_find;
                      console_error ("Notification Loop Error: " ++ e)], Normal tt)
    | None =>
        if Nat.eqb (List.length (Subscriptions w)) 0
        then (journaled w [Subscription_find], Normal tt)
        else
          match Task_find_rejects env with
          | Some e =>
              (journaled w [Subscription_find; Task_find;
                            console_error ("Notification Loop Error: " ++ e)], Normal tt)
          | None =>
              if Nat.ltb 0 (List.length (dueIn env w))
              then
                try_catch (for_of (dueIn env w) (notifyTask env (Subscriptions w)))
                  (fun e => emit (console_error ("Notification Loop Error: " ++ e)))
                  (journaled w
                     [Subscription_find; Task_find;
                      console_log ("Found "
                                   ++ Number_toString (Z.of_nat (List.length (dueIn env w)))
                                   ++ " tasks to notify.")])
              else (journaled w [Subscription_find; Task_find], Normal tt)
          end
    end.
Proof.
  unfold tick. destruct (negb (readyState env =? 1)); [reflexivity|].
  unfold try_catch, tickBody, find_subscriptions, find_tasks, bind.
  rewrite emit_run.
  destruct (Subscription_find_rejects env) as [e|].
  { unfold throw. rewrite emit_run, journaled_journaled. reflexivity. }
  change (Subscriptions (journaled w [Subscription_find])) with (Subscriptions w).
  destruct (Nat.eqb (List.length (Subscriptions w)) 0); [reflexivity|].
  rewrite emit_run, journaled_journaled.
  destruct (Task_find_rejects env) as [e|].
  { unfold throw. rewrite emit_run, journaled_journaled. reflexivity. }
  change (Tasks (journaled w ([Subscription_find] ++ [Task_find]))) with (Tasks w).
  fold (dueIn env w).
  destruct (Nat.ltb 0 (List.length (dueIn env w))); [|reflexivity].
  rewrite emit_run, journaled_journaled. reflexivity.
Qed.

Lemma tick_returns (env : Env) (w : World) : snd (tick env w) = Normal tt.
Proof.
  unfold tick. destruct (negb (readyState env =? 1)); [reflexivity|].
  unfold try_catch. destruct (tickBody env w) as [w' [[]|e]]; reflexivity.
Qed.

Lemma tick_marks (env : Env) (w : World) :
  marks (fun id => In id (map _id (dueIn env w))) w (after_tick env w).
Proof.
  unfold after_tick. rewrite tick_unfold.
  destruct (negb (readyState env =? 1)); [apply marks_refl|].
  destruct (Subscription_find_rejects env); [apply tasksKept_marks; reflexivity|].
  destruct (Nat.eqb _ 0); [apply tasksKept_marks; reflexivity|].
  destruct (Task_find_rejects env); [apply tasksKept_marks; reflexivity|].
  destruct (Nat.ltb 0 _); [|apply tasksKept_marks; reflexivity].
  match goal with
  | |- marks _ _ (fst (try_catch _ _ ?w0)) =>
      apply marks_trans with (b := w0); [apply tasksKept_marks; reflexivity|]
  end.
  apply preserves_try_catch.
  - apply marks_trans.
  - apply loop_marks.
  - intros e w'. apply tasksKept_marks. reflexivity.
Qed.

(** ** A tick against an available store *)

Lemma removeAll_app (a b : list string) (l : list Subscription) :
  removeAll (a ++ b) l = removeAll b (removeAll a l).
Proof. unfold removeAll. apply fold_left_app. Qed.

Lemma delivery_run (env : Env) (p : string) (subs : list Subscription) :
  (forall ep, deleteOne_rejects env ep = None) ->
  forall w, exists l,
    Promise_all (promises env p subs) w =
    (mkWorld (Tasks w)
             (removeAll (goneEndpoints env p subs) (Subscriptions w))
             (journal w ++ flat_map (handlerEvents env p) subs), Normal l).
Proof.
  intros Hdel. induction subs as [|sub subs IH]; intros w.
  - exists []. simpl. rewrite app_nil_r. destruct w; reflexivity.
  - simpl. rewrite notifySubscriber_run.
    unfold goneEndpoints, handlerEvents at 1. simpl filter.
    destruct (push env sub p) as [err|] eqn:Hp; simpl isGone.
    + destruct (statusCode_is err 410 || statusCode_is err 404) eqn:Hg.
      * rewrite deleteOne_run, Hdel.
        destruct (IH (mkWorld (Tasks (journaled w [sendNotification sub p]))
                    (remove_first (endpoint sub)
                       (Subscriptions (journaled w [sendNotification sub p])))
                    (journal (journaled w [sendNotification sub p])
                     ++ [Subscription_deleteOne (endpoint sub)]))) as [l ->].
        exists (tt :: l). simpl. unfold goneEndpoints.
        repeat rewrite <- app_assoc. reflexivity.
      * destruct (IH (journaled w [sendNotification sub p;
                                    console_error ("Push Error: " ++ message err)]))
          as [l ->].
        exists (tt :: l). simpl. unfold goneEndpoints.
        repeat rewrite <- app_assoc. reflexivity.
    + destruct (IH (journaled w [sendNotification sub p])) as [l ->].
      exists (tt :: l). simpl. unfold goneEndpoints.
      repeat rewrite <- app_assoc. reflexivity.
Qed.

Lemma notifyTask_run (env : Env) (subs : list Subscription) (t : Task) (w : World) :
  (forall ep, deleteOne_rejects env ep = None) ->
  (forall d, save_rejects env d = None) ->
  notifyTask env subs t w =
  (mkWorld (markNotified [_id t] (Tasks w))
           (removeAll (goneEndpoints env (payload t) subs) (Subscriptions w))
           (journal w ++ taskEvents env subs t), Normal tt).
Proof.
  intros Hdel Hsave. unfold notifyTask, bind.
  destruct (delivery_run env (payload t) subs Hdel w) as [l ->].
  rewrite save_run, Hsave. simpl. unfold taskEvents.
  rewrite <- app_assoc. reflexivity.
Qed.

Lemma loop_run (env : Env) (subs : list Subscription) (due : list Task) :
  (forall ep, deleteOne_rejects env ep = None) ->
  (forall d, save_rejects env d = None) ->
  forall w,
    for_of due (notifyTask env subs) w =
    (mkWorld (markNotified (map _id due) (Tasks w))
             (removeAll (flat_map (fun t => goneEndpoints env (payload t) subs) due)
                        (Subscriptions w))
             (journal w ++ flat_map (taskEvents env subs) due), Normal tt).
Proof.
  intros Hdel Hsave. induction due as [|t due IH]; intros w.
  - simpl. rewrite markNotified_nil, app_nil_r. destruct w; reflexivity.
  - simpl for_of. unfold bind. rewrite notifyTask_run by assumption.
    rewrite IH. simpl. rewrite markNotified_app, removeAll_app, <- app_assoc.
    reflexivity.
Qed.

Lemma tick_available (env : Env) (w : World) :
  storeAvailable env -> Subscriptions w <> [] -> dueIn env w <> [] ->
  after_tick env w =
  mkWorld (markNotified (map _id (dueIn env w)) (Tasks w))
          (removeAll (flat_map (fun t => goneEndpoints env (payload t) (Subscriptions w))
                               (dueIn env w))
                     (Subscriptions w))
          (journal w
           ++ [Subscription_find; Task_find;
               console_log ("Found "
                            ++ Number_toString (Z.of_nat (List.length (dueIn env w)))
                            ++ " tasks to notify.")]
           ++ flat_map (taskEvents env (Subscriptions w)) (dueIn env w)).
Proof.
  intros (Hr & Hsf & Htf & Hdel & Hsave) Hsubs Hdue.
  unfold after_tick. rewrite tick_unfold, Hr, Hsf, Htf. simpl negb. cbv iota.
  destruct (Subscriptions w) as [|s0 subs] eqn:Es; [congruence|]. simpl Nat.eqb. cbv iota.
  destruct (dueIn env w) as [|t0 due] eqn:Ed; [congruence|]. simpl Nat.ltb. cbv iota.
  unfold try_catch. rewrite loop_run by assumption. simpl.
  rewrite Es, <- app_assoc. reflexivity.
Qed.

Lemma markNotified_In (ids : list nat) (l : list Task) (t : Task) :
  In t l -> In (_id t) ids -> In (set_notified true t) (markNotified ids l).
Proof.
  intros Hl Hi. unfold markNotified. apply in_map_iff. exists t. split; [|exact Hl].
  replace (existsb (Nat.eqb (_id t)) ids) with true; [reflexivity|].
  symmetry. apply existsb_exists. exists (_id t). split; [exact Hi | apply Nat.eqb_refl].
Qed.

Lemma markNotified_other (ids : list nat) (l : list Task) (t : Task) :
  In t l -> ~ In (_id t) ids -> In t (markNotified ids l).
Proof.
  intros Hl Hi. unfold markNotified. apply in_map_iff. exists t. split; [|exact Hl].
  replace (existsb (Nat.eqb (_id t)) ids) with false; [reflexivity|].
  symmetry. apply Bool.not_true_is_false. intros H.
  apply existsb_exists in H. destruct H as (i & Hin & He).
  apply Nat.eqb_eq in He. subst. contradiction.
Qed.

Lemma markNotified_inv (ids : list nat) (l : list Task) (d : Task) :
  In d (markNotified ids l) ->
  exists d0, In d0 l /\ _id d = _id d0
             /\ ((d = d0 /\ ~ In (_id d0) ids)
                 \/ (d = set_notified true d0 /\ In (_id d0) ids)).
Proof.
  unfold markNotified. intros H. apply in_map_iff in H. destruct H as (d0 & E & Hin).
  exists d0. split; [exact Hin|].
  destruct (existsb (Nat.eqb (_id d0)) ids) eqn:Hex; subst d.
  - split; [reflexivity|]. right. split; [reflexivity|].
    apply existsb_exists in Hex. destruct Hex as (i & Hi & He).
    apply Nat.eqb_eq in He. subst. exact Hi.
  - split; [reflexivity|]. left. split; [reflexivity|].
    intros Hi. apply Bool.not_true_iff_false in Hex. apply Hex.
    apply existsb_exists. exists (_id d0). split; [exact Hi | apply Nat.eqb_refl].
Qed.

(** Once every document with a key is marked, it stays so. *)
Lemma marks_keeps_notified (P : nat -> Prop) (w w' : World) (id : nat) :
  marks P w w' ->
  (forall d, In d (Tasks w) -> _id d = id -> notified d = Some true) ->
  (forall d, In d (Tasks w') -> _id d = id -> notified d = Some true).
Proof.
  intros (ids & _ & E) H d Hd Hid. rewrite E in Hd.
  apply markNotified_inv in Hd. destruct Hd as (d0 & Hin & Eid & [[-> _] | [-> _]]).
  - apply H; assumption.
  - reflexivity.
Qed.

Lemma run_marks (envs : list Env) (w : World) : marks (fun _ => True) w (run envs w).
Proof.
  revert w. induction envs as [|env envs IH]; intros w; simpl.
  - apply marks_refl.
  - eapply marks_trans; [|apply IH].
    eapply marks_weaken; [|apply tick_marks]. auto.
Qed.

(** ** C2: an attempted dispatch consumes the reminder *)

Lemma due_task_marked (env : Env) (w : World) (t : Task) :
  storeAvailable env -> Subscriptions w <> [] -> In t (dueIn env w) ->
  In (set_notified true t) (Tasks (after_tick env w)).
Proof.
  intros Hstore Hsubs Hdue.
  assert (Hne : dueIn env w <> []) by (intros E; rewrite E in Hdue; contradiction).
  rewrite tick_available by assumption. simpl.
  apply markNotified_In.
  - apply dueIn_In in Hdue. tauto.
  - apply in_map. exact Hdue.
Qed.

(** C2.  In a tick against an available store with at least one
    subscriber, every due task is marked [notified = true] in the task
    collection, whatever each push answered (nothing is assumed of
    [push]: all of them may fail); and in no later tick, whatever
    happens in between, is a document with that key matched again. *)
Theorem attempted_dispatch_consumes_reminder (env : Env) (w : World) (t : Task) :
  storeAvailable env -> Subscriptions w <> [] -> In t (dueIn env w) ->
  In (set_notified true t) (Tasks (after_tick env w))
  /\ (forall d, In d (Tasks (after_tick env w)) -> _id d = _id t ->
                notified d = Some true)
  /\ (forall later env' d,
        In d (dueIn env' (run later (after_tick env w))) -> _id d <> _id t).
Proof.
  intros Hstore Hsubs Hdue.
  assert (Hne : dueIn env w <> []) by (intros E; rewrite E in Hdue; contradiction).
  assert (Hmarked : forall d, In d (Tasks (after_tick env w)) -> _id d = _id t ->
                              notified d = Some true).
  { intros d Hd Hid. rewrite tick_available in Hd by assumption. simpl in Hd.
    apply markNotified_inv in Hd.
    destruct Hd as (d0 & _ & Eid & [[_ Hni] | [-> _]]); [|reflexivity].
    exfalso. apply Hni. rewrite <- Eid, Hid. apply in_map. exact Hdue. }
  split; [|split].
  - apply due_task_marked; assumption.
  - exact Hmarked.
  - intros later env' d Hd Hid.
    apply dueIn_In in Hd. destruct Hd as (Hin & Hq & _).
    apply candidateQuery_true_iff in Hq. destruct Hq as (_ & Hn & _).
    pose proof (marks_keeps_notified _ _ _ (_id t)
                  (run_marks later (after_tick env w)) Hmarked d Hin Hid).
    congruence.
Qed.

Lemma attempted_dispatch_consumes_reminder_witness :
  In (set_notified true reportTask) (Tasks (after_tick outageEnv sampleWorld))
  /\ ~ In reportTask (dueIn healthyEnv (run [healthyEnv] (after_tick outageEnv sampleWorld))).
Proof.
  assert (Hstore : storeAvailable outageEnv).
  { repeat split; reflexivity. }
  assert (Hsubs : Subscriptions sampleWorld <> []) by discriminate.
  assert (Hdue : In reportTask (dueIn outageEnv sampleWorld)).
  { vm_compute. left. reflexivity. }
  destruct (attempted_dispatch_consumes_reminder outageEnv sampleWorld reportTask
              Hstore Hsubs Hdue) as (H1 & _ & H3).
  split; [exact H1|].
  intros H. exact (H3 [healthyEnv] healthyEnv reportTask H eq_refl).
Defined.

(** ** C3: candidate selection *)

Lemma NoDup_map_inj {A B} (f : A -> B) (l : list A) (x y : A) :
  NoDup (map f l) -> In x l -> In y l -> f x = f y -> x = y.
Proof.
  induction l as [|a l IH]; simpl; intros Hnd Hx Hy E; [contradiction|].
  inversion Hnd as [|? ? Hnotin Hnd']; subst.
  destruct Hx as [<- | Hx], Hy as [<- | Hy].
  - reflexivity.
  - exfalso. apply Hnotin. rewrite E. apply in_map. exact Hy.
  - exfalso. apply Hnotin. rewrite <- E. apply in_map. exact Hx.
  - apply IH; assumption.
Qed.

Lemma appends_refl (P : Event -> Prop) (w : World) : appends P w w.
Proof. exists []. split; [symmetry; apply app_nil_r | constructor]. Qed.

Lemma appends_trans (P : Event -> Prop) (a b c : World) :
  appends P a b -> appends P b c -> appends P a c.
Proof.
  intros (e1 & E1 & F1) (e2 & E2 & F2). exists (e1 ++ e2)%list. split.
  - rewrite E2, E1. symmetry. apply app_assoc.
  - apply Forall_app. auto.
Qed.

Lemma appends_journaled (P : Event -> Prop) (w : World) (evs : list Event) :
  Forall P evs -> appends P w (journaled w evs).
Proof. intros H. exists evs. split; [reflexivity | exact H]. Qed.

Lemma deleteOne_appends (P : Event -> Prop) (env : Env) (ep : string) :
  P (Subscription_deleteOne ep) -> preserves (appends P) (deleteOne env ep).
Proof.
  intros H w. rewrite deleteOne_run.
  destruct (deleteOne_rejects env ep);
    (exists [Subscription_deleteOne ep]; split; [reflexivity | repeat constructor; exact H]).
Qed.

Lemma save_appends (P : Event -> Prop) (env : Env) (t : Task) :
  P (Task_save (_id t)) -> preserves (appends P) (save env (set_notified true t)).
Proof.
  intros H w. rewrite save_run.
  destruct (save_rejects env (set_notified true t));
    (exists [Task_save (_id t)]; split; [reflexivity | repeat constructor; exact H]).
Qed.

Lemma notifySubscriber_appends (subs : list Subscription) (due : list Task) (env : Env)
    (p : string) (sub : Subscription) :
  In sub subs -> (exists d, In d due /\ p = payload d) ->
  preserves (appends (concerns subs due)) (notifySubscriber env p sub).
Proof.
  intros Hs Hp w. rewrite notifySubscriber_run.
  assert (Hsend : concerns subs due (sendNotification sub p)) by (split; assumption).
  destruct (push env sub p) as [err|].
  - destruct (statusCode_is err 410 || statusCode_is err 404).
    + apply appends_trans with (b := journaled w [sendNotification sub p]).
      * apply appends_journaled. repeat constructor; assumption.
      * apply deleteOne_appends. exact I.
    + apply appends_journaled. repeat constructor; assumption.
  - apply appends_journaled. repeat constructor; assumption.
Qed.

Lemma notifyTask_appends (env : Env) (subs : list Subscription) (due : list Task)
    (t : Task) :
  In t due -> preserves (appends (concerns subs due)) (notifyTask env subs t).
Proof.
  intros Ht. unfold notifyTask. apply preserves_bind.
  - apply appends_trans.
  - apply preserves_Promise_all.
    + apply appends_refl.
    + apply appends_trans.
    + unfold promises. apply Forall_map, Forall_forall. intros sub Hs.
      apply notifySubscriber_appends; [exact Hs|]. exists t. auto.
  - intros _. apply save_appends. exists t. auto.
Qed.

Lemma loop_appends (env : Env) (subs : list Subscription) (due : list Task) :
  preserves (appends (concerns subs due)) (for_of due (notifyTask env subs)).
Proof.
  apply preserves_for_of.
  - apply appends_refl.
  - apply appends_trans.
  - intros t Ht. apply notifyTask_appends. exact Ht.
Qed.

(** Whatever the outside answers, a tick pushes only payloads of due
    tasks, to stored subscriptions, and saves only due tasks. *)
Lemma tick_appends (env : Env) (w : World) :
  appends (concerns (Subscriptions w) (dueIn env w)) w (after_tick env w).
Proof.
  unfold after_tick. rewrite tick_unfold.
  destruct (negb (readyState env =? 1)); [apply appends_refl|].
  destruct (Subscription_find_rejects env);
    [apply appends_journaled; repeat constructor|].
  destruct (Nat.eqb _ 0); [apply appends_journaled; repeat constructor|].
  destruct (Task_find_rejects env); [apply appends_journaled; repeat constructor|].
  destruct (Nat.ltb 0 _); [|apply appends_journaled; repeat constructor].
  match goal with
  | |- appends _ _ (fst (try_catch _ _ ?w0)) =>
      apply appends_trans with (b := w0);
        [apply appends_journaled; repeat constructor|]
  end.
  apply preserves_try_catch.
  - apply appends_trans.
  - apply loop_appends.
  - intros e w'. apply appends_journaled. repeat constructor.
Qed.

Lemma skipn_length_app {A} (l evs : list A) : skipn (List.length l) (l ++ evs) = evs.
Proof. induction l as [|a l IH]; simpl; [reflexivity | exact IH]. Qed.

Lemma tickEvents_concern (env : Env) (w : World) :
  Forall (concerns (Subscriptions w) (dueIn env w)) (tickEvents env w).
Proof.
  destruct (tick_appends env w) as (evs & E & F).
  unfold tickEvents. rewrite E, skipn_length_app. exact F.
Qed.

Lemma tickEvents_available (env : Env) (w : World) :
  storeAvailable env -> Subscriptions w <> [] -> dueIn env w <> [] ->
  tickEvents env w =
  ([Subscription_find; Task_find;
    console_log ("Found " ++ Number_toString (Z.of_nat (List.length (dueIn env w)))
                 ++ " tasks to notify.")]
   ++ flat_map (taskEvents env (Subscriptions w)) (dueIn env w))%list.
Proof.
  intros Hstore Hsubs Hdue. unfold tickEvents.
  rewrite tick_available by assumption. cbn [journal].
  apply skipn_length_app.
Qed.

(** A stored task is saved by a tick only if it is itself due. *)
Lemma saved_is_due (env : Env) (w : World) (t : Task) :
  uniqueKeys w -> In t (Tasks w) ->
  In (Task_save (_id t)) (tickEvents env w) -> In t (dueIn env w).
Proof.
  intros Huniq Ht Hsave.
  pose proof (tickEvents_concern env w) as F. rewrite Forall_forall in F.
  destruct (F _ Hsave) as (d & Hd & E).
  assert (t = d); [|subst; exact Hd].
  apply (NoDup_map_inj _id (Tasks w)); try assumption.
  apply dueIn_In in Hd. tauto.
Qed.

(** A stored task that is not due is left as it is by a tick. *)
Lemma not_due_unchanged (env : Env) (w : World) (t : Task) :
  uniqueKeys w -> In t (Tasks w) -> ~ In t (dueIn env w) ->
  In t (Tasks (after_tick env w)).
Proof.
  intros Huniq Ht Hnot.
  destruct (tick_marks env w) as (ids & F & ->).
  apply markNotified_other; [exact Ht|].
  intros Hin. rewrite Forall_forall in F. specialize (F _ Hin).
  apply in_map_iff in F. destruct F as (d & E & Hd).
  apply Hnot. assert (t = d); [|subst; exact Hd].
  apply (NoDup_map_inj _id (Tasks w)); try assumption; [|congruence].
  apply dueIn_In in Hd. tauto.
Qed.

(** C3.  The documents the task query of the tick returns are exactly the
    stored tasks with [completed] false, [notified] false and
    [reminderOffset] different from -1.  Whatever the outside answers,
    every push of a tick carries the payload of such a task that the
    matcher kept, and every save of a tick is the save of one.  So a
    stored task that fails one of the three conditions, such as one with
    [reminderOffset = -1] or with [completed = true], is never matched,
    whatever its date, time and trigger bucket: the tick does not save
    it and leaves it as it is.  And in a tick against an available store
    with a subscriber, a stored task is matched (pushed to every stored
    subscription, saved and marked) exactly when it meets the three
    conditions and the matcher keeps it. *)
Theorem candidate_selection (env : Env) (w : World) (t : Task) :
  uniqueKeys w -> In t (Tasks w) ->
  (Task_find_rejects env = None ->
   exists l, snd (find_tasks env candidateQuery w) = Normal l
             /\ forall d, In d l <->
                          In d (Tasks w) /\ completed d = Some false
                          /\ notified d = Some false
                          /\ reminderOffset d <> Some (-1))
  /\ (forall sub p, In (sendNotification sub p) (tickEvents env w) ->
        In sub (Subscriptions w)
        /\ exists d, In d (Tasks w) /\ p = payload d
                     /\ completed d = Some false /\ notified d = Some false
                     /\ reminderOffset d <> Some (-1)
                     /\ isDue (Date_parse env) (minuteBucket (now env)) d = true)
  /\ (forall id, In (Task_save id) (tickEvents env w) ->
        exists d, In d (Tasks w) /\ _id d = id
                  /\ completed d = Some false /\ notified d = Some false
                  /\ reminderOffset d <> Some (-1)
                  /\ isDue (Date_parse env) (minuteBucket (now env)) d = true)
  /\ (completed t <> Some false \/ notified t <> Some false
      \/ reminderOffset t = Some (-1) ->
      ~ In (Task_save (_id t)) (tickEvents env w)
      /\ In t (Tasks (after_tick env w)))
  /\ (storeAvailable env -> Subscriptions w <> [] ->
      (In (Task_save (_id t)) (tickEvents env w) <->
       completed t = Some false /\ notified t = Some false
       /\ reminderOffset t <> Some (-1)
       /\ isDue (Date_parse env) (minuteBucket (now env)) t = true)
      /\ (In (Task_save (_id t)) (tickEvents env w) ->
          (forall sub, In sub (Subscriptions w) ->
                       In (sendNotification sub (payload t)) (tickEvents env w))
          /\ In (set_notified true t) (Tasks (after_tick env w)))).
Proof.
  intros Huniq Ht.
  pose proof (tickEvents_concern env w) as F. rewrite Forall_forall in F.
  assert (Hdue : forall d, In d (dueIn env w) <->
                   In d (Tasks w) /\ completed d = Some false
                   /\ notified d = Some false /\ reminderOffset d <> Some (-1)
                   /\ isDue (Date_parse env) (minuteBucket (now env)) d = true).
  { intros d. rewrite dueIn_In, candidateQuery_true_iff. tauto. }
  split; [|split; [|split; [|split]]].
  - intros Hfind. exists (filter candidateQuery (Tasks w)). split.
    + unfold find_tasks, bind. rewrite emit_run, Hfind. reflexivity.
    + intros d. rewrite filter_In, candidateQuery_true_iff. tauto.
  - intros sub p Hev. destruct (F _ Hev) as (Hs & d & Hd & ->).
    split; [exact Hs|]. exists d. apply Hdue in Hd. tauto.
  - intros id Hev. destruct (F _ Hev) as (d & Hd & ->).
    exists d. apply Hdue in Hd. tauto.
  - intros Hfails.
    assert (Hnot : ~ In t (dueIn env w)).
    { intros Hd. apply Hdue in Hd. destruct Hd as (_ & Hc & Hn & Ho & _).
      destruct Hfails as [H | [H | H]]; congruence. }
    split.
    + intros Hsave. apply Hnot. apply saved_is_due; assumption.
    + apply not_due_unchanged; assumption.
  - intros Hstore Hsubs.
    assert (Hsaved : In t (dueIn env w) -> In (Task_save (_id t)) (tickEvents env w)).
    { intros Hd.
      assert (Hne : dueIn env w <> []) by (intros E; rewrite E in Hd; contradiction).
      rewrite tickEvents_available by assumption.
      apply in_or_app. right. apply in_flat_map. exists t. split; [exact Hd|].
      unfold taskEvents. apply in_or_app. right. left. reflexivity. }
    split.
    + split.
      * intros Hsave. apply (saved_is_due env w t Huniq Ht) in Hsave.
        apply Hdue in Hsave. tauto.
      * intros H. apply Hsaved. apply Hdue. tauto.
    + intros Hsave. apply (saved_is_due env w t Huniq Ht) in Hsave.
      assert (Hne : dueIn env w <> []) by (intros E; rewrite E in Hsave; contradiction).
      split.
      * intros sub Hs. rewrite tickEvents_available by assumption.
        apply in_or_app. right. apply in_flat_map. exists t. split; [exact Hsave|].
        unfold taskEvents. apply in_or_app. left.
        apply in_flat_map. exists sub. split; [exact Hs|]. left. reflexivity.
      * apply due_task_marked; assumption.
Qed.

Lemma candidate_selection_witness :
  (isDue (Date_parse healthyEnv) (minuteBucket (now healthyEnv)) mutedTask = true
   /\ ~ In (Task_save 3) (tickEvents healthyEnv busyWorld)
   /\ In mutedTask (Tasks (after_tick healthyEnv busyWorld)))
  /\ (isDue (Date_parse healthyEnv) (minuteBucket (now healthyEnv)) doneTask = true
      /\ ~ In (Task_save 4) (tickEvents healthyEnv busyWorld)
      /\ In doneTask (Tasks (after_tick healthyEnv busyWorld)))
  /\ In (Task_save 1) (tickEvents healthyEnv busyWorld)
  /\ In (sendNotification tablet (payload reportTask)) (tickEvents healthyEnv busyWorld).
Proof.
  assert (Huniq : uniqueKeys busyWorld).
  { unfold uniqueKeys. simpl. repeat constructor; simpl; intuition discriminate. }
  assert (Hstore : storeAvailable healthyEnv).
  { repeat split; reflexivity. }
  assert (Hsubs : Subscriptions busyWorld <> []) by discriminate.
  assert (Hmuted : In mutedTask (Tasks busyWorld)) by (simpl; tauto).
  assert (Hdone : In doneTask (Tasks busyWorld)) by (simpl; tauto).
  assert (Hreport : In reportTask (Tasks busyWorld)) by (simpl; tauto).
  assert (Htablet : In tablet (Subscriptions busyWorld)) by (simpl; tauto).
  assert (Hoff : completed mutedTask <> Some false \/ notified mutedTask <> Some false
                 \/ reminderOffset mutedTask = Some (-1)).
  { right. right. reflexivity. }
  assert (Hcompleted : completed doneTask <> Some false \/ notified doneTask <> Some false
                       \/ reminderOffset doneTask = Some (-1)).
  { left. discriminate. }
  assert (Hcand : completed reportTask = Some false /\ notified reportTask = Some false
                  /\ reminderOffset reportTask <> Some (-1)
                  /\ isDue (Date_parse healthyEnv) (minuteBucket (now healthyEnv))
                           reportTask = true).
  { repeat split. discriminate. }
  destruct (candidate_selection healthyEnv busyWorld mutedTask Huniq Hmuted)
    as (_ & _ & _ & Hnever1 & _).
  destruct (candidate_selection healthyEnv busyWorld doneTask Huniq Hdone)
    as (_ & _ & _ & Hnever2 & _).
  destruct (candidate_selection healthyEnv busyWorld reportTask Huniq Hreport)
    as (_ & _ & _ & _ & Hexact).
  destruct (Hexact Hstore Hsubs) as (Hiff & Hmatched).
  destruct Hiff as [_ Hsave]. specialize (Hsave Hcand).
  destruct (Hmatched Hsave) as (Hpush & _).
  split; [|split; [|split]].
  - split; [reflexivity | exact (Hnever1 Hoff)].
  - split; [reflexivity | exact (Hnever2 Hcompleted)].
  - exact Hsave.
  - exact (Hpush tablet Htablet).
Defined.

(** ** C7: a malformed schedule is skipped in silence *)

Lemma tasksToNotify_app (Date_parse : DateParser) (ts : Z) (a b : list Task) :
  tasksToNotify Date_parse ts (a ++ b)%list =
  (tasksToNotify Date_parse ts a ++ tasksToNotify Date_parse ts b)%list.
Proof. unfold tasksToNotify. apply filter_app. Qed.

(** C7.  A task whose date and start time do not parse to a valid instant
    is not due and is not matched; the matcher treats the other tasks as
    if it were not in the list; the tick still completes normally; and,
    document keys being unique, the stored task is the same after the
    tick. *)
Theorem malformed_schedule_silently_skipped (env : Env) (w : World) (t : Task) :
  Date_parse env (taskTimeStr t) = None ->
  isDue (Date_parse env) (minuteBucket (now env)) t = false
  /\ ~ In t (dueIn env w)
  /\ (forall before after,
        tasksToNotify (Date_parse env) (minuteBucket (now env)) (before ++ t :: after)%list
        = tasksToNotify (Date_parse env) (minuteBucket (now env)) (before ++ after)%list)
  /\ snd (tick env w) = Normal tt
  /\ (uniqueKeys w -> In t (Tasks w) -> In t (Tasks (after_tick env w))).
Proof.
  intros Hparse.
  assert (Hdue : isDue (Date_parse env) (minuteBucket (now env)) t = false).
  { unfold isDue. rewrite Hparse. reflexivity. }
  assert (Hnot : ~ In t (dueIn env w)).
  { intros H. apply dueIn_In in H. destruct H as (_ & _ & H). congruence. }
  split; [exact Hdue|]. split; [exact Hnot|]. split; [|split].
  - intros before after. rewrite !tasksToNotify_app. f_equal.
    unfold tasksToNotify. simpl. rewrite Hdue. reflexivity.
  - apply tick_returns.
  - intros Huniq Hin. destruct (tick_marks env w) as (ids & Hids & ->).
    apply markNotified_other; [exact Hin|].
    intros Hid. rewrite Forall_forall in Hids. apply Hids in Hid.
    apply in_map_iff in Hid. destruct Hid as (d & Eid & Hd).
    assert (d = t).
    { apply (NoDup_map_inj _id (Tasks w)); try assumption.
      apply dueIn_In in Hd. tauto. }
    subst d. contradiction.
Qed.

Lemma malformed_schedule_silently_skipped_witness :
  ~ In brokenTask (dueIn healthyEnv busyWorld)
  /\ In brokenTask (Tasks (after_tick healthyEnv busyWorld))
  /\ snd (tick healthyEnv busyWorld) = Normal tt.
Proof.
  destruct (malformed_schedule_silently_skipped healthyEnv busyWorld brokenTask eq_refl)
    as (_ & Hnot & _ & Hret & Hkept).
  split; [exact Hnot|]. split; [|exact Hret].
  apply Hkept.
  - unfold uniqueKeys. simpl. repeat constructor; simpl; intuition discriminate.
  - simpl. auto.
Defined.

(** ** C8: the default offset *)

(** C8.  A task without a [reminderOffset] is matched with a trigger five
    minutes before its start and announced as starting in 5 minutes; a
    task with a [reminderOffset] is matched and announced with that
    value. *)
Theorem reminderOffset_default (Date_parse : DateParser) (ts : Z) (t : Task) (o : Z) :
  (reminderOffset t = None ->
   (isDue Date_parse ts t = true <->
    exists start trigger,
      Date_parse (taskTimeStr t) = Some start
      /\ TimeClip (start - 5 * 60000) = Some trigger
      /\ ts = minuteBucket trigger)
   /\ body (notificationOf t) =
      "任务 " ++ dquote ++ template (title t) ++ dquote
      ++ " 将在 5 分钟后开始 (" ++ template (startTime t) ++ ")")
  /\ (reminderOffset t = Some o ->
      (isDue Date_parse ts t = true <->
       exists start trigger,
         Date_parse (taskTimeStr t) = Some start
         /\ TimeClip (start - o * 60000) = Some trigger
         /\ ts = minuteBucket trigger)
      /\ body (notificationOf t) =
         "任务 " ++ dquote ++ template (title t) ++ dquote
         ++ " " ++ timeDesc o ++ " (" ++ template (startTime t) ++ ")").
Proof.
  split; intros Ho.
  - split.
    + rewrite isDue_true_iff, Ho. reflexivity.
    + unfold notificationOf. rewrite Ho. reflexivity.
  - split.
    + rewrite isDue_true_iff, Ho. reflexivity.
    + unfold notificationOf. rewrite Ho. reflexivity.
Qed.

Lemma reminderOffset_default_witness :
  isDue (isoLocalParse 0) (minuteBucket at_0955) plainTask = true
  /\ body (notificationOf plainTask) =
     "任务 " ++ dquote ++ "Plain" ++ dquote ++ " 将在 5 分钟后开始 (10:00)"
  /\ body (notificationOf standupTask) =
     "任务 " ++ dquote ++ "Stand-up" ++ dquote ++ " 现在开始 (09:55)".
Proof.
  destruct (reminderOffset_default (isoLocalParse 0) (minuteBucket at_0955) plainTask 0)
    as [Hnone _].
  destruct (Hnone eq_refl) as [Hdue Hbody].
  destruct (reminderOffset_default (isoLocalParse 0) (minuteBucket at_0955) standupTask 0)
    as [_ Hsome].
  destruct (Hsome eq_refl) as [_ Hbody0].
  split; [|split].
  - apply Hdue. exists 1705312800000, 1705312500000. repeat split.
  - rewrite Hbody. reflexivity.
  - rewrite Hbody0. reflexivity.
Defined.

(** ** C10: no subscribers, nothing consumed *)

(** C10.  When the subscription collection is empty the tick ends before
    it loads tasks: the collections are unchanged, the journal gains no
    task query, push, delete or save, and every task due stays due for a
    later tick. *)
Theorem no_subscribers_no_consumption (env : Env) (w : World) :
  Subscriptions w = [] ->
  Tasks (after_tick env w) = Tasks w
  /\ Subscriptions (after_tick env w) = []
  /\ (exists evs, journal (after_tick env w) = (journal w ++ evs)%list
                  /\ forallb (fun ev => negb (isEffect ev)) evs = true)
  /\ (forall env', dueIn env' (after_tick env w) = dueIn env' w).
Proof.
  intros Hsubs.
  assert (H : exists evs, after_tick env w = journaled w evs
                          /\ forallb (fun ev => negb (isEffect ev)) evs = true).
  { unfold after_tick. rewrite tick_unfold, Hsubs. simpl.
    destruct (negb (readyState env =? 1)).
    - exists []. split; [|reflexivity].
      unfold journaled. rewrite app_nil_r. destruct w; reflexivity.
    - destruct (Subscription_find_rejects env) as [e|]; eexists; split; reflexivity. }
  destruct H as (evs & -> & Hevs). simpl.
  split; [reflexivity|]. split; [exact Hsubs|]. split.
  - exists evs. auto.
  - reflexivity.
Qed.

Lemma no_subscribers_no_consumption_witness :
  Tasks (after_tick healthyEnv lonelyWorld) = Tasks lonelyWorld
  /\ In reportTask (dueIn healthyEnv (after_tick healthyEnv lonelyWorld)).
Proof.
  destruct (no_subscribers_no_consumption healthyEnv lonelyWorld eq_refl)
    as (Ht & _ & _ & Hd).
  split; [exact Ht|]. rewrite Hd. vm_compute. left. reflexivity.
Defined.

(** ** Deleting by endpoint under the unique index *)

Lemma filter_all {A} (f : A -> bool) (l : list A) :
  (forall x, In x l -> f x = true) -> filter f l = l.
Proof.
  induction l as [|a l IH]; simpl; intros H; [reflexivity|].
  rewrite (H a) by auto. f_equal. apply IH. auto.
Qed.

Lemma filter_twice {A} (f g : A -> bool) (l : list A) :
  filter g (filter f l) = filter (fun x => f x && g x) l.
Proof.
  induction l as [|a l IH]; simpl; [reflexivity|].
  destruct (f a); simpl; [destruct (g a)|]; rewrite IH; reflexivity.
Qed.

Lemma NoDup_map_filter {A B} (f : A -> B) (g : A -> bool) (l : list A) :
  NoDup (map f l) -> NoDup (map f (filter g l)).
Proof.
  induction l as [|a l IH]; simpl; intros H; [constructor|].
  inversion H as [|? ? Hnotin Hnd]; subst.
  destruct (g a); simpl; [|auto].
  constructor; [|auto].
  intros Hin. apply Hnotin. apply in_map_iff in Hin.
  destruct Hin as (x & E & Hx). apply filter_In in Hx.
  rewrite <- E. apply in_map. tauto.
Qed.

Lemma remove_first_filter (ep : string) (subs : list Subscription) :
  NoDup (map endpoint subs) ->
  remove_first ep subs = filter (fun s => negb (String.eqb (endpoint s) ep)) subs.
Proof.
  induction subs as [|s subs IH]; simpl; intros H; [reflexivity|].
  inversion H as [|? ? Hnotin Hnd]; subst.
  destruct (String.eqb_spec (endpoint s) ep) as [E|E]; simpl.
  - symmetry. apply filter_all. intros x Hx.
    destruct (String.eqb_spec (endpoint x) ep) as [E'|E']; [|reflexivity].
    exfalso. apply Hnotin. rewrite E, <- E'. apply in_map. exact Hx.
  - f_equal. apply IH. exact Hnd.
Qed.

Lemma removeAll_filter (eps : list string) (subs : list Subscription) :
  NoDup (map endpoint subs) ->
  removeAll eps subs =
  filter (fun s => negb (existsb (String.eqb (endpoint s)) eps)) subs.
Proof.
  revert subs. induction eps as [|ep eps IH]; intros subs H.
  - simpl. symmetry. apply filter_all. reflexivity.
  - change (removeAll (ep :: eps) subs) with (removeAll eps (remove_first ep subs)).
    rewrite remove_first_filter by assumption.
    rewrite IH by (apply NoDup_map_filter; assumption).
    rewrite filter_twice. apply filter_ext. intros s. simpl.
    rewrite Bool.negb_orb. reflexivity.
Qed.

Lemma gone_in_tick (env : Env) (subs : list Subscription) (due : list Task)
    (s : Subscription) :
  NoDup (map endpoint subs) -> In s subs ->
  existsb (String.eqb (endpoint s))
          (flat_map (fun t => goneEndpoints env (payload t) subs) due)
  = existsb (fun t => isGone (push env s (payload t))) due.
Proof.
  intros Hnd Hs. apply Bool.eq_iff_eq_true.
  rewrite !existsb_exists. split.
  - intros (ep & Hep & E). apply String.eqb_eq in E. subst ep.
    apply in_flat_map in Hep. destruct Hep as (t & Ht & Hg).
    unfold goneEndpoints in Hg. apply in_map_iff in Hg.
    destruct Hg as (s' & E & Hs'). apply filter_In in Hs'. destruct Hs' as (Hs' & Hgone).
    assert (s' = s) by (apply (NoDup_map_inj endpoint subs); assumption).
    subst s'. exists t. auto.
  - intros (t & Ht & Hg). exists (endpoint s). split; [|apply String.eqb_refl].
    apply in_flat_map. exists t. split; [exact Ht|].
    unfold goneEndpoints. apply in_map. apply filter_In. auto.
Qed.

(** The subscriptions a tick leaves, under the unique index: those that
    never answered 404 or 410 to a push of this tick. *)
Lemma tick_subscriptions (env : Env) (w : World) :
  storeAvailable env -> uniqueEndpoints w ->
  Subscriptions (after_tick env w) =
  filter (fun s => negb (existsb (fun t => isGone (push env s (payload t))) (dueIn env w)))
         (Subscriptions w).
Proof.
  intros Hstore Huniq.
  destruct (Subscriptions w) as [|s0 subs0] eqn:Es.
  { unfold after_tick. rewrite tick_unfold, Es. simpl.
    destruct (negb _); [exact Es|].
    destruct (Subscription_find_rejects env); exact Es. }
  destruct (dueIn env w) as [|t0 due0] eqn:Ed.
  { simpl. rewrite filter_all by reflexivity.
    unfold after_tick. rewrite tick_unfold, Ed, Es. simpl.
    destruct (negb _); [exact Es|].
    destruct (Subscription_find_rejects env); [exact Es|].
    destruct (Task_find_rejects env); exact Es. }
  rewrite <- Es, <- Ed.
  rewrite tick_available by (try assumption; congruence). simpl.
  rewrite removeAll_filter by exact Huniq.
  apply filter_ext_in. intros s Hs. f_equal.
  apply gone_in_tick; assumption.
Qed.

(** ** C5: classification of push outcomes *)

Lemma isGone_status (err : WebPushError) :
  isGone (Some err) = true <-> statusCode err = Some 404 \/ statusCode err = Some 410.
Proof.
  unfold isGone, statusCode_is. destruct (statusCode err) as [c|].
  - rewrite Bool.orb_true_iff, !Z.eqb_eq. split.
    + intros [-> | ->]; auto.
    + intros [E | E]; injection E as ->; auto.
  - simpl. split; [discriminate | intros [E | E]; discriminate].
Qed.

Lemma handlerEvents_in_journal (env : Env) (w : World) (t : Task) (sub : Subscription)
    (ev : Event) :
  storeAvailable env -> In t (dueIn env w) -> In sub (Subscriptions w) ->
  In ev (handlerEvents env (payload t) sub) ->
  In ev (journal (after_tick env w)).
Proof.
  intros Hstore Ht Hs Hev.
  rewrite tick_available; try assumption.
  - cbn [journal]. apply in_or_app. right. apply in_or_app. right.
    apply in_flat_map. exists t. split; [exact Ht|].
    unfold taskEvents. apply in_or_app. left.
    apply in_flat_map. exists sub. auto.
  - intros E. rewrite E in Hs. contradiction.
  - intros E. rewrite E in Ht. contradiction.
Qed.

(** C5.  In a tick against an available store whose endpoints are unique,
    for a due task [t] and a subscription [sub] whose push was rejected
    with [err]: if the status is 404 or 410 the subscription is deleted
    and is no longer stored after the tick; otherwise the handler writes
    the error to the console, leaves both collections alone and completes
    normally, and the subscription is still stored after the tick unless
    another push of this tick to it answered 404 or 410.  In both cases
    every stored subscription is still sent the payload of every due task
    and every due task is still marked.  The subscriptions stored after
    the tick are exactly those that answered no push with 404 or 410. *)
Theorem delivery_outcome_classification
    (env : Env) (w : World) (t : Task) (sub : Subscription) (err : WebPushError) :
  storeAvailable env -> uniqueEndpoints w ->
  In t (dueIn env w) -> In sub (Subscriptions w) ->
  push env sub (payload t) = Some err ->
  (statusCode err = Some 404 \/ statusCode err = Some 410 ->
   In (Subscription_deleteOne (endpoint sub)) (journal (after_tick env w))
   /\ ~ In sub (Subscriptions (after_tick env w)))
  /\ (statusCode err <> Some 404 -> statusCode err <> Some 410 ->
      In (console_error ("Push Error: " ++ message err)) (journal (after_tick env w))
      /\ (forall w0,
            notifySubscriber env (payload t) sub w0 =
            (journaled w0 [sendNotification sub (payload t);
                           console_error ("Push Error: " ++ message err)], Normal tt))
      /\ ((forall t', In t' (dueIn env w) -> isGone (push env sub (payload t')) = false) ->
          In sub (Subscriptions (after_tick env w))))
  /\ (forall t' s', In t' (dueIn env w) -> In s' (Subscriptions w) ->
        In (sendNotification s' (payload t')) (journal (after_tick env w))
        /\ In (set_notified true t') (Tasks (after_tick env w)))
  /\ Subscriptions (after_tick env w) =
     filter (fun s => negb (existsb (fun t' => isGone (push env s (payload t')))
                                    (dueIn env w)))
            (Subscriptions w).
Proof.
  intros Hstore Huniq Ht Hs Hpush.
  assert (Hsubs : Subscriptions w <> []) by (intros E; rewrite E in Hs; contradiction).
  pose proof (tick_subscriptions env w Hstore Huniq) as Hafter.
  split; [|split; [|split]].
  - intros Hgone. apply isGone_status in Hgone. split.
    + apply (handlerEvents_in_journal env w t sub); try assumption.
      unfold handlerEvents. rewrite Hpush.
      unfold isGone in Hgone. rewrite Hgone. simpl. auto.
    + rewrite Hafter. intros Hin. apply filter_In in Hin. destruct Hin as (_ & Hneg).
      apply Bool.negb_true_iff in Hneg.
      apply Bool.not_true_iff_false in Hneg. apply Hneg.
      apply existsb_exists. exists t. rewrite Hpush. auto.
  - intros H404 H410.
    assert (Hng : isGone (Some err) = false).
    { apply Bool.not_true_iff_false. rewrite isGone_status. tauto. }
    unfold isGone in Hng. split; [|split].
    + apply (handlerEvents_in_journal env w t sub); try assumption.
      unfold handlerEvents. rewrite Hpush, Hng. simpl. auto.
    + intros w0. rewrite notifySubscriber_run, Hpush, Hng. reflexivity.
    + intros Hnever. rewrite Hafter. apply filter_In. split; [exact Hs|].
      apply Bool.negb_true_iff. apply Bool.not_true_iff_false. intros Hex.
      apply existsb_exists in Hex. destruct Hex as (t' & Ht' & Hg).
      rewrite (Hnever t' Ht') in Hg. discriminate.
  - intros t' s' Ht' Hs'. split.
    + apply (handlerEvents_in_journal env w t' s'); try assumption.
      unfold handlerEvents. left. reflexivity.
    + apply (due_task_marked env w t'); assumption.
  - exact Hafter.
Qed.

Lemma delivery_outcome_classification_witness :
  ~ In oldPhone (Subscriptions (after_tick healthyEnv sampleWorld))
  /\ In tablet (Subscriptions (after_tick healthyEnv sampleWorld))
  /\ In (console_error "Push Error: connect ETIMEDOUT")
        (journal (after_tick healthyEnv sampleWorld)).
Proof.
  assert (Hstore : storeAvailable healthyEnv).
  { repeat split; reflexivity. }
  assert (Huniq : uniqueEndpoints sampleWorld).
  { unfold uniqueEndpoints. simpl.
    repeat constructor; simpl; intuition discriminate. }
  assert (Hdue : In reportTask (dueIn healthyEnv sampleWorld)).
  { vm_compute. left. reflexivity. }
  destruct (delivery_outcome_classification healthyEnv sampleWorld reportTask oldPhone
              (mkWebPushError (Some 410) "push subscription has unsubscribed or expired.")
              Hstore Huniq Hdue (or_intror (or_introl eq_refl)) eq_refl)
    as (Hdead & _).
  destruct (delivery_outcome_classification healthyEnv sampleWorld reportTask tablet
              (mkWebPushError None "connect ETIMEDOUT")
              Hstore Huniq Hdue (or_intror (or_intror (or_introl eq_refl))) eq_refl)
    as (_ & Htransient & _).
  destruct (Hdead (or_intror eq_refl)) as [_ Hremoved].
  assert (H404 : statusCode (mkWebPushError None "connect ETIMEDOUT") <> Some 404)
    by discriminate.
  assert (H410 : statusCode (mkWebPushError None "connect ETIMEDOUT") <> Some 410)
    by discriminate.
  destruct (Htransient H404 H410) as (Hlogged & _ & Hkept).
  split; [exact Hremoved|]. split; [|exact Hlogged].
  apply Hkept. intros t' Ht'. vm_compute in Ht'.
  destruct Ht' as [<- | [<- | []]]; reflexivity.
Defined.

(** ** C4: who deletes a dead subscription *)

(** C4, as claimed, fails: the promise made for one subscriber deletes the
    subscription itself when the push answers 410. *)
Lemma delivery_step_deletes :
  Subscriptions (fst (notifySubscriber healthyEnv (payload reportTask) oldPhone sampleWorld))
  <> Subscriptions sampleWorld.
Proof. vm_compute. discriminate. Qed.

(** C4, amended.  The promise made for one subscriber never changes the
    task collection; it removes the subscriber's endpoint from the
    subscription collection, itself and at once, exactly when the push
    was rejected with 404 or 410 (and the delete went through), and
    leaves the subscription collection unchanged otherwise; no other
    operation of the tick deletes a subscription: saving a task, the two
    queries and the console leave the subscription collection as it is. *)
Theorem delivery_step_store_effect
    (env : Env) (p : string) (sub : Subscription) (t : Task) (ev : Event) (w : World) :
  Tasks (fst (notifySubscriber env p sub w)) = Tasks w
  /\ Subscriptions (fst (notifySubscriber env p sub w)) =
     (if isGone (push env sub p)
      then match deleteOne_rejects env (endpoint sub) with
           | None => remove_first (endpoint sub) (Subscriptions w)
           | Some _ => Subscriptions w
           end
      else Subscriptions w)
  /\ Subscriptions (fst (save env t w)) = Subscriptions w
  /\ Subscriptions (fst (find_subscriptions env w)) = Subscriptions w
  /\ Subscriptions (fst (find_tasks env candidateQuery w)) = Subscriptions w
  /\ Subscriptions (fst (emit ev w)) = Subscriptions w.
Proof.
  split; [|split; [|split; [|split; [|split]]]].
  - apply notifySubscriber_tasksKept.
  - rewrite notifySubscriber_run. unfold isGone.
    destruct (push env sub p) as [err|]; [|reflexivity].
    destruct (statusCode_is err 410 || statusCode_is err 404); [|reflexivity].
    rewrite deleteOne_run. destruct (deleteOne_rejects env (endpoint sub)); reflexivity.
  - unfold save, bind. rewrite emit_run. destruct (save_rejects env t); reflexivity.
  - unfold find_subscriptions, bind. rewrite emit_run.
    destruct (Subscription_find_rejects env); reflexivity.
  - unfold find_tasks, bind. rewrite emit_run.
    destruct (Task_find_rejects env); reflexivity.
  - reflexivity.
Qed.

(** ** Code that reads only the collections *)

Lemma sameStore_refl (w : World) : sameStore w w.
Proof. split; reflexivity. Qed.

Lemma sameStore_journaled (w1 w2 : World) (e1 e2 : list Event) :
  sameStore w1 w2 -> sameStore (journaled w1 e1) (journaled w2 e2).
Proof. intros [Ht Hs]. split; assumption. Qed.

Lemma respects_ret {A} (a : A) : respects (ret a).
Proof. intros w1 w2 H. split; [exact H | reflexivity]. Qed.

Lemma respects_throw {A} (e : string) : respects (@throw A e).
Proof. intros w1 w2 H. split; [exact H | reflexivity]. Qed.

Lemma respects_emit (ev : Event) : respects (emit ev).
Proof.
  intros w1 w2 H. rewrite !emit_run. split; [|reflexivity].
  apply sameStore_journaled. exact H.
Qed.

Lemma respects_bind {A B} (m : Async A) (k : A -> Async B) :
  respects m -> (forall a, respects (k a)) -> respects (bind m k).
Proof.
  intros Hm Hk w1 w2 H. unfold bind. destruct (Hm w1 w2 H) as [Hs Hr].
  destruct (m w1) as [w1' r1], (m w2) as [w2' r2]. simpl in *. subst r2.
  destruct r1 as [a|e].
  - apply Hk. exact Hs.
  - split; [exact Hs | reflexivity].
Qed.

Lemma respects_try_catch {A} (m : Async A) (h : string -> Async A) :
  respects m -> (forall e, respects (h e)) -> respects (try_catch m h).
Proof.
  intros Hm Hh w1 w2 H. unfold try_catch. destruct (Hm w1 w2 H) as [Hs Hr].
  destruct (m w1) as [w1' r1], (m w2) as [w2' r2]. simpl in *. subst r2.
  destruct r1 as [a|e].
  - split; [exact Hs | reflexivity].
  - apply Hh. exact Hs.
Qed.

Lemma respects_for_of {A} (l : list A) (body : A -> Async unit) :
  (forall x, respects (body x)) -> respects (for_of l body).
Proof.
  intros H. induction l as [|x l IH]; simpl.
  - apply respects_ret.
  - apply respects_bind; [apply H | intros _; exact IH].
Qed.

Lemma respects_Promise_all {A} (ps : list (Async A)) :
  Forall respects ps -> respects (Promise_all ps).
Proof.
  induction 1 as [|p ps Hp _ IH]; intros w1 w2 H; simpl.
  - split; [exact H | reflexivity].
  - destruct (Hp w1 w2 H) as [Hs Hr].
    destruct (p w1) as [w1' r1], (p w2) as [w2' r2]. simpl in *. subst r2.
    destruct (IH w1' w2' Hs) as [Hs' Hr'].
    destruct (Promise_all ps w1') as [w1'' q1], (Promise_all ps w2') as [w2'' q2].
    simpl in *. subst q2. split; [exact Hs' | reflexivity].
Qed.

Lemma respects_deleteOne (env : Env) (ep : string) : respects (deleteOne env ep).
Proof.
  intros w1 w2 [Ht Hs]. rewrite !deleteOne_run.
  destruct (deleteOne_rejects env ep).
  - split; [split; assumption | reflexivity].
  - split; [|reflexivity]. split; simpl; congruence.
Qed.

Lemma respects_save (env : Env) (t : Task) : respects (save env t).
Proof.
  intros w1 w2 [Ht Hs]. unfold save, bind. rewrite !emit_run.
  destruct (save_rejects env t).
  - split; [split; assumption | reflexivity].
  - split; [|reflexivity]. split; simpl; congruence.
Qed.

Lemma respects_notifySubscriber (env : Env) (p : string) (sub : Subscription) :
  respects (notifySubscriber env p sub).
Proof.
  unfold notifySubscriber. apply respects_bind; [apply respects_emit|].
  intros _. destruct (push env sub p) as [err|]; [|apply respects_ret].
  destruct (_ || _); [apply respects_deleteOne | apply respects_emit].
Qed.

Lemma respects_notifyTask (env : Env) (subs : list Subscription) (t : Task) :
  respects (notifyTask env subs t).
Proof.
  unfold notifyTask. apply respects_bind.
  - apply respects_Promise_all. unfold promises.
    apply Forall_map, Forall_forall. intros sub _. apply respects_notifySubscriber.
  - intros _. apply respects_save.
Qed.

Lemma respects_tick (env : Env) : respects (tick env).
Proof.
  unfold tick. destruct (negb (readyState env =? 1)); [apply respects_ret|].
  apply respects_try_catch; [|intros e; apply respects_emit].
  unfold tickBody. apply respects_bind.
  - unfold find_subscriptions. apply respects_bind; [apply respects_emit|].
    intros _. destruct (Subscription_find_rejects env); [apply respects_throw|].
    intros w1 w2 H. split; [exact H|]. simpl. f_equal. apply H.
  - intros subs. destruct (Nat.eqb (List.length subs) 0); [apply respects_ret|].
    apply respects_bind.
    + unfold find_tasks. apply respects_bind; [apply respects_emit|].
      intros _. destruct (Task_find_rejects env); [apply respects_throw|].
      intros w1 w2 H. split; [exact H|]. simpl. f_equal. f_equal. apply H.
    + intros tasks. destruct (Nat.ltb 0 _); [|apply respects_ret].
      apply respects_bind; [apply respects_emit|].
      intros _. apply respects_for_of. intros t. apply respects_notifyTask.
Qed.

(** ** C9: a store that is down *)

(** ** A tick in which a step throws *)

Lemma delivery_outcome (env : Env) (p : string) (subs : list Subscription) :
  forall w,
    Tasks (fst (Promise_all (promises env p subs) w)) = Tasks w
    /\ Subscriptions (fst (Promise_all (promises env p subs) w))
       = removeAll (deletedEndpoints env p subs) (Subscriptions w)
    /\ (if deliveryResolves env p subs
        then exists l, snd (Promise_all (promises env p subs) w) = Normal l
        else exists e, snd (Promise_all (promises env p subs) w) = Throw e).
Proof.
  induction subs as [|sub subs IH]; intros w.
  - simpl. split; [reflexivity|]. split; [reflexivity|]. exists []. reflexivity.
  - unfold promises. simpl Promise_all. fold (promises env p subs).
    rewrite notifySubscriber_run.
    unfold deliveryResolves, deletedEndpoints. simpl forallb. simpl filter.
    fold (deliveryResolves env p subs).
    assert (Hrest : forall w1 (a : unit),
              Tasks w1 = Tasks w ->
              Subscriptions w1 = Subscriptions w ->
              let X := Promise_all (promises env p subs) w1 in
              Tasks (fst X) = Tasks w
              /\ Subscriptions (fst X)
                 = removeAll (deletedEndpoints env p subs) (Subscriptions w)
              /\ (if deliveryResolves env p subs
                  then exists l, match snd X with
                                 | Normal l' => Normal (a :: l')
                                 | Throw e => Throw e
                                 end = Normal l
                  else exists e, match snd X with
                                 | Normal l' => Normal (a :: l')
                                 | Throw e => Throw e
                                 end = Throw e)).
    { intros w1 a Ht1 Hs1. simpl. destruct (IH w1) as (Ht & Hs & Hr).
      rewrite Ht, Hs, Ht1, Hs1. split; [reflexivity|]. split; [reflexivity|].
      destruct (deliveryResolves env p subs).
      - destruct Hr as [l ->]. eexists. reflexivity.
      - destruct Hr as [e ->]. eexists. reflexivity. }
    destruct (push env sub p) as [err|] eqn:Hp; simpl isGone.
    + destruct (statusCode_is err 410 || statusCode_is err 404) eqn:Hg.
      * rewrite deleteOne_run.
        destruct (deleteOne_rejects env (endpoint sub)) as [e|] eqn:Hd; simpl accepted.
        -- simpl andb. simpl orb. cbv iota.
           match goal with
           | |- context [Promise_all (promises env p subs) ?w1] =>
               destruct (IH w1) as (Ht & Hs & _);
               destruct (Promise_all (promises env p subs) w1) as [w2 r2]
           end.
           simpl in Ht, Hs. simpl.
           split; [exact Ht|]. split; [exact Hs|]. exists e. reflexivity.
        -- simpl andb. simpl orb. cbv iota.
           match goal with
           | |- context [Promise_all (promises env p subs) ?w1] =>
               destruct (IH w1) as (Ht & Hs & Hr);
               destruct (Promise_all (promises env p subs) w1) as [w2 r2]
           end.
           simpl in Ht, Hs, Hr. simpl.
           split; [exact Ht|]. split; [exact Hs|].
           destruct (deliveryResolves env p subs).
           ++ destruct Hr as [l ->]. eexists. reflexivity.
           ++ destruct Hr as [e ->]. eexists. reflexivity.
      * simpl andb. simpl orb. cbv iota.
        match goal with
        | |- context [Promise_all (promises env p subs) ?w1] =>
            destruct (Hrest w1 tt eq_refl eq_refl) as (Ht & Hs & Hr);
            destruct (Promise_all (promises env p subs) w1) as [w2 r2]
        end.
        simpl in Ht, Hs, Hr. simpl.
        split; [exact Ht|]. split; [exact Hs|]. exact Hr.
    + simpl andb. simpl orb. cbv iota.
      match goal with
      | |- context [Promise_all (promises env p subs) ?w1] =>
          destruct (Hrest w1 tt eq_refl eq_refl) as (Ht & Hs & Hr);
          destruct (Promise_all (promises env p subs) w1) as [w2 r2]
      end.
      simpl in Ht, Hs, Hr. simpl.
      split; [exact Ht|]. split; [exact Hs|]. exact Hr.
Qed.

Lemma notifyTask_outcome (env : Env) (subs : list Subscription) (t : Task) (w : World) :
  Subscriptions (fst (notifyTask env subs t w))
  = removeAll (deletedEndpoints env (payload t) subs) (Subscriptions w)
  /\ (if taskCompletes env subs t
      then Tasks (fst (notifyTask env subs t w)) = markNotified [_id t] (Tasks w)
           /\ snd (notifyTask env subs t w) = Normal tt
      else Tasks (fst (notifyTask env subs t w)) = Tasks w
           /\ exists e, snd (notifyTask env subs t w) = Throw e).
Proof.
  unfold notifyTask, bind, taskCompletes.
  generalize (delivery_outcome env (payload t) subs w).
  destruct (Promise_all (promises env (payload t) subs) w) as [w1 r1].
  simpl. intros (Ht & Hs & Hr).
  destruct (deliveryResolves env (payload t) subs).
  - destruct Hr as [l ->]. rewrite save_run.
    destruct (save_rejects env (set_notified true t)) as [e|]; simpl.
    + split; [exact Hs|]. split; [exact Ht|]. exists e. reflexivity.
    + split; [exact Hs|]. split; [rewrite Ht; reflexivity | reflexivity].
  - destruct Hr as [e ->]. simpl.
    split; [exact Hs|]. split; [exact Ht|]. exists e. reflexivity.
Qed.

(** The loop, when the tasks of [done] go through and a step throws for
    the next task [t]: the tasks of [done] are marked, the endpoints the
    handlers deleted up to there are gone, and the loop ends with the
    error. *)
Lemma loop_partial (env : Env) (subs : list Subscription)
    (done : list Task) (t : Task) (rest : list Task) :
  (forall d, In d done -> taskCompletes env subs d = true) ->
  taskCompletes env subs t = false ->
  forall w,
    Tasks (fst (for_of (done ++ t :: rest) (notifyTask env subs) w))
    = markNotified (map _id done) (Tasks w)
    /\ Subscriptions (fst (for_of (done ++ t :: rest) (notifyTask env subs) w))
       = removeAll (flat_map (fun d => deletedEndpoints env (payload d) subs)
                             (done ++ [t]))
                   (Subscriptions w)
    /\ exists e, snd (for_of (done ++ t :: rest) (notifyTask env subs) w) = Throw e.
Proof.
  intros Hdone Hfail. induction done as [|d done IH]; intros w.
  - simpl app. simpl for_of. unfold bind.
    generalize (notifyTask_outcome env subs t w). rewrite Hfail.
    destruct (notifyTask env subs t w) as [w1 r1]. simpl.
    intros (Hs & Ht & e & ->). simpl.
    rewrite markNotified_nil, app_nil_r.
    split; [exact Ht|]. split; [exact Hs|]. exists e. reflexivity.
  - simpl app. simpl for_of. unfold bind.
    generalize (notifyTask_outcome env subs d w).
    rewrite (Hdone d) by (left; reflexivity).
    destruct (notifyTask env subs d w) as [w1 r1]. simpl.
    intros (Hs & Ht & ->).
    destruct (IH (fun x Hx => Hdone x (or_intror Hx)) w1) as (Ht' & Hs' & He).
    split; [|split; [|exact He]].
    + rewrite Ht', Ht. apply markNotified_app.
    + rewrite Hs', Hs. symmetry. apply removeAll_app.
Qed.

Lemma tickBody_loop (env : Env) (w : World) :
  Subscription_find_rejects env = None -> Task_find_rejects env = None ->
  Subscriptions w <> [] -> dueIn env w <> [] ->
  tickBody env w =
  for_of (dueIn env w) (notifyTask env (Subscriptions w))
         (journaled w [Subscription_find; Task_find;
                       console_log ("Found "
                                    ++ Number_toString (Z.of_nat (List.length (dueIn env w)))
                                    ++ " tasks to notify.")]).
Proof.
  intros Hsf Htf Hsubs Hdue.
  unfold tickBody, find_subscriptions, find_tasks, bind. cbv beta.
  rewrite emit_run, Hsf.
  change (Subscriptions (journaled w [Subscription_find])) with (Subscriptions w).
  destruct (Subscriptions w) as [|s0 subs] eqn:Es; [congruence|].
  change (Nat.eqb (List.length (s0 :: subs)) 0) with false. cbv beta iota.
  rewrite emit_run, journaled_journaled, Htf.
  change (Tasks (journaled w ([Subscription_find] ++ [Task_find]))) with (Tasks w).
  fold (dueIn env w).
  destruct (dueIn env w) as [|t0 due] eqn:Ed; [congruence|].
  change (Nat.ltb 0 (List.length (t0 :: due))) with true. cbv beta iota.
  rewrite emit_run, journaled_journaled. reflexivity.
Qed.

(** A tick whose loop throws at the task [t], after the tasks of [done]. *)
Lemma tick_partial (env : Env) (w : World) (done : list Task) (t : Task)
    (rest : list Task) :
  readyState env = 1 ->
  Subscription_find_rejects env = None -> Task_find_rejects env = None ->
  Subscriptions w <> [] ->
  dueIn env w = (done ++ t :: rest)%list ->
  (forall d, In d done -> taskCompletes env (Subscriptions w) d = true) ->
  taskCompletes env (Subscriptions w) t = false ->
  (exists e, snd (tickBody env w) = Throw e)
  /\ Tasks (after_tick env w) = markNotified (map _id done) (Tasks w)
  /\ Subscriptions (after_tick env w)
     = removeAll (flat_map (fun d => deletedEndpoints env (payload d) (Subscriptions w))
                           (done ++ [t]))
                 (Subscriptions w).
Proof.
  intros Hr Hsf Htf Hsubs Hsplit Hdone Hfail.
  assert (Hdue : dueIn env w <> []).
  { rewrite Hsplit. destruct done; discriminate. }
  unfold after_tick, tick. rewrite Hr.
  change (negb (1 =? 1)) with false. cbv beta iota.
  unfold try_catch. rewrite tickBody_loop by assumption. rewrite Hsplit.
  match goal with
  | |- context [for_of _ _ ?w0] =>
      destruct (loop_partial env (Subscriptions w) done t rest Hdone Hfail w0)
        as (Ht & Hs & e & He);
      destruct (for_of (done ++ t :: rest) (notifyTask env (Subscriptions w)) w0)
        as [w1 r1]
  end.
  simpl in Ht, Hs, He. subst r1. simpl.
  split; [exists e; reflexivity|]. split; assumption.
Qed.

Lemma deleted_is_gone (eps : list string) (subs : list Subscription) (s : Subscription) :
  NoDup (map endpoint subs) -> In (endpoint s) eps -> ~ In s (removeAll eps subs).
Proof.
  intros Hnd Hep Hin. rewrite removeAll_filter in Hin by exact Hnd.
  apply filter_In in Hin. destruct Hin as (_ & Hneg).
  apply Bool.negb_true_iff in Hneg. apply Bool.not_true_iff_false in Hneg.
  apply Hneg. apply existsb_exists. exists (endpoint s).
  split; [exact Hep | apply String.eqb_refl].
Qed.

(** C9, as claimed, fails: with the sample data and a store that rejects
    [task.save()], a step of the tick throws, and yet the subscription
    that answered 410 before the save has been deleted. *)
Lemma throwing_tick_keeps_earlier_writes :
  snd (tickBody saveFailsEnv sampleWorld) = Throw "MongoNetworkError"
  /\ Subscriptions (after_tick saveFailsEnv sampleWorld) <> Subscriptions sampleWorld.
Proof. split; [vm_compute; reflexivity | vm_compute; discriminate]. Qed.

(** C9, amended.  If the store cannot be read when the tick starts (the
    connection is not ready, or the subscription query or the task query
    rejects) the tick changes neither collection, and what was due stays
    due.  Whatever throws, the tick itself completes normally.  A tick
    reads nothing but the two collections, so the next tick starts from
    the store as it then is.  What a tick wrote before a later step
    threw is kept: when the due tasks [done] went through and a step
    throws for the next due task [t] (a [deleteOne] of a handler or the
    [save] is rejected), the tasks of [done] are marked and stay marked,
    no other task is, and every subscription whose push for a task of
    [done] or for [t] answered 404 or 410, and whose [deleteOne] was not
    rejected, is deleted. *)
Theorem store_down_tick_is_noop (env : Env) (w : World) :
  (storeDownAtStart env ->
   Tasks (after_tick env w) = Tasks w
   /\ Subscriptions (after_tick env w) = Subscriptions w
   /\ (forall env', dueIn env' (after_tick env w) = dueIn env' w))
  /\ snd (tick env w) = Normal tt
  /\ (forall next w', sameStore (after_tick env w) w' ->
        sameStore (after_tick next (after_tick env w)) (after_tick next w'))
  /\ (forall done t rest,
        readyState env = 1 ->
        Subscription_find_rejects env = None -> Task_find_rejects env = None ->
        Subscriptions w <> [] ->
        dueIn env w = (done ++ t :: rest)%list ->
        (forall d, In d done -> taskCompletes env (Subscriptions w) d = true) ->
        taskCompletes env (Subscriptions w) t = false ->
        (exists e, snd (tickBody env w) = Throw e)
        /\ Tasks (after_tick env w) = markNotified (map _id done) (Tasks w)
        /\ Subscriptions (after_tick env w)
           = removeAll (flat_map (fun d => deletedEndpoints env (payload d)
                                                            (Subscriptions w))
                                 (done ++ [t]))
                       (Subscriptions w)
        /\ (forall d, In d done -> In (set_notified true d) (Tasks (after_tick env w)))
        /\ (uniqueEndpoints w ->
            forall s d, In s (Subscriptions w) -> In d (done ++ [t])%list ->
                        isGone (push env s (payload d)) = true ->
                        deleteOne_rejects env (endpoint s) = None ->
                        ~ In s (Subscriptions (after_tick env w)))).
Proof.
  split; [|split; [|split]].
  - intros Hdown.
    assert (H : exists evs, after_tick env w = journaled w evs).
    { unfold after_tick. rewrite tick_unfold.
      destruct (Z.eqb_spec (readyState env) 1) as [Hr|Hr]; simpl.
      - destruct (Subscription_find_rejects env) as [e|] eqn:Hsf; [eexists; reflexivity|].
        destruct (Nat.eqb _ 0); [eexists; reflexivity|].
        destruct (Task_find_rejects env) as [e|] eqn:Htf; [eexists; reflexivity|].
        exfalso. destruct Hdown as [H | [H | H]]; congruence.
      - exists []. unfold journaled. rewrite app_nil_r. destruct w; reflexivity. }
    destruct H as [evs ->]. repeat split.
  - apply tick_returns.
  - intros next w' H. apply respects_tick. exact H.
  - intros done t rest Hr Hsf Htf Hsubs Hsplit Hdone Hfail.
    destruct (tick_partial env w done t rest Hr Hsf Htf Hsubs Hsplit Hdone Hfail)
      as (Hthrow & Htasks & Hleft).
    split; [exact Hthrow|]. split; [exact Htasks|]. split; [exact Hleft|]. split.
    + intros d Hd. rewrite Htasks. apply markNotified_In.
      * assert (Hin : In d (dueIn env w)).
        { rewrite Hsplit. apply in_or_app. left. exact Hd. }
        apply dueIn_In in Hin. tauto.
      * apply in_map. exact Hd.
    + intros Huniq s d Hs Hd Hgone Hdel. rewrite Hleft.
      apply deleted_is_gone; [exact Huniq|].
      apply in_flat_map. exists d. split; [exact Hd|].
      unfold deletedEndpoints. apply in_map. apply filter_In.
      split; [exact Hs|]. rewrite Hgone, Hdel. reflexivity.
Qed.

Lemma store_down_tick_is_noop_witness :
  Tasks (after_tick findFailsEnv sampleWorld) = Tasks sampleWorld
  /\ Subscriptions (after_tick findFailsEnv sampleWorld) = Subscriptions sampleWorld
  /\ In (set_notified true reportTask)
        (Tasks (after_tick healthyEnv (after_tick findFailsEnv sampleWorld)))
  /\ Tasks (after_tick secondSaveFailsEnv sampleWorld)
     = [set_notified true reportTask; standupTask]
  /\ ~ In oldPhone (Subscriptions (after_tick secondSaveFailsEnv sampleWorld)).
Proof.
  destruct (store_down_tick_is_noop findFailsEnv sampleWorld) as (Hnoop & _ & Hnext & _).
  assert (Hdown : storeDownAtStart findFailsEnv).
  { right. left. discriminate. }
  destruct (Hnoop Hdown) as (Ht & Hs & _).
  split; [exact Ht|]. split; [exact Hs|].
  split.
  { destruct (Hnext healthyEnv sampleWorld (conj Ht Hs)) as [Htasks _].
    rewrite Htasks. vm_compute. left. reflexivity. }
  destruct (store_down_tick_is_noop secondSaveFailsEnv sampleWorld)
    as (_ & _ & _ & Hpartial).
  assert (Hsubs : Subscriptions sampleWorld <> []) by discriminate.
  assert (Hsplit : dueIn secondSaveFailsEnv sampleWorld
                   = ([reportTask] ++ standupTask :: [])%list).
  { vm_compute. reflexivity. }
  assert (Hdone : forall d, In d [reportTask] ->
                            taskCompletes secondSaveFailsEnv (Subscriptions sampleWorld) d
                            = true).
  { intros d [<- | []]. vm_compute. reflexivity. }
  assert (Hfail : taskCompletes secondSaveFailsEnv (Subscriptions sampleWorld) standupTask
                  = false).
  { vm_compute. reflexivity. }
  assert (Huniq : uniqueEndpoints sampleWorld).
  { unfold uniqueEndpoints. simpl.
    repeat constructor; simpl; intuition discriminate. }
  assert (Hold : In oldPhone (Subscriptions sampleWorld)) by (simpl; tauto).
  assert (Hfirst : In reportTask ([reportTask] ++ [standupTask])%list) by (simpl; tauto).
  destruct (Hpartial [reportTask] standupTask [] eq_refl eq_refl eq_refl
              Hsubs Hsplit Hdone Hfail)
    as (_ & Htasks & _ & _ & Hdeleted).
  split.
  - rewrite Htasks. reflexivity.
  - exact (Hdeleted Huniq oldPhone reportTask Hold Hfirst eq_refl eq_refl).
Defined.

(** ** C6: the payload *)

Lemma append_assoc (a b c : string) : (a ++ b) ++ c = a ++ (b ++ c).
Proof. induction a as [|x a IH]; simpl; [reflexivity | rewrite IH; reflexivity]. Qed.

Lemma readChars_escapeChar (c : ascii) (tail r rest : string) :
  readChars tail = Some (r, rest) ->
  readChars (escapeChar c ++ tail) = Some (String c r, rest).
Proof.
  intros H.
  destruct c as [[] [] [] [] [] [] [] []];
    match goal with
    | |- context [escapeChar ?c] =>
        let v := eval vm_compute in (escapeChar c) in change (escapeChar c) with v
    end;
    simpl; rewrite H; reflexivity.
Qed.

Lemma readChars_escapeString (s rest : string) :
  readChars (escapeString s ++ dquote ++ rest) = Some (s, rest).
Proof.
  induction s as [|c s IH].
  - reflexivity.
  - simpl escapeString. rewrite append_assoc.
    apply readChars_escapeChar. exact IH.
Qed.

Lemma expect_app (p s : string) : expect p (p ++ s) = Some s.
Proof.
  induction p as [|c p IH]; simpl; [reflexivity|].
  rewrite Ascii.eqb_refl. exact IH.
Qed.

Lemma readProperty_quoted (name v rest : string) :
  readProperty name (quoteJSONString name ++ ":" ++ quoteJSONString v ++ rest)
  = Some (v, rest).
Proof.
  unfold readProperty.
  replace (quoteJSONString name ++ ":" ++ quoteJSONString v ++ rest)
    with ((quoteJSONString name ++ ":" ++ dquote) ++ escapeString v ++ dquote ++ rest).
  - rewrite expect_app. apply readChars_escapeString.
  - unfold quoteJSONString. rewrite !append_assoc. reflexivity.
Qed.

Lemma JSON_parse_stringify (o : Notification) : JSON_parse (JSON_stringify o) = Some o.
Proof.
  unfold JSON_parse, JSON_stringify.
  change (expect "{" ("{" ++ ?s)) with (Some s). cbv beta iota.
  rewrite readProperty_quoted.
  change (expect "," ("," ++ ?s)) with (Some s). cbv beta iota.
  rewrite readProperty_quoted.
  change (expect "," ("," ++ ?s)) with (Some s). cbv beta iota.
  replace (quoteJSONString "icon" ++ ":" ++ quoteJSONString (icon o) ++ "}")
    with (quoteJSONString "icon" ++ ":" ++ quoteJSONString (icon o) ++ "}" ++ EmptyString)
    by reflexivity.
  rewrite readProperty_quoted. simpl. destruct o; reflexivity.
Qed.

Lemma Number_parse_toString (n : Z) : Number_parse (Number_toString n) = Some n.
Proof.
  unfold Number_parse, Number_toString.
  rewrite NilZero.isi.
  - simpl. rewrite DecimalZ.of_to. reflexivity.
  - destruct n; simpl; try discriminate.
    intros H. injection H. apply DecimalPos.Unsigned.to_uint_nonnil.
  - destruct n; simpl; try discriminate.
    intros H. injection H. apply DecimalPos.Unsigned.to_uint_nonnil.
Qed.

(** C6.  The payload of a task is the JSON text of an object with the
    three properties [title], [body] and [icon]: reading the text back
    gives that object.  Its body holds the task's title and start time
    around the phrase for the offset: the "starting now" phrase when the
    resolved offset is 0, and for a positive offset the "starting in N
    minutes" phrase where N is the decimal numeral of exactly that
    offset. *)
Theorem payload_construction (task : Task) (offset : Z) :
  offset = match reminderOffset task with
           | Some o => o
           | None => 5
           end ->
  JSON_parse (payload task) = Some (notificationOf task)
  /\ n_title (notificationOf task) = "LifeOS 日程提醒"
  /\ icon (notificationOf task) = "/icon.png"
  /\ exists phrase,
       body (notificationOf task) =
       "任务 " ++ dquote ++ template (title task) ++ dquote ++ " " ++ phrase
       ++ " (" ++ template (startTime task) ++ ")"
       /\ (offset = 0 -> phrase = "现在开始")
       /\ (0 < offset ->
           exists N, phrase = "将在 " ++ N ++ " 分钟后开始"
                     /\ Number_parse N = Some offset).
Proof.
  intros Ho. split; [apply JSON_parse_stringify|].
  split; [reflexivity|]. split; [reflexivity|].
  exists (timeDesc offset). split; [|split].
  - unfold notificationOf. rewrite <- Ho. reflexivity.
  - intros ->. reflexivity.
  - intros Hpos. exists (Number_toString offset). split.
    + unfold timeDesc. destruct (Z.eqb_spec offset 0); [lia | reflexivity].
    + apply Number_parse_toString.
Qed.

Lemma payload_construction_witness :
  JSON_parse (payload reportTask) = Some (notificationOf reportTask)
  /\ (exists N,
        body (notificationOf reportTask) =
        "任务 " ++ dquote ++ "Write report" ++ dquote ++ " "
        ++ ("将在 " ++ N ++ " 分钟后开始") ++ " (" ++ "10:00" ++ ")"
        /\ Number_parse N = Some 5)
  /\ body (notificationOf standupTask) =
     "任务 " ++ dquote ++ "Stand-up" ++ dquote ++ " " ++ "现在开始"
     ++ " (" ++ "09:55" ++ ")".
Proof.
  destruct (payload_construction reportTask 5 eq_refl) as (Hjson & _ & _ & p & Hb & _ & Hp).
  assert (Hpos : 0 < 5) by reflexivity.
  destruct (Hp Hpos) as (N & -> & HN).
  destruct (payload_construction standupTask 0 eq_refl) as (_ & _ & _ & p0 & Hb0 & Hz & _).
  rewrite (Hz eq_refl) in Hb0.
  split; [exact Hjson|]. split; [|exact Hb0].
  exists N. split; [exact Hb | exact HN].
Defined.

(** * Further properties *)

(** ** What a tick leaves alone *)

Lemma markNotified_Forall2 (P : nat -> Prop) (ids : list nat) (l : list Task) :
  Forall P ids ->
  Forall2 (fun d d' => d' = d \/ (d' = set_notified true d /\ P (_id d)))
          l (markNotified ids l).
Proof.
  intros Hids. induction l as [|d l IH]; simpl; constructor; [|exact IH].
  destruct (existsb (Nat.eqb (_id d)) ids) eqn:E; [|left; reflexivity].
  right. split; [reflexivity|].
  apply existsb_exists in E. destruct E as (i & Hi & He).
  apply Nat.eqb_eq in He. subst i.
  rewrite Forall_forall in Hids. apply Hids. exact Hi.
Qed.

(** X1.  Whatever the outside answers, a tick neither adds, removes nor
    reorders tasks, and changes no path of a task but [notified], which
    it only ever sets to [true], and only on documents with the key of a
    task due in this tick. *)
Theorem tick_only_marks_due_tasks (env : Env) (w : World) :
  Forall2 (fun d d' => d' = d
                       \/ (d' = set_notified true d /\ In (_id d) (map _id (dueIn env w))))
          (Tasks w) (Tasks (after_tick env w)).
Proof.
  destruct (tick_marks env w) as (ids & Hids & ->).
  apply (markNotified_Forall2 (fun id => In id (map _id (dueIn env w)))). exact Hids.
Qed.

Lemma prunes_refl (P : string -> Prop) (w : World) : prunes P w w.
Proof. exists []. split; [constructor | reflexivity]. Qed.

Lemma prunes_trans (P : string -> Prop) (a b c : World) :
  prunes P a b -> prunes P b c -> prunes P a c.
Proof.
  intros (e1 & F1 & E1) (e2 & F2 & E2). exists (e1 ++ e2)%list. split.
  - apply Forall_app. auto.
  - rewrite E2, E1. symmetry. apply removeAll_app.
Qed.

Lemma prunes_weaken (P Q : string -> Prop) (w w' : World) :
  (forall ep, P ep -> Q ep) -> prunes P w w' -> prunes Q w w'.
Proof.
  intros H (eps & F & E). exists eps. split; [|exact E].
  eapply Forall_impl; eassumption.
Qed.

Lemma subscriptionsKept_prunes (P : string -> Prop) (w w' : World) :
  subscriptionsKept w w' -> prunes P w w'.
Proof. intros H. exists []. split; [constructor | exact H]. Qed.

Lemma notifySubscriber_prunes (env : Env) (p : string) (sub : Subscription) :
  preserves (prunes (fun ep => ep = endpoint sub /\ isGone (push env sub p) = true))
            (notifySubscriber env p sub).
Proof.
  intros w. rewrite notifySubscriber_run. unfold isGone.
  destruct (push env sub p) as [err|]; [|apply subscriptionsKept_prunes; reflexivity].
  destruct (statusCode_is err 410 || statusCode_is err 404) eqn:Hg;
    [|apply subscriptionsKept_prunes; reflexivity].
  rewrite deleteOne_run.
  destruct (deleteOne_rejects env (endpoint sub));
    [apply subscriptionsKept_prunes; reflexivity|].
  exists [endpoint sub]. split; [|reflexivity].
  constructor; [|constructor]. split; reflexivity.
Qed.

Lemma notifyTask_prunes (env : Env) (subs : list Subscription) (t : Task) :
  preserves (prunes (fun ep => exists s, In s subs /\ endpoint s = ep
                                         /\ isGone (push env s (payload t)) = true))
            (notifyTask env subs t).
Proof.
  unfold notifyTask. apply preserves_bind.
  - apply prunes_trans.
  - apply preserves_Promise_all.
    + apply prunes_refl.
    + apply prunes_trans.
    + unfold promises. apply Forall_map, Forall_forall. intros sub Hsub w.
      eapply prunes_weaken; [|apply notifySubscriber_prunes].
      intros ep [-> Hg]. exists sub. auto.
  - intros _ w. apply subscriptionsKept_prunes.
    unfold subscriptionsKept, save, bind. rewrite emit_run.
    destruct (save_rejects env (set_notified true t)); reflexivity.
Qed.

Lemma tick_prunes (env : Env) (w : World) :
  prunes (fun ep => exists t s, In t (dueIn env w) /\ In s (Subscriptions w)
                                /\ endpoint s = ep
                                /\ isGone (push env s (payload t)) = true)
         w (after_tick env w).
Proof.
  unfold after_tick. rewrite tick_unfold.
  destruct (negb (readyState env =? 1)); [apply prunes_refl|].
  destruct (Subscription_find_rejects env); [apply subscriptionsKept_prunes; reflexivity|].
  destruct (Nat.eqb _ 0); [apply subscriptionsKept_prunes; reflexivity|].
  destruct (Task_find_rejects env); [apply subscriptionsKept_prunes; reflexivity|].
  destruct (Nat.ltb 0 _); [|apply subscriptionsKept_prunes; reflexivity].
  match goal with
  | |- prunes _ _ (fst (try_catch _ _ ?w0)) =>
      apply prunes_trans with (b := w0); [apply subscriptionsKept_prunes; reflexivity|]
  end.
  apply preserves_try_catch.
  - apply prunes_trans.
  - apply preserves_for_of.
    + apply prunes_refl.
    + apply prunes_trans.
    + intros t Ht w0. eapply prunes_weaken; [|apply notifyTask_prunes].
      intros ep (s & Hs & He & Hg). exists t, s. auto.
  - intros e w'. apply subscriptionsKept_prunes. reflexivity.
Qed.

Lemma remove_first_incl (ep : string) (subs : list Subscription) :
  incl (remove_first ep subs) subs.
Proof.
  induction subs as [|s subs IH]; simpl; [apply incl_refl|].
  destruct (String.eqb (endpoint s) ep).
  - apply incl_tl, incl_refl.
  - intros x [<- | Hx]; [left; reflexivity | right; apply IH; exact Hx].
Qed.

Lemma removeAll_incl (eps : list string) (subs : list Subscription) :
  incl (removeAll eps subs) subs.
Proof.
  revert subs. induction eps as [|ep eps IH]; intros subs; [apply incl_refl|].
  change (removeAll (ep :: eps) subs) with (removeAll eps (remove_first ep subs)).
  eapply incl_tran; [apply IH | apply remove_first_incl].
Qed.

(** X2.  Whatever the outside answers, a tick adds no subscription and
    changes none: what it leaves is the collection after deleting, one
    document each, endpoints of stored subscriptions whose push of a due
    task was answered 404 or 410 in this tick. *)
Theorem tick_only_deletes_dead_subscriptions (env : Env) (w : World) :
  incl (Subscriptions (after_tick env w)) (Subscriptions w)
  /\ exists eps,
       Subscriptions (after_tick env w) = removeAll eps (Subscriptions w)
       /\ Forall (fun ep => exists t s,
                    In t (dueIn env w) /\ In s (Subscriptions w)
                    /\ endpoint s = ep
                    /\ isGone (push env s (payload t)) = true) eps.
Proof.
  destruct (tick_prunes env w) as (eps & Hall & E). split.
  - rewrite E. apply removeAll_incl.
  - exists eps. auto.
Qed.

(** ** Pushes go to the subscriptions loaded when the tick began *)

Lemma filter_isPush_handlerEvents (env : Env) (p : string) (s : Subscription) :
  filter isPush (handlerEvents env p s) = [sendNotification s p].
Proof.
  unfold handlerEvents. simpl. f_equal.
  destruct (push env s p) as [err|]; [|reflexivity].
  destruct (_ || _); reflexivity.
Qed.

Lemma filter_flat_map {A B} (f : B -> bool) (g : A -> list B) (l : list A) :
  filter f (flat_map g l) = flat_map (fun a => filter f (g a)) l.
Proof.
  induction l as [|a l IH]; simpl; [reflexivity|].
  rewrite filter_app, IH. reflexivity.
Qed.

Lemma flat_map_single {A B} (g : A -> B) (l : list A) :
  flat_map (fun a => [g a]) l = map g l.
Proof. induction l as [|a l IH]; simpl; [reflexivity | rewrite IH; reflexivity]. Qed.

Lemma flat_map_nil {A B} (l : list A) : flat_map (fun _ : A => @nil B) l = [].
Proof. induction l; simpl; auto. Qed.

(** X3.  In a tick against an available store, the pushes are, in order,
    one per due task and per subscription that was stored when the tick
    began: a subscription deleted for an earlier task of the tick is
    still sent the later ones. *)
Theorem tick_pushes_to_snapshot (env : Env) (w : World) :
  storeAvailable env ->
  filter isPush (journal (after_tick env w))
  = (filter isPush (journal w)
     ++ flat_map (fun t => map (fun s => sendNotification s (payload t)) (Subscriptions w))
                 (dueIn env w))%list.
Proof.
  intros Hstore.
  destruct (Subscriptions w) as [|s0 subs0] eqn:Es.
  { destruct Hstore as (Hr & Hsf & _).
    unfold after_tick. rewrite tick_unfold, Hr, Hsf, Es. simpl.
    rewrite filter_app. simpl. rewrite flat_map_nil. reflexivity. }
  destruct (dueIn env w) as [|t0 due0] eqn:Ed.
  { destruct Hstore as (Hr & Hsf & Htf & _).
    unfold after_tick. rewrite tick_unfold, Hr, Hsf, Htf, Ed, Es. simpl.
    rewrite filter_app. reflexivity. }
  rewrite <- Es, <- Ed.
  rewrite tick_available by (try assumption; congruence).
  cbn [journal]. rewrite !filter_app. f_equal.
  change (filter isPush [Subscription_find; Task_find; console_log _]) with (@nil Event).
  rewrite app_nil_l, filter_flat_map.
  apply flat_map_ext. intros t. unfold taskEvents.
  rewrite filter_app, filter_flat_map. simpl. rewrite app_nil_r.
  rewrite <- flat_map_single. apply flat_map_ext. intros s.
  apply filter_isPush_handlerEvents.
Qed.

Lemma tick_pushes_to_snapshot_witness :
  filter isPush (journal (after_tick healthyEnv sampleWorld))
  = [sendNotification laptop (payload reportTask);
     sendNotification oldPhone (payload reportTask);
     sendNotification tablet (payload reportTask);
     sendNotification laptop (payload standupTask);
     sendNotification oldPhone (payload standupTask);
     sendNotification tablet (payload standupTask)].
Proof.
  assert (Hstore : storeAvailable healthyEnv) by (repeat split; reflexivity).
  rewrite (tick_pushes_to_snapshot healthyEnv sampleWorld Hstore).
  vm_compute. reflexivity.
Defined.

(** X4.  A tick that finds no task due writes nothing: both collections
    are as before and there is no push, delete or save. *)
Theorem idle_tick_writes_nothing (env : Env) (w : World) :
  dueIn env w = [] ->
  Tasks (after_tick env w) = Tasks w
  /\ Subscriptions (after_tick env w) = Subscriptions w
  /\ exists evs, journal (after_tick env w) = (journal w ++ evs)%list
                 /\ forallb (fun ev => negb (isWrite ev)) evs = true.
Proof.
  intros Hdue.
  assert (H : exists evs, after_tick env w = journaled w evs
                          /\ forallb (fun ev => negb (isWrite ev)) evs = true).
  { unfold after_tick. rewrite tick_unfold, Hdue. simpl.
    destruct (negb (readyState env =? 1)).
    - exists []. split; [|reflexivity].
      unfold journaled. rewrite app_nil_r. destruct w; reflexivity.
    - destruct (Subscription_find_rejects env); [eexists; split; reflexivity|].
      destruct (Nat.eqb _ 0); [eexists; split; reflexivity|].
      destruct (Task_find_rejects env); eexists; split; reflexivity. }
  destruct H as (evs & -> & Hevs). simpl.
  split; [reflexivity|]. split; [reflexivity|]. exists evs. auto.
Qed.

Lemma idle_tick_writes_nothing_witness :
  Tasks (after_tick healthyEnv (mkWorld [mutedTask; doneTask; brokenTask] [laptop] []))
  = [mutedTask; doneTask; brokenTask].
Proof.
  destruct (idle_tick_writes_nothing healthyEnv
              (mkWorld [mutedTask; doneTask; brokenTask] [laptop] []) eq_refl) as (H & _).
  exact H.
Defined.

(** ** The period of the timer against the minute bucket *)

Lemma minuteBucket_le (a b : Z) : a <= b -> minuteBucket a <= minuteBucket b.
Proof. intros H. unfold minuteBucket. Z.to_euclidean_division_equations. lia. Qed.

Lemma minuteBucket_next (a : Z) : minuteBucket (a + 60000) = minuteBucket a + 60000.
Proof.
  unfold minuteBucket. replace (a + 60000) with (a + 1 * 60000) by ring.
  rewrite Z.div_add by lia. ring.
Qed.

Lemma minuteBucket_step (a b : Z) :
  minuteBucket a < minuteBucket b -> minuteBucket a + 60000 <= minuteBucket b.
Proof. unfold minuteBucket. Z.to_euclidean_division_equations. lia. Qed.

Lemma minuteBucket_idem (a : Z) : minuteBucket (minuteBucket a) = minuteBucket a.
Proof. unfold minuteBucket. rewrite Z.div_mul by lia. reflexivity. Qed.

(** X5.  A task has one trigger minute: of two ticks whose clock readings
    are a full period (60000 ms) or more apart, at most one finds it due,
    with or without the [notified] flag. *)
Theorem due_in_one_minute_only (Date_parse : DateParser) (n1 n2 : Z) (t : Task) :
  n1 + 60000 <= n2 ->
  isDue Date_parse (minuteBucket n1) t = true ->
  isDue Date_parse (minuteBucket n2) t = false.
Proof.
  intros Hgap H1. apply Bool.not_true_iff_false. intros H2.
  apply isDue_true_iff in H1. destruct H1 as (s1 & g1 & Hs1 & Hg1 & Hb1).
  apply isDue_true_iff in H2. destruct H2 as (s2 & g2 & Hs2 & Hg2 & Hb2).
  rewrite Hs1 in Hs2. injection Hs2 as <-.
  rewrite Hg1 in Hg2. injection Hg2 as <-.
  pose proof (minuteBucket_le _ _ Hgap) as Hle.
  rewrite minuteBucket_next in Hle. lia.
Qed.

Lemma due_in_one_minute_only_witness :
  isDue (isoLocalParse 0) (minuteBucket (at_0955 + 60000)) reportTask = false.
Proof.
  apply (due_in_one_minute_only (isoLocalParse 0) at_0955 (at_0955 + 60000) reportTask).
  - apply Z.le_refl.
  - reflexivity.
Defined.

Lemma last_cons {A} (l : list A) : forall a d : A, last (a :: l) d = last l a.
Proof.
  induction l as [|b l IH]; intros a d; [reflexivity|].
  change (last (a :: b :: l) d) with (last (b :: l) d).
  rewrite (IH b d), (IH b a). reflexivity.
Qed.

(** X6.  When each tick reads the clock at most 60000 ms after the tick
    before, no minute is skipped: a task whose trigger minute lies
    between the minute of the first and of the last tick is found due by
    one of them. *)
Theorem ticks_cover_every_minute
    (Date_parse : DateParser) (t : Task) (start trigger first : Z) (later : list Z) :
  Date_parse (taskTimeStr t) = Some start ->
  TimeClip (start - match reminderOffset t with
                    | Some o => o
                    | None => 5
                    end * 60000) = Some trigger ->
  spaced 60000 first later ->
  minuteBucket first <= minuteBucket trigger <= minuteBucket (last later first) ->
  exists n, In n (first :: later) /\ isDue Date_parse (minuteBucket n) t = true.
Proof.
  intros Hstart Htrig. revert first.
  induction later as [|n later IH]; intros first Hsp Hbetween.
  - exists first. split; [left; reflexivity|].
    apply isDue_true_iff. exists start, trigger. simpl in Hbetween.
    repeat split; try assumption. lia.
  - destruct Hsp as [Hn Hsp].
    destruct (Z.eq_dec (minuteBucket first) (minuteBucket trigger)) as [E|E].
    + exists first. split; [left; reflexivity|].
      apply isDue_true_iff. exists start, trigger. auto.
    + destruct (IH n Hsp) as (m & Hm & Hdue).
      * rewrite last_cons in Hbetween. split; [|apply Hbetween].
        assert (Hlt : minuteBucket first < minuteBucket trigger) by lia.
        apply minuteBucket_step in Hlt.
        assert (Hle : minuteBucket n <= minuteBucket (first + 60000))
          by (apply minuteBucket_le; lia).
        rewrite minuteBucket_next in Hle. lia.
      * exists m. split; [right; exact Hm | exact Hdue].
Qed.

Lemma ticks_cover_every_minute_witness :
  exists n, In n [at_0955 - 120000; at_0955 - 60001; at_0955 - 2; at_0955 + 59000]
            /\ isDue (isoLocalParse 0) (minuteBucket n) reportTask = true.
Proof.
  apply (ticks_cover_every_minute (isoLocalParse 0) reportTask
           1705312800000 1705312500000 (at_0955 - 120000)
           [at_0955 - 60001; at_0955 - 2; at_0955 + 59000]).
  - reflexivity.
  - reflexivity.
  - vm_compute. intuition discriminate.
  - vm_compute. intuition discriminate.
Defined.

(** X7.  One late timer loses a reminder: for every task with a valid
    trigger instant there are two clock readings only 60001 ms apart that
    fall in the minute before and the minute after its trigger minute, so
    that neither tick finds the task due. *)
Theorem late_tick_skips_trigger_minute
    (Date_parse : DateParser) (t : Task) (start trigger : Z) :
  Date_parse (taskTimeStr t) = Some start ->
  TimeClip (start - match reminderOffset t with
                    | Some o => o
                    | None => 5
                    end * 60000) = Some trigger ->
  exists n1 n2,
    n2 = n1 + 60001
    /\ minuteBucket n1 = minuteBucket trigger - 60000
    /\ minuteBucket n2 = minuteBucket trigger + 60000
    /\ isDue Date_parse (minuteBucket n1) t = false
    /\ isDue Date_parse (minuteBucket n2) t = false.
Proof.
  intros Hstart Htrig.
  assert (Hnot : forall n, minuteBucket n <> minuteBucket trigger ->
                           isDue Date_parse (minuteBucket n) t = false).
  { intros n Hn. apply Bool.not_true_iff_false. intros H.
    apply isDue_true_iff in H. destruct H as (s & g & Hs & Hg & Hb).
    rewrite Hstart in Hs. injection Hs as <-.
    rewrite Htrig in Hg. injection Hg as <-. contradiction. }
  assert (H1 : minuteBucket (minuteBucket trigger - 1) = minuteBucket trigger - 60000).
  { unfold minuteBucket. Z.to_euclidean_division_equations. lia. }
  assert (H2 : minuteBucket (minuteBucket trigger - 1 + 60001)
               = minuteBucket trigger + 60000).
  { replace (minuteBucket trigger - 1 + 60001) with (minuteBucket trigger + 60000) by ring.
    rewrite minuteBucket_next, minuteBucket_idem. reflexivity. }
  exists (minuteBucket trigger - 1), (minuteBucket trigger - 1 + 60001).
  split; [reflexivity|]. split; [exact H1|]. split; [exact H2|].
  split; apply Hnot; lia.
Qed.

Lemma late_tick_skips_trigger_minute_witness :
  exists n1 n2,
    n2 = n1 + 60001
    /\ isDue (isoLocalParse 0) (minuteBucket n1) reportTask = false
    /\ isDue (isoLocalParse 0) (minuteBucket n2) reportTask = false.
Proof.
  destruct (late_tick_skips_trigger_minute (isoLocalParse 0) reportTask
              1705312800000 1705312500000 eq_refl eq_refl)
    as (n1 & n2 & Hgap & _ & _ & H1 & H2).
  exists n1, n2. auto.
Defined.

(** ** Password and token *)

Lemma or_default_nonempty (x : option string) (d : string) :
  String.eqb d EmptyString = false -> String.eqb (or_default x d) EmptyString = false.
Proof.
  intros Hd. unfold or_default. destruct x as [s|]; [|exact Hd].
  destruct (String.eqb s EmptyString) eqn:E; assumption.
Qed.

Lemma APP_PASSWORD_nonempty (v : option string) :
  String.eqb (APP_PASSWORD v) EmptyString = false.
Proof. apply or_default_nonempty. reflexivity. Qed.

(** X8.  However [APP_PASSWORD] is set in the environment (also unset or
    empty), the token a successful login returns is accepted by
    [authMiddleware]: the request goes on to its handler. *)
Theorem login_token_authorizes
    (process_env_APP_PASSWORD req_password : option string) (token : string)
    (db db' : Database) (next : Api Response) :
  post_login (APP_PASSWORD process_env_APP_PASSWORD) req_password db
  = (db', Normal (mkResponse 200 (LoginOk token))) ->
  db' = db
  /\ req_password = Some token
  /\ authMiddleware (APP_PASSWORD process_env_APP_PASSWORD) (Some token) next = next.
Proof.
  unfold post_login, retApi. intros H.
  destruct req_password as [p|]; [|discriminate].
  destruct (String.eqb_spec p (APP_PASSWORD process_env_APP_PASSWORD)) as [E|E];
    [|discriminate].
  injection H as <- <-. subst p. split; [reflexivity|]. split; [reflexivity|].
  unfold authMiddleware, falsy.
  rewrite APP_PASSWORD_nonempty, String.eqb_refl. reflexivity.
Qed.

Lemma login_token_authorizes_witness :
  authMiddleware (APP_PASSWORD None) (Some "123456")
                 (retApi (mkResponse 200 SuccessBody))
  = retApi (mkResponse 200 SuccessBody).
Proof.
  destruct (login_token_authorizes None (Some "123456") "123456"
              emptyDatabase emptyDatabase (retApi (mkResponse 200 SuccessBody)) eq_refl)
    as (_ & _ & H).
  exact H.
Defined.

(** X9.  However [APP_PASSWORD] is set, a login without a password or
    with the empty password is refused with 401, and a request without an
    [authorization] header or with an empty one is answered 401 before
    its handler runs. *)
Theorem empty_credentials_refused
    (process_env_APP_PASSWORD : option string) (db : Database) (next : Api Response) :
  post_login (APP_PASSWORD process_env_APP_PASSWORD) None db
  = (db, Normal (mkResponse 401 LoginFailed))
  /\ post_login (APP_PASSWORD process_env_APP_PASSWORD) (Some EmptyString) db
     = (db, Normal (mkResponse 401 LoginFailed))
  /\ authMiddleware (APP_PASSWORD process_env_APP_PASSWORD) None next db
     = (db, Normal (mkResponse 401 (ErrorBody "Unauthorized")))
  /\ authMiddleware (APP_PASSWORD process_env_APP_PASSWORD) (Some EmptyString) next db
     = (db, Normal (mkResponse 401 (ErrorBody "Unauthorized"))).
Proof.
  split; [reflexivity|]. split; [|split; reflexivity].
  unfold post_login.
  destruct (String.eqb_spec EmptyString (APP_PASSWORD process_env_APP_PASSWORD)) as [E|E];
    [|reflexivity].
  pose proof (APP_PASSWORD_nonempty process_env_APP_PASSWORD) as H.
  rewrite <- E in H. discriminate.
Qed.

Lemma authMiddleware_refuses (password : string) (authorization : option string)
    (next : Api Response) (db : Database) :
  authorization <> Some password ->
  authMiddleware password authorization next db
  = (db, Normal (mkResponse 401 (ErrorBody "Unauthorized"))).
Proof.
  intros H. unfold authMiddleware, falsy.
  destruct authorization as [token|]; [|reflexivity].
  destruct (String.eqb_spec token password) as [E|E]; [congruence|].
  rewrite Bool.orb_true_r. reflexivity.
Qed.

Lemma authMiddleware_passes (process_env_APP_PASSWORD : option string)
    (next : Api Response) :
  authMiddleware (APP_PASSWORD process_env_APP_PASSWORD)
                 (Some (APP_PASSWORD process_env_APP_PASSWORD)) next = next.
Proof.
  unfold authMiddleware, falsy.
  rewrite APP_PASSWORD_nonempty, String.eqb_refl. reflexivity.
Qed.

(** X10.  A sync or a data request whose [authorization] header is not
    exactly the password is answered 401 and leaves the whole database,
    journal included, as it was: nothing is deleted, nothing is read. *)
Theorem unauthorized_request_changes_nothing
    (password : string) (env : ApiEnv) (authorization : option string)
    (module : string) (data : Body) (db : Database) :
  authorization <> Some password ->
  post_sync password env authorization module data db
  = (db, Normal (mkResponse 401 (ErrorBody "Unauthorized")))
  /\ get_data password env authorization db
     = (db, Normal (mkResponse 401 (ErrorBody "Unauthorized"))).
Proof.
  intros H. split; apply authMiddleware_refuses; exact H.
Qed.

Lemma unauthorized_request_changes_nothing_witness :
  post_sync (APP_PASSWORD None) okApi (Some "letmein") "tasks" (ArrayBody [])
            sampleDatabase
  = (sampleDatabase, Normal (mkResponse 401 (ErrorBody "Unauthorized"))).
Proof.
  assert (H : Some "letmein" <> Some (APP_PASSWORD None)) by discriminate.
  destruct (unauthorized_request_changes_nothing (APP_PASSWORD None) okApi
              (Some "letmein") "tasks" (ArrayBody []) sampleDatabase H) as [Hs _].
  exact Hs.
Defined.

(** ** Subscribing *)

Lemma upsert_In (s : Subscription) (subs : list Subscription) : In s (upsert s subs).
Proof.
  induction subs as [|x subs IH]; simpl; [auto|].
  destruct (String.eqb (endpoint x) (endpoint s)); simpl; auto.
Qed.

Lemma upsert_other (s x : Subscription) (subs : list Subscription) :
  endpoint x <> endpoint s -> (In x (upsert s subs) <-> In x subs).
Proof.
  intros Hx. induction subs as [|y subs IH]; simpl.
  - split; [intros [<- | []]; congruence | tauto].
  - destruct (String.eqb_spec (endpoint y) (endpoint s)) as [E|E]; simpl.
    + split; intros [H | H]; auto; subst; congruence.
    + rewrite IH. tauto.
Qed.

Lemma upsert_fresh (s : Subscription) (subs : list Subscription) :
  ~ In (endpoint s) (map endpoint subs) -> upsert s subs = (subs ++ [s])%list.
Proof.
  induction subs as [|x subs IH]; simpl; intros H; [reflexivity|].
  destruct (String.eqb_spec (endpoint x) (endpoint s)) as [E|E]; [tauto|].
  rewrite IH by tauto. reflexivity.
Qed.

Lemma upsert_endpoints (s : Subscription) (subs : list Subscription) :
  In (endpoint s) (map endpoint subs) ->
  map endpoint (upsert s subs) = map endpoint subs.
Proof.
  induction subs as [|x subs IH]; simpl; intros H; [contradiction|].
  destruct (String.eqb_spec (endpoint x) (endpoint s)) as [E|E]; simpl.
  - rewrite E. reflexivity.
  - rewrite IH; [reflexivity|]. destruct H; [contradiction | assumption].
Qed.

Lemma upsert_unique (s : Subscription) (subs : list Subscription) :
  NoDup (map endpoint subs) -> NoDup (map endpoint (upsert s subs)).
Proof.
  induction subs as [|x subs IH]; simpl; intros H.
  - constructor; [intros [] | constructor].
  - inversion H as [|? ? Hnotin Hnd]; subst.
    destruct (String.eqb_spec (endpoint x) (endpoint s)) as [E|E]; simpl.
    + rewrite <- E. exact H.
    + constructor; [|apply IH; exact Hnd].
      intros Hin. apply in_map_iff in Hin. destruct Hin as (y & Ey & Hy).
      apply upsert_other in Hy; [|congruence].
      apply Hnotin. rewrite <- Ey. apply in_map. exact Hy.
Qed.

Lemma upsert_idempotent (s : Subscription) (subs : list Subscription) :
  upsert s (upsert s subs) = upsert s subs.
Proof.
  induction subs as [|x subs IH]; simpl.
  - rewrite String.eqb_refl. reflexivity.
  - destruct (String.eqb (endpoint x) (endpoint s)) eqn:E; simpl.
    + rewrite String.eqb_refl. reflexivity.
    + rewrite E, IH. reflexivity.
Qed.

Lemma post_subscribe_run (env : ApiEnv) (subData : Subscription) (db : Database) :
  post_subscribe env subData db =
  match findOneAndUpdate_rejects env with
  | None =>
      (mkDatabase (mkWorld (Tasks (core db))
                           (upsert subData (Subscriptions (core db)))
                           (journal (core db)
                            ++ [console_log "Client subscribed/updated."]))
                  (Habits db) (Goals db) (Inventory db),
       Normal (mkResponse 201 EmptyObject))
  | Some e =>
      (mkDatabase (journaled (core db) [console_error ("Subscribe Error: " ++ e)])
                  (Habits db) (Goals db) (Inventory db),
       Normal (mkResponse 500 EmptyObject))
  end.
Proof.
  unfold post_subscribe, try_catchApi, bindApi, findOneAndUpdate.
  destruct (findOneAndUpdate_rejects env); reflexivity.
Qed.

(** X11.  A subscribe request whose upsert goes through answers 201 and
    stores [subData]: subscriptions with another endpoint are neither
    added nor removed, and when endpoints were unique they still are and
    the only subscription with this endpoint is [subData] (the keys of an
    earlier registration are gone); subscribing again with the same data
    changes nothing more.  When the upsert is rejected the answer is 500
    and the subscriptions are as before.  Either way the tasks and the
    other collections are untouched. *)
Theorem subscribe_upserts (env : ApiEnv) (subData : Subscription) (db : Database) :
  (findOneAndUpdate_rejects env = None ->
   snd (post_subscribe env subData db) = Normal (mkResponse 201 EmptyObject)
   /\ In subData (Subscriptions (core (fst (post_subscribe env subData db))))
   /\ (forall s, endpoint s <> endpoint subData ->
         (In s (Subscriptions (core (fst (post_subscribe env subData db))))
          <-> In s (Subscriptions (core db))))
   /\ (uniqueEndpoints (core db) ->
       uniqueEndpoints (core (fst (post_subscribe env subData db)))
       /\ forall s, In s (Subscriptions (core (fst (post_subscribe env subData db)))) ->
                    endpoint s = endpoint subData -> s = subData)
   /\ Subscriptions (core (fst (post_subscribe env subData
                                  (fst (post_subscribe env subData db)))))
      = Subscriptions (core (fst (post_subscribe env subData db))))
  /\ (forall e, findOneAndUpdate_rejects env = Some e ->
        snd (post_subscribe env subData db) = Normal (mkResponse 500 EmptyObject)
        /\ Subscriptions (core (fst (post_subscribe env subData db)))
           = Subscriptions (core db))
  /\ Tasks (core (fst (post_subscribe env subData db))) = Tasks (core db)
  /\ Habits (fst (post_subscribe env subData db)) = Habits db
  /\ Goals (fst (post_subscribe env subData db)) = Goals db
  /\ Inventory (fst (post_subscribe env subData db)) = Inventory db.
Proof.
  split; [|split].
  - intros Hok. rewrite !post_subscribe_run, Hok. simpl.
    split; [reflexivity|]. split; [apply upsert_In|].
    split; [intros s Hs; apply upsert_other; exact Hs|].
    split; [|apply upsert_idempotent].
    intros Huniq. split; [apply upsert_unique; exact Huniq|].
    intros s Hs He.
    apply (NoDup_map_inj endpoint (upsert subData (Subscriptions (core db)))).
    + apply upsert_unique. exact Huniq.
    + exact Hs.
    + apply upsert_In.
    + exact He.
  - intros e He. rewrite post_subscribe_run, He. split; reflexivity.
  - rewrite post_subscribe_run.
    destruct (findOneAndUpdate_rejects env); repeat split.
Qed.

Lemma subscribe_upserts_witness :
  In laptopAgain (Subscriptions (core (fst (post_subscribe okApi laptopAgain sampleDatabase))))
  /\ snd (post_subscribe downApi newPhone sampleDatabase)
     = Normal (mkResponse 500 EmptyObject).
Proof.
  destruct (subscribe_upserts okApi laptopAgain sampleDatabase) as (Hok & _).
  destruct (Hok eq_refl) as (_ & Hin & _).
  destruct (subscribe_upserts downApi newPhone sampleDatabase) as (_ & Hdown & _).
  destruct (Hdown "MongoNetworkError" eq_refl) as (Hresp & _).
  split; [exact Hin | exact Hresp].
Defined.

Lemma tickDb_run (env : Env) (db : Database) :
  tickDb env db
  = (mkDatabase (after_tick env (core db)) (Habits db) (Goals db) (Inventory db),
     Normal tt).
Proof.
  unfold tickDb, onCore, after_tick. pose proof (tick_returns env (core db)) as H.
  destruct (tick env (core db)) as [w r]. simpl in *. rewrite H. reflexivity.
Qed.

Lemma dueIn_same_tasks (env : Env) (w w' : World) :
  Tasks w' = Tasks w -> dueIn env w' = dueIn env w.
Proof. intros H. unfold dueIn. rewrite H. reflexivity. Qed.

(** X12.  After a subscribe request that went through, the next tick
    against an available store pushes the payload of every due task to
    the new subscription and marks those tasks: also when nobody was
    subscribed before. *)
Theorem new_subscriber_gets_due_reminders
    (password : string) (api : ApiEnv) (env : Env) (subData : Subscription)
    (db : Database) (t : Task) :
  findOneAndUpdate_rejects api = None ->
  storeAvailable env ->
  In t (dueIn env (core db)) ->
  In (sendNotification subData (payload t))
     (journal (core (performAll password [Subscribe api subData; Tick env] db)))
  /\ In (set_notified true t)
        (Tasks (core (performAll password [Subscribe api subData; Tick env] db))).
Proof.
  intros Hok Hstore Hdue. simpl performAll. unfold perform.
  rewrite tickDb_run, post_subscribe_run, Hok. cbn [fst core].
  set (w1 := mkWorld (Tasks (core db)) (upsert subData (Subscriptions (core db)))
                     (journal (core db) ++ [console_log "Client subscribed/updated."])).
  assert (Hdue1 : In t (dueIn env w1)).
  { rewrite (dueIn_same_tasks env (core db) w1) by reflexivity. exact Hdue. }
  assert (Hsub : In subData (Subscriptions w1)) by apply upsert_In.
  split.
  - apply (handlerEvents_in_journal env w1 t subData); try assumption.
    left. reflexivity.
  - apply due_task_marked; try assumption.
    intros E. rewrite E in Hsub. contradiction.
Qed.

Lemma new_subscriber_gets_due_reminders_witness :
  In (sendNotification newPhone (payload reportTask))
     (journal (core (performAll "123456" [Subscribe okApi newPhone; Tick healthyEnv]
                                (mkDatabase lonelyWorld [] [] [])))).
Proof.
  assert (Hstore : storeAvailable healthyEnv) by (repeat split; reflexivity).
  assert (Hdue : In reportTask (dueIn healthyEnv (core (mkDatabase lonelyWorld [] [] [])))).
  { vm_compute. left. reflexivity. }
  destruct (new_subscriber_gets_due_reminders "123456" okApi healthyEnv newPhone
              (mkDatabase lonelyWorld [] [] []) reportTask eq_refl Hstore Hdue) as [H _].
  exact H.
Defined.

(** X13.  Subscribing and expiring undo each other: when a new endpoint
    is subscribed (endpoints being unique) and in the next tick, against
    an available store, a push to it is answered 404 or 410 while no
    other subscription is, the subscription collection is again what it
    was before the subscribe request. *)
Theorem subscribe_then_gone_restores
    (password : string) (api : ApiEnv) (env : Env) (subData : Subscription)
    (db : Database) (t : Task) :
  findOneAndUpdate_rejects api = None ->
  storeAvailable env ->
  uniqueEndpoints (core db) ->
  ~ In (endpoint subData) (map endpoint (Subscriptions (core db))) ->
  In t (dueIn env (core db)) ->
  isGone (push env subData (payload t)) = true ->
  (forall s t', In s (Subscriptions (core db)) -> In t' (dueIn env (core db)) ->
                isGone (push env s (payload t')) = false) ->
  Subscriptions (core (performAll password [Subscribe api subData; Tick env] db))
  = Subscriptions (core db).
Proof.
  intros Hok Hstore Huniq Hfresh Hdue Hgone Hothers. simpl performAll. unfold perform.
  rewrite tickDb_run, post_subscribe_run, Hok. cbn [fst core].
  set (w1 := mkWorld (Tasks (core db)) (upsert subData (Subscriptions (core db)))
                     (journal (core db) ++ [console_log "Client subscribed/updated."])).
  rewrite tick_subscriptions; [|exact Hstore | apply upsert_unique; exact Huniq].
  rewrite (dueIn_same_tasks env (core db) w1) by reflexivity.
  change (Subscriptions w1) with (upsert subData (Subscriptions (core db))).
  rewrite upsert_fresh by exact Hfresh.
  rewrite filter_app. simpl.
  replace (existsb (fun t' => isGone (push env subData (payload t'))) (dueIn env (core db)))
    with true.
  - simpl. rewrite app_nil_r. apply filter_all. intros s Hs.
    apply Bool.negb_true_iff. apply Bool.not_true_iff_false. intros Hex.
    apply existsb_exists in Hex. destruct Hex as (t' & Ht' & Hg).
    rewrite (Hothers s t' Hs Ht') in Hg. discriminate.
  - symmetry. apply existsb_exists. exists t. auto.
Qed.

Lemma subscribe_then_gone_restores_witness :
  Subscriptions (core (performAll "123456" [Subscribe okApi newPhone; Tick expiredEnv]
                                  laptopOnly))
  = [laptop].
Proof.
  assert (Hstore : storeAvailable expiredEnv) by (repeat split; reflexivity).
  assert (Huniq : uniqueEndpoints (core laptopOnly)).
  { unfold uniqueEndpoints. simpl. repeat constructor. simpl. tauto. }
  assert (Hfresh : ~ In (endpoint newPhone) (map endpoint (Subscriptions (core laptopOnly)))).
  { simpl. intros [H | []]. discriminate H. }
  assert (Hdue : In reportTask (dueIn expiredEnv (core laptopOnly))).
  { vm_compute. left. reflexivity. }
  assert (Hothers : forall s t', In s (Subscriptions (core laptopOnly)) ->
                                 In t' (dueIn expiredEnv (core laptopOnly)) ->
                                 isGone (push expiredEnv s (payload t')) = false).
  { intros s t' [<- | []] _. reflexivity. }
  exact (subscribe_then_gone_restores "123456" okApi expiredEnv newPhone laptopOnly
           reportTask eq_refl Hstore Huniq Hfresh Hdue eq_refl Hothers).
Defined.

(** ** Inserting documents *)

Section Inserting.
Context {D : Type} (M : Model D).
Hypothesis key_of_cast : forall k raw, keyOf M (cast M k raw) = k.

Lemma map_keyOf_castAll (newKey : nat -> nat) (data : list RawDoc) :
  forall i, map (keyOf M) (castAll M newKey i data) = assignedKeys newKey i data.
Proof.
  induction data as [|raw data IH]; intros i; simpl; [reflexivity|].
  rewrite key_of_cast, IH. reflexivity.
Qed.

Lemma insertDocs_ok (newKey : nat -> nat) (data : list RawDoc) :
  forall i stored,
    NoDup (map (keyOf M) stored ++ assignedKeys newKey i data) ->
    insertDocs M newKey i data stored
    = ((stored ++ castAll M newKey i data)%list, None).
Proof.
  induction data as [|raw data IH]; intros i stored Hnd; simpl.
  - rewrite app_nil_r. reflexivity.
  - simpl in Hnd.
    set (k := match r__id raw with Some k => k | None => newKey i end) in *.
    replace (existsb (Nat.eqb k) (map (keyOf M) stored)) with false.
    + rewrite IH.
      * rewrite <- app_assoc. reflexivity.
      * rewrite map_app. simpl. rewrite key_of_cast, <- app_assoc. exact Hnd.
    + symmetry. apply Bool.not_true_iff_false. intros Hex.
      apply existsb_exists in Hex. destruct Hex as (k' & Hin & E).
      apply Nat.eqb_eq in E. subst k'.
      apply NoDup_remove_2 in Hnd. apply Hnd. apply in_or_app. left. exact Hin.
Qed.

Lemma insertDocs_duplicate (newKey : nat -> nat) (before : list RawDoc) (raw : RawDoc)
    (rest : list RawDoc) :
  forall i stored,
    NoDup (map (keyOf M) stored ++ assignedKeys newKey i before) ->
    In match r__id raw with
       | Some k => k
       | None => newKey (i + List.length before)%nat
       end (map (keyOf M) stored ++ assignedKeys newKey i before) ->
    insertDocs M newKey i (before ++ raw :: rest) stored
    = ((stored ++ castAll M newKey i before)%list, Some "E11000 duplicate key error").
Proof.
  induction before as [|b before IH]; intros i stored Hnd Hin.
  - simpl in *. rewrite Nat.add_0_r, !app_nil_r in *.
    replace (existsb _ (map (keyOf M) stored)) with true; [reflexivity|].
    symmetry. apply existsb_exists. eexists. split; [exact Hin | apply Nat.eqb_refl].
  - simpl app. simpl insertDocs. simpl in Hnd.
    set (k := match r__id b with Some k => k | None => newKey i end) in *.
    replace (existsb (Nat.eqb k) (map (keyOf M) stored)) with false.
    + rewrite IH.
      * simpl castAll. fold k. rewrite <- app_assoc. reflexivity.
      * rewrite map_app. simpl. rewrite key_of_cast, <- app_assoc. exact Hnd.
      * rewrite map_app. simpl. rewrite key_of_cast, <- app_assoc.
        simpl in Hin. fold k in Hin.
        replace (i + S (List.length before))%nat
          with (S (i + List.length before)) in Hin by lia.
        exact Hin.
    + symmetry. apply Bool.not_true_iff_false. intros Hex.
      apply existsb_exists in Hex. destruct Hex as (k' & Hin' & E).
      apply Nat.eqb_eq in E. subst k'.
      apply NoDup_remove_2 in Hnd. apply Hnd. apply in_or_app. left. exact Hin'.
Qed.

Lemma insertDocs_unique (newKey : nat -> nat) (data : list RawDoc) :
  forall i stored,
    NoDup (map (keyOf M) stored) ->
    NoDup (map (keyOf M) (fst (insertDocs M newKey i data stored))).
Proof.
  induction data as [|raw data IH]; intros i stored Hnd; simpl; [exact Hnd|].
  set (k := match r__id raw with Some k => k | None => newKey i end).
  destruct (existsb (Nat.eqb k) (map (keyOf M) stored)) eqn:Hex; [exact Hnd|].
  apply IH. rewrite map_app. simpl. rewrite key_of_cast.
  rewrite <- (rev_involutive (map (keyOf M) stored ++ [k])).
  apply NoDup_rev. rewrite rev_app_distr. simpl. constructor.
  - rewrite <- in_rev. intros Hin.
    apply Bool.not_true_iff_false in Hex. apply Hex.
    apply existsb_exists. exists k. split; [exact Hin | apply Nat.eqb_refl].
  - apply NoDup_rev. exact Hnd.
Qed.
End Inserting.

(** ** The full-overwrite sync *)

Lemma overwrite_run {D} (M : Model D) (env : ApiEnv) (data : Body) (db : Database) :
  overwrite M env data db =
  match deleteMany_rejects env (modelName M) with
  | Some e => (db, Throw e)
  | None =>
      match data with
      | ArrayBody (raw :: rest) => insertMany M env (raw :: rest) (store M [] db)
      | ObjectBody true doc => insertMany M env [doc] (store M [] db)
      | NoBody =>
          (store M [] db,
           Throw "TypeError: Cannot read properties of undefined (reading 'length')")
      | _ => (store M [] db, Normal tt)
      end
  end.
Proof.
  unfold overwrite, bindApi, deleteMany.
  destruct (deleteMany_rejects env (modelName M)); [reflexivity|].
  destruct data as [[|raw rest]|[|] doc|]; reflexivity.
Qed.

Lemma post_sync_tasks (v : option string) (env : ApiEnv) (data : Body) (db : Database) :
  post_sync (APP_PASSWORD v) env (Some (APP_PASSWORD v)) "tasks" data db =
  match overwrite TaskModel env data db with
  | (db', Normal _) => (db', Normal (mkResponse 200 SuccessBody))
  | (db', Throw e) =>
      (mkDatabase (journaled (core db') [console_error e])
                  (Habits db') (Goals db') (Inventory db'),
       Normal (mkResponse 500 (ErrorBody "Sync failed")))
  end.
Proof.
  unfold post_sync. rewrite authMiddleware_passes.
  unfold try_catchApi, bindApi.
  change (String.eqb "tasks" "tasks") with true. cbv beta iota.
  destruct (overwrite TaskModel env data db) as [db' [[]|e]]; reflexivity.
Qed.

Lemma post_sync_tasks_ok
    (v : option string) (env : ApiEnv) (data : list RawDoc) (db : Database) :
  env.(deleteMany_rejects) "Task" = None ->
  env.(insertMany_rejects) "Task" = None ->
  NoDup (assignedKeys env.(ObjectId) 0 data) ->
  post_sync (APP_PASSWORD v) env (Some (APP_PASSWORD v)) "tasks" (ArrayBody data) db
  = (mkDatabase (mkWorld (castAll TaskModel env.(ObjectId) 0 data)
                         (Subscriptions (core db)) (journal (core db)))
                (Habits db) (Goals db) (Inventory db),
     Normal (mkResponse 200 SuccessBody)).
Proof.
  intros Hdel Hins Hnd.
  rewrite post_sync_tasks, overwrite_run. simpl modelName. rewrite Hdel.
  destruct data as [|raw rest]; [reflexivity|].
  unfold insertMany. simpl modelName. rewrite Hins.
  rewrite (insertDocs_ok TaskModel) by (reflexivity || exact Hnd).
  reflexivity.
Qed.

(** X14.  An authorized sync of the module [tasks] with an array whose
    documents get distinct keys, against a store that accepts both
    operations, answers 200 and leaves in the task collection exactly the
    uploaded documents, in order, each cast through the schema: a
    document sent without [notified] is stored with [notified = false],
    one sent with it keeps its value.  Every task stored before is gone;
    subscriptions, habits, goals and inventory are untouched. *)
Theorem sync_replaces_tasks
    (v : option string) (env : ApiEnv) (data : list RawDoc) (db : Database) :
  env.(deleteMany_rejects) "Task" = None ->
  env.(insertMany_rejects) "Task" = None ->
  NoDup (assignedKeys env.(ObjectId) 0 data) ->
  post_sync (APP_PASSWORD v) env (Some (APP_PASSWORD v)) "tasks" (ArrayBody data) db
  = (mkDatabase (mkWorld (castAll TaskModel env.(ObjectId) 0 data)
                         (Subscriptions (core db)) (journal (core db)))
                (Habits db) (Goals db) (Inventory db),
     Normal (mkResponse 200 SuccessBody))
  /\ Forall2 (fun raw d =>
                title d = r_title raw /\ date d = r_date raw
                /\ startTime d = r_startTime raw /\ completed d = r_completed raw
                /\ reminderOffset d = r_reminderOffset raw
                /\ notified d = Some match r_notified raw with
                                     | Some b => b
                                     | None => false
                                     end)
             data (castAll TaskModel env.(ObjectId) 0 data).
Proof.
  intros Hdel Hins Hnd. split.
  - apply post_sync_tasks_ok; assumption.
  - clear Hnd. generalize 0%nat.
    induction data as [|raw rest IH]; intros i; simpl; constructor; [|apply IH].
    cbn. repeat split. destruct (r_notified raw); reflexivity.
Qed.

Lemma sync_replaces_tasks_witness :
  Tasks (core (fst (post_sync (APP_PASSWORD None) okApi (Some "123456") "tasks"
                              (ArrayBody [reportRaw; lunchRaw]) sampleDatabase)))
  = [reportTask;
     mkTask 101 (Some "Lunch") (Some "2024-01-15") (Some "12:00") (Some false)
            (Some 0) (Some false)].
Proof.
  assert (Hnd : NoDup (assignedKeys (ObjectId okApi) 0 [reportRaw; lunchRaw])).
  { simpl. repeat constructor; simpl; intuition discriminate. }
  destruct (sync_replaces_tasks None okApi [reportRaw; lunchRaw] sampleDatabase
              eq_refl eq_refl Hnd) as [H _].
  change (Some "123456") with (Some (APP_PASSWORD None)).
  rewrite H. reflexivity.
Defined.

Lemma castAll_In_given {D} (M : Model D) (newKey : nat -> nat) (raw : RawDoc) (k : nat)
    (data : list RawDoc) :
  In raw data -> r__id raw = Some k ->
  forall i, In (cast M k raw) (castAll M newKey i data).
Proof.
  intros Hin Hk. induction data as [|r data IH]; intros i; [contradiction|].
  simpl. destruct Hin as [-> | Hin].
  - left. rewrite Hk. reflexivity.
  - right. apply IH. exact Hin.
Qed.

(** X15.  The [notified] flag does not survive a sync that leaves it out:
    when a tick has marked a due task and the client then uploads the
    task list with that task as it knows it (same key and schedule, no
    [notified] path), the stored task is again the unmarked one and is
    due again for any tick that still reads the same minute. *)
Theorem sync_makes_notified_task_due_again
    (v : option string) (env env2 : Env) (api : ApiEnv) (data : list RawDoc)
    (raw : RawDoc) (db : Database) (t : Task) :
  storeAvailable env -> Subscriptions (core db) <> [] ->
  In t (dueIn env (core db)) ->
  api.(deleteMany_rejects) "Task" = None ->
  api.(insertMany_rejects) "Task" = None ->
  NoDup (assignedKeys api.(ObjectId) 0 data) ->
  In raw data ->
  r__id raw = Some (_id t) /\ r_title raw = title t /\ r_date raw = date t
  /\ r_startTime raw = startTime t /\ r_completed raw = completed t
  /\ r_reminderOffset raw = reminderOffset t /\ r_notified raw = None ->
  Date_parse env2 = Date_parse env ->
  minuteBucket (now env2) = minuteBucket (now env) ->
  In (set_notified true t)
     (Tasks (core (performAll (APP_PASSWORD v) [Tick env] db)))
  /\ In t (dueIn env2
             (core (performAll (APP_PASSWORD v)
                      [Tick env;
                       Sync api (Some (APP_PASSWORD v)) "tasks" (ArrayBody data)] db))).
Proof.
  intros Hstore Hsubs Hdue Hdel Hins Hnd Hraw
         (Hk & Htitle & Hdate & Hstart & Hcompleted & Hoffset & Hnotified) Hparse Hnow.
  simpl performAll. unfold perform. rewrite tickDb_run. cbn [fst core]. split.
  - apply due_task_marked; assumption.
  - rewrite (post_sync_tasks_ok v api data
               (mkDatabase (after_tick env (core db)) (Habits db) (Goals db) (Inventory db))
               Hdel Hins Hnd).
    cbn [fst core].
    apply dueIn_In in Hdue. destruct Hdue as (_ & Hq & Hd).
    apply dueIn_In. split; [|split].
    + cbn [Tasks].
      replace t with (cast TaskModel (_id t) raw).
      * apply castAll_In_given; assumption.
      * apply candidateQuery_true_iff in Hq. destruct Hq as (Hc & Hn & _).
        destruct t. simpl in *. unfold castTask.
        rewrite Htitle, Hdate, Hstart, Hcompleted, Hoffset, Hnotified, Hn.
        reflexivity.
    + exact Hq.
    + rewrite Hparse, Hnow. exact Hd.
Qed.

Lemma sync_makes_notified_task_due_again_witness :
  In reportTask
     (dueIn healthyEnv
        (core (performAll (APP_PASSWORD None)
                 [Tick healthyEnv;
                  Sync okApi (Some (APP_PASSWORD None)) "tasks"
                       (ArrayBody [reportRaw; lunchRaw])] sampleDatabase))).
Proof.
  assert (Hstore : storeAvailable healthyEnv) by (repeat split; reflexivity).
  assert (Hsubs : Subscriptions (core sampleDatabase) <> []) by discriminate.
  assert (Hdue : In reportTask (dueIn healthyEnv (core sampleDatabase))).
  { vm_compute. left. reflexivity. }
  assert (Hnd : NoDup (assignedKeys (ObjectId okApi) 0 [reportRaw; lunchRaw])).
  { simpl. repeat constructor; simpl; intuition discriminate. }
  assert (Hin : In reportRaw [reportRaw; lunchRaw]) by (left; reflexivity).
  assert (Hsame : r__id reportRaw = Some (_id reportTask)
                  /\ r_title reportRaw = title reportTask
                  /\ r_date reportRaw = date reportTask
                  /\ r_startTime reportRaw = startTime reportTask
                  /\ r_completed reportRaw = completed reportTask
                  /\ r_reminderOffset reportRaw = reminderOffset reportTask
                  /\ r_notified reportRaw = None).
  { repeat split. }
  destruct (sync_makes_notified_task_due_again None healthyEnv healthyEnv okApi
              [reportRaw; lunchRaw] reportRaw sampleDatabase reportTask
              Hstore Hsubs Hdue eq_refl eq_refl Hnd Hin Hsame eq_refl eq_refl)
    as [_ H].
  exact H.
Defined.

(** X16.  A sync is not atomic.  When [deleteMany] is rejected nothing is
    changed (the error is written to the console, the answer is 500).
    When [deleteMany] went through and [insertMany] is rejected after [n]
    documents, the answer is 500 [Sync failed] and the task collection
    holds only the first [n] uploaded documents: everything stored before
    is lost. *)
Theorem failed_sync_loses_tasks
    (v : option string) (env : ApiEnv) (data : list RawDoc) (db : Database) :
  (forall e, env.(deleteMany_rejects) "Task" = Some e ->
     post_sync (APP_PASSWORD v) env (Some (APP_PASSWORD v)) "tasks" (ArrayBody data) db
     = (mkDatabase (journaled (core db) [console_error e])
                   (Habits db) (Goals db) (Inventory db),
        Normal (mkResponse 500 (ErrorBody "Sync failed"))))
  /\ (forall n e,
        env.(deleteMany_rejects) "Task" = None ->
        env.(insertMany_rejects) "Task" = Some (n, e) ->
        data <> [] ->
        NoDup (assignedKeys env.(ObjectId) 0 (firstn n data)) ->
        post_sync (APP_PASSWORD v) env (Some (APP_PASSWORD v)) "tasks" (ArrayBody data) db
        = (mkDatabase (mkWorld (castAll TaskModel env.(ObjectId) 0 (firstn n data))
                               (Subscriptions (core db))
                               (journal (core db) ++ [console_error e]))
                      (Habits db) (Goals db) (Inventory db),
           Normal (mkResponse 500 (ErrorBody "Sync failed")))).
Proof.
  split.
  - intros e Hdel. rewrite post_sync_tasks, overwrite_run. simpl modelName.
    rewrite Hdel. reflexivity.
  - intros n e Hdel Hins Hne Hnd.
    rewrite post_sync_tasks, overwrite_run. simpl modelName. rewrite Hdel.
    destruct data as [|raw rest]; [congruence|].
    unfold insertMany. simpl modelName. rewrite Hins.
    rewrite (insertDocs_ok TaskModel) by (reflexivity || exact Hnd).
    reflexivity.
Qed.

Lemma failed_sync_loses_tasks_witness :
  Tasks (core (fst (post_sync (APP_PASSWORD None) flakyApi (Some (APP_PASSWORD None))
                              "tasks" (ArrayBody [lunchRaw; reportRaw]) sampleDatabase)))
  = [mkTask 100 (Some "Lunch") (Some "2024-01-15") (Some "12:00") (Some false)
            (Some 0) (Some false)].
Proof.
  destruct (failed_sync_loses_tasks None flakyApi [lunchRaw; reportRaw] sampleDatabase)
    as [_ H].
  assert (Hne : [lunchRaw; reportRaw] <> []) by discriminate.
  assert (Hnd : NoDup (assignedKeys (ObjectId flakyApi) 0 (firstn 1 [lunchRaw; reportRaw]))).
  { simpl. repeat constructor. simpl. tauto. }
  rewrite (H 1%nat "MongoNetworkError" eq_refl eq_refl Hne Hnd). reflexivity.
Defined.

(** X17.  The unique index on [_id] cuts an upload short: when the store
    accepts the operations but a document of the array has the key of an
    earlier document of the same array, only the documents before it are
    stored, the rest is dropped, and the answer is 500. *)
Theorem sync_stops_at_duplicate_key
    (v : option string) (env : ApiEnv) (before : list RawDoc) (raw : RawDoc)
    (rest : list RawDoc) (db : Database) :
  env.(deleteMany_rejects) "Task" = None ->
  env.(insertMany_rejects) "Task" = None ->
  NoDup (assignedKeys env.(ObjectId) 0 before) ->
  In match r__id raw with
     | Some k => k
     | None => env.(ObjectId) (List.length before)
     end (assignedKeys env.(ObjectId) 0 before) ->
  post_sync (APP_PASSWORD v) env (Some (APP_PASSWORD v)) "tasks"
            (ArrayBody (before ++ raw :: rest)) db
  = (mkDatabase (mkWorld (castAll TaskModel env.(ObjectId) 0 before)
                         (Subscriptions (core db))
                         (journal (core db) ++ [console_error "E11000 duplicate key error"]))
                (Habits db) (Goals db) (Inventory db),
     Normal (mkResponse 500 (ErrorBody "Sync failed"))).
Proof.
  intros Hdel Hins Hnd Hdup.
  rewrite post_sync_tasks, overwrite_run. simpl modelName. rewrite Hdel.
  destruct (before ++ raw :: rest)%list as [|r0 l0] eqn:E.
  { destruct before; discriminate. }
  rewrite <- E. unfold insertMany. simpl modelName. rewrite Hins.
  rewrite (insertDocs_duplicate TaskModel) by (reflexivity || assumption).
  reflexivity.
Qed.

Lemma sync_stops_at_duplicate_key_witness :
  Tasks (core (fst (post_sync (APP_PASSWORD None) okApi (Some (APP_PASSWORD None))
                              "tasks" (ArrayBody [reportRaw; reportRaw; lunchRaw])
                              sampleDatabase)))
  = [reportTask].
Proof.
  assert (Hnd : NoDup (assignedKeys (ObjectId okApi) 0 [reportRaw])).
  { simpl. repeat constructor. simpl. tauto. }
  assert (Hdup : In match r__id reportRaw with
                    | Some k => k
                    | None => ObjectId okApi (List.length [reportRaw])
                    end (assignedKeys (ObjectId okApi) 0 [reportRaw])).
  { left. reflexivity. }
  exact (f_equal (fun r => Tasks (core (fst r)))
           (sync_stops_at_duplicate_key None okApi [reportRaw] reportRaw [lunchRaw]
              sampleDatabase eq_refl eq_refl Hnd Hdup)).
Defined.

(** X18.  An authorized sync whose body fails the test
    [data.length > 0] (the empty array, or a JSON object for which the
    test is false, such as one without a [length]) empties the task
    collection and answers 200: [insertMany] is not called, whatever it
    would have answered, and nothing of the body is stored. *)
Theorem sync_without_documents_clears
    (v : option string) (env : ApiEnv) (data : Body) (db : Database) :
  env.(deleteMany_rejects) "Task" = None ->
  data = ArrayBody [] \/ (exists doc, data = ObjectBody false doc) ->
  post_sync (APP_PASSWORD v) env (Some (APP_PASSWORD v)) "tasks" data db
  = (mkDatabase (mkWorld [] (Subscriptions (core db)) (journal (core db)))
                (Habits db) (Goals db) (Inventory db),
     Normal (mkResponse 200 SuccessBody)).
Proof.
  intros Hdel Hdata. rewrite post_sync_tasks, overwrite_run. simpl modelName.
  rewrite Hdel. destruct Hdata as [-> | [doc ->]]; reflexivity.
Qed.

Lemma sync_without_documents_clears_witness :
  Tasks (core (fst (post_sync (APP_PASSWORD None) flakyApi (Some (APP_PASSWORD None))
                              "tasks" (ObjectBody false lunchRaw) sampleDatabase))) = []
  /\ Tasks (core (fst (post_sync (APP_PASSWORD None) flakyApi (Some (APP_PASSWORD None))
                                 "tasks" (ArrayBody []) sampleDatabase))) = [].
Proof.
  assert (Hobject : ObjectBody false lunchRaw = ArrayBody []
                    \/ (exists doc, ObjectBody false lunchRaw = ObjectBody false doc)).
  { right. exists lunchRaw. reflexivity. }
  rewrite (sync_without_documents_clears None flakyApi (ObjectBody false lunchRaw)
             sampleDatabase eq_refl Hobject).
  rewrite (sync_without_documents_clears None flakyApi (ArrayBody []) sampleDatabase
             eq_refl (or_introl eq_refl)).
  split; reflexivity.
Defined.

(** X19.  A sync for a module other than [tasks], [habits], [goals] and
    [inventory] is answered 400 [Invalid module] and changes nothing,
    whatever its body. *)
Theorem sync_invalid_module
    (v : option string) (env : ApiEnv) (module : string) (data : Body) (db : Database) :
  ~ In module ["tasks"; "habits"; "goals"; "inventory"] ->
  post_sync (APP_PASSWORD v) env (Some (APP_PASSWORD v)) module data db
  = (db, Normal (mkResponse 400 (ErrorBody "Invalid module"))).
Proof.
  intros Hm. unfold post_sync. rewrite authMiddleware_passes.
  unfold try_catchApi.
  destruct (String.eqb_spec module "tasks") as [E|_]; [subst; simpl in Hm; tauto|].
  destruct (String.eqb_spec module "habits") as [E|_]; [subst; simpl in Hm; tauto|].
  destruct (String.eqb_spec module "goals") as [E|_]; [subst; simpl in Hm; tauto|].
  destruct (String.eqb_spec module "inventory") as [E|_]; [subst; simpl in Hm; tauto|].
  reflexivity.
Qed.

Lemma sync_invalid_module_witness :
  post_sync (APP_PASSWORD None) okApi (Some (APP_PASSWORD None)) "Tasks"
            (ArrayBody [lunchRaw]) sampleDatabase
  = (sampleDatabase, Normal (mkResponse 400 (ErrorBody "Invalid module"))).
Proof.
  apply sync_invalid_module. simpl. intuition discriminate.
Defined.

(** ** What a handler leaves alone *)

Lemma keeps_ret {X A} (f : Database -> X) (a : A) : keeps f (retApi a).
Proof. intros db. reflexivity. Qed.

Lemma keeps_throw {X A} (f : Database -> X) (e : string) : keeps f (@throwApi A e).
Proof. intros db. reflexivity. Qed.

Lemma keeps_bind {X A B} (f : Database -> X) (m : Api A) (k : A -> Api B) :
  keeps f m -> (forall a, keeps f (k a)) -> keeps f (bindApi m k).
Proof.
  intros Hm Hk db. unfold bindApi. specialize (Hm db).
  destruct (m db) as [db' [a|e]]; simpl in *.
  - rewrite Hk. exact Hm.
  - exact Hm.
Qed.

Lemma keeps_try_catch {X A} (f : Database -> X) (m : Api A) (h : string -> Api A) :
  keeps f m -> (forall e, keeps f (h e)) -> keeps f (try_catchApi m h).
Proof.
  intros Hm Hh db. unfold try_catchApi. specialize (Hm db).
  destruct (m db) as [db' [a|e]]; simpl in *.
  - exact Hm.
  - rewrite Hh. exact Hm.
Qed.

Lemma keeps_authMiddleware {X} (f : Database -> X) (password : string)
    (authorization : option string) (next : Api Response) :
  keeps f next -> keeps f (authMiddleware password authorization next).
Proof.
  intros H. unfold authMiddleware. destruct (_ || _); [apply keeps_ret | exact H].
Qed.

Lemma keeps_findAll {X D} (f : Database -> X) (M : Model D) (env : ApiEnv) :
  keeps f (findAll M env).
Proof.
  unfold findAll. destruct (find_rejects env (modelName M));
    [apply keeps_throw | intros db; reflexivity].
Qed.

Lemma keeps_deleteMany {X D} (f : Database -> X) (M : Model D) (env : ApiEnv) :
  (forall l d, f (store M l d) = f d) -> keeps f (deleteMany M env).
Proof.
  intros H. unfold deleteMany. destruct (deleteMany_rejects env (modelName M));
    [apply keeps_throw | intros db; apply H].
Qed.

Lemma keeps_insertMany {X D} (f : Database -> X) (M : Model D) (env : ApiEnv)
    (data : list RawDoc) :
  (forall l d, f (store M l d) = f d) -> keeps f (insertMany M env data).
Proof.
  intros H db. unfold insertMany.
  destruct (insertDocs M (ObjectId env) 0 _ (docs M db)) as [l [e|]]; apply H.
Qed.

Lemma keeps_overwrite {X D} (f : Database -> X) (M : Model D) (env : ApiEnv) (data : Body) :
  (forall l d, f (store M l d) = f d) -> keeps f (overwrite M env data).
Proof.
  intros H. unfold overwrite. apply keeps_bind; [apply keeps_deleteMany; exact H|].
  intros _. destruct data as [l|length_positive doc|].
  - destruct (Nat.ltb 0 (List.length l));
      [apply keeps_insertMany; exact H | apply keeps_ret].
  - destruct length_positive; [apply keeps_insertMany; exact H | apply keeps_ret].
  - apply keeps_throw.
Qed.

Lemma keeps_sync_branch {X D} (f : Database -> X) (M : Model D) (env : ApiEnv)
    (data : Body) :
  (forall l d, f (store M l d) = f d) ->
  keeps f (bindApi (overwrite M env data)
                   (fun _ => retApi (mkResponse 200 SuccessBody))).
Proof.
  intros H. apply keeps_bind; [apply keeps_overwrite; exact H | intros _; apply keeps_ret].
Qed.

(** X20.  A sync never touches the subscriptions, and it changes no
    collection but the one its module names: tasks only for [tasks],
    habits only for [habits], goals only for [goals], inventory only for
    [inventory], whether it succeeds, fails half-way or is refused. *)
Theorem sync_touches_one_collection
    (password : string) (env : ApiEnv) (authorization : option string)
    (module : string) (data : Body) (db : Database) :
  Subscriptions (core (fst (post_sync password env authorization module data db)))
  = Subscriptions (core db)
  /\ (module <> "tasks" ->
      Tasks (core (fst (post_sync password env authorization module data db)))
      = Tasks (core db))
  /\ (module <> "habits" ->
      Habits (fst (post_sync password env authorization module data db)) = Habits db)
  /\ (module <> "goals" ->
      Goals (fst (post_sync password env authorization module data db)) = Goals db)
  /\ (module <> "inventory" ->
      Inventory (fst (post_sync password env authorization module data db))
      = Inventory db).
Proof.
  assert (Hgen : forall X (f : Database -> X),
             (forall e, keeps f (console (console_error e))) ->
             (module = "tasks" -> forall l d, f (store TaskModel l d) = f d) ->
             (module = "habits" -> forall l d, f (store HabitModel l d) = f d) ->
             (module = "goals" -> forall l d, f (store GoalModel l d) = f d) ->
             (module = "inventory" -> forall l d, f (store InventoryModel l d) = f d) ->
             f (fst (post_sync password env authorization module data db)) = f db).
  { intros X f Hconsole Ht Hh Hg Hi.
    apply (keeps_authMiddleware f). apply keeps_try_catch.
    - destruct (String.eqb_spec module "tasks") as [E|_];
        [apply keeps_sync_branch; auto|].
      destruct (String.eqb_spec module "habits") as [E|_];
        [apply keeps_sync_branch; auto|].
      destruct (String.eqb_spec module "goals") as [E|_];
        [apply keeps_sync_branch; auto|].
      destruct (String.eqb_spec module "inventory") as [E|_];
        [apply keeps_sync_branch; auto|].
      apply keeps_ret.
    - intros e. apply keeps_bind; [apply Hconsole | intros _; apply keeps_ret]. }
  split; [|split; [|split; [|split]]].
  - apply (Hgen _ (fun d => Subscriptions (core d)));
      intros; try unfold keeps; intros; reflexivity.
  - intros Hm. apply (Hgen _ (fun d => Tasks (core d)));
      intros; try unfold keeps; intros; first [reflexivity | congruence].
  - intros Hm. apply (Hgen _ Habits);
      intros; try unfold keeps; intros; first [reflexivity | congruence].
  - intros Hm. apply (Hgen _ Goals);
      intros; try unfold keeps; intros; first [reflexivity | congruence].
  - intros Hm. apply (Hgen _ Inventory);
      intros; try unfold keeps; intros; first [reflexivity | congruence].
Qed.

Lemma sync_touches_one_collection_witness :
  Tasks (core (fst (post_sync (APP_PASSWORD None) okApi (Some (APP_PASSWORD None))
                              "habits" (ObjectBody true lunchRaw) sampleDatabase)))
  = Tasks (core sampleDatabase).
Proof.
  destruct (sync_touches_one_collection (APP_PASSWORD None) okApi
              (Some (APP_PASSWORD None)) "habits" (ObjectBody true lunchRaw)
              sampleDatabase)
    as (_ & H & _).
  apply H. discriminate.
Defined.

(** ** Reading the data back *)

Lemma get_data_readonly (password : string) (env : ApiEnv) (authorization : option string)
    (db : Database) :
  fst (get_data password env authorization db) = db.
Proof.
  apply (keeps_authMiddleware (fun d => d)). apply keeps_try_catch.
  - repeat (apply keeps_bind; [apply keeps_findAll | intros ?]). apply keeps_ret.
  - intros e. apply keeps_ret.
Qed.

(** X21.  A data request never changes the database.  With the right
    token and a store that answers the four queries it returns the four
    collections as stored, so that after a sync of tasks that went
    through it returns exactly the uploaded documents as cast; when a
    query is rejected the answer is 500 with the message of the error. *)
Theorem data_returns_what_sync_stored
    (v : option string) (api env : ApiEnv) (authorization : option string)
    (data : list RawDoc) (db : Database) :
  fst (get_data (APP_PASSWORD v) env authorization db) = db
  /\ ((forall m, env.(find_rejects) m = None) ->
      snd (get_data (APP_PASSWORD v) env (Some (APP_PASSWORD v)) db)
      = Normal (mkResponse 200 (DataBody (Tasks (core db)) (Habits db) (Goals db)
                                         (Inventory db))))
  /\ ((forall m, env.(find_rejects) m = None) ->
      api.(deleteMany_rejects) "Task" = None ->
      api.(insertMany_rejects) "Task" = None ->
      NoDup (assignedKeys api.(ObjectId) 0 data) ->
      snd (get_data (APP_PASSWORD v) env (Some (APP_PASSWORD v))
             (fst (post_sync (APP_PASSWORD v) api (Some (APP_PASSWORD v)) "tasks"
                             (ArrayBody data) db)))
      = Normal (mkResponse 200 (DataBody (castAll TaskModel api.(ObjectId) 0 data)
                                         (Habits db) (Goals db) (Inventory db))))
  /\ ((exists m, In m ["Task"; "Habit"; "Goal"; "Inventory"]
                  /\ env.(find_rejects) m <> None) ->
      exists m e, In m ["Task"; "Habit"; "Goal"; "Inventory"]
                  /\ env.(find_rejects) m = Some e
                  /\ snd (get_data (APP_PASSWORD v) env (Some (APP_PASSWORD v)) db)
                     = Normal (mkResponse 500 (ErrorBody e))).
Proof.
  assert (Hok : forall d, (forall m, find_rejects env m = None) ->
                  snd (get_data (APP_PASSWORD v) env (Some (APP_PASSWORD v)) d)
                  = Normal (mkResponse 200 (DataBody (Tasks (core d)) (Habits d) (Goals d)
                                                     (Inventory d)))).
  { intros d Hfind. unfold get_data. rewrite authMiddleware_passes.
    unfold try_catchApi, bindApi, findAll. rewrite !Hfind. reflexivity. }
  split; [apply get_data_readonly|]. split; [apply Hok|]. split.
  - intros Hfind Hdel Hins Hnd. rewrite Hok by exact Hfind.
    rewrite (post_sync_tasks_ok v api data db Hdel Hins Hnd). reflexivity.
  - intros (m & Hm & Hrej). unfold get_data. rewrite authMiddleware_passes.
    unfold try_catchApi, bindApi, findAll.
    change (modelName TaskModel) with "Task".
    change (modelName HabitModel) with "Habit".
    change (modelName GoalModel) with "Goal".
    change (modelName InventoryModel) with "Inventory".
    destruct (find_rejects env "Task") as [e|] eqn:E1.
    { exists "Task", e. simpl. auto. }
    destruct (find_rejects env "Habit") as [e|] eqn:E2.
    { exists "Habit", e. simpl. auto. }
    destruct (find_rejects env "Goal") as [e|] eqn:E3.
    { exists "Goal", e. simpl. auto. }
    destruct (find_rejects env "Inventory") as [e|] eqn:E4.
    { exists "Inventory", e. simpl. auto 6. }
    exfalso. simpl in Hm.
    destruct Hm as [<- | [<- | [<- | [<- | []]]]]; congruence.
Qed.

Lemma data_returns_what_sync_stored_witness :
  snd (get_data (APP_PASSWORD None) okApi (Some (APP_PASSWORD None))
         (fst (post_sync (APP_PASSWORD None) okApi (Some (APP_PASSWORD None)) "tasks"
                         (ArrayBody [reportRaw; lunchRaw]) sampleDatabase)))
  = Normal (mkResponse 200
              (DataBody (castAll TaskModel (ObjectId okApi) 0 [reportRaw; lunchRaw])
                        (Habits sampleDatabase) [] [])).
Proof.
  assert (Hnd : NoDup (assignedKeys (ObjectId okApi) 0 [reportRaw; lunchRaw])).
  { simpl. repeat constructor; simpl; intuition discriminate. }
  assert (Hfind : forall m, find_rejects okApi m = None) by reflexivity.
  destruct (data_returns_what_sync_stored None okApi okApi None
              [reportRaw; lunchRaw] sampleDatabase) as (_ & _ & H & _).
  exact (H Hfind eq_refl eq_refl Hnd).
Defined.

(** ** Unique endpoints and keys on every run *)

Lemma removeAll_unique (eps : list string) (subs : list Subscription) :
  NoDup (map endpoint subs) -> NoDup (map endpoint (removeAll eps subs)).
Proof.
  intros H. rewrite removeAll_filter by exact H. apply NoDup_map_filter. exact H.
Qed.

Lemma markNotified_keys (ids : list nat) (l : list Task) :
  map _id (markNotified ids l) = map _id l.
Proof.
  unfold markNotified. rewrite map_map. apply map_ext. intros d.
  destruct (existsb (Nat.eqb (_id d)) ids); reflexivity.
Qed.

Lemma tick_wellKeyed (env : Env) (w : World) :
  uniqueEndpoints w /\ uniqueKeys w ->
  uniqueEndpoints (after_tick env w) /\ uniqueKeys (after_tick env w).
Proof.
  intros [He Hk]. split.
  - destruct (tick_prunes env w) as (eps & _ & E).
    unfold uniqueEndpoints. rewrite E. apply removeAll_unique. exact He.
  - destruct (tick_marks env w) as (ids & _ & E).
    unfold uniqueKeys. rewrite E, markNotified_keys. exact Hk.
Qed.

Lemma maintains_of_keeps {A} (m : Api A) :
  keeps (fun d => Subscriptions (core d)) m -> keeps (fun d => Tasks (core d)) m ->
  maintains wellKeyed m.
Proof.
  intros Hs Ht db [He Hk]. unfold wellKeyed, uniqueEndpoints, uniqueKeys.
  rewrite (Hs db), (Ht db). split; assumption.
Qed.

Lemma maintains_bind {A B} (P : Database -> Prop) (m : Api A) (k : A -> Api B) :
  maintains P m -> (forall a, maintains P (k a)) -> maintains P (bindApi m k).
Proof.
  intros Hm Hk db HP. unfold bindApi. specialize (Hm db HP).
  destruct (m db) as [db' [a|e]]; simpl in *; [apply Hk|]; exact Hm.
Qed.

Lemma maintains_try_catch {A} (P : Database -> Prop) (m : Api A) (h : string -> Api A) :
  maintains P m -> (forall e, maintains P (h e)) -> maintains P (try_catchApi m h).
Proof.
  intros Hm Hh db HP. unfold try_catchApi. specialize (Hm db HP).
  destruct (m db) as [db' [a|e]]; simpl in *; [|apply Hh]; exact Hm.
Qed.

Lemma maintains_ret {A} (P : Database -> Prop) (a : A) : maintains P (retApi a).
Proof. intros db H. exact H. Qed.

Lemma maintains_console (ev : Event) : maintains wellKeyed (console ev).
Proof. apply maintains_of_keeps; intros db; reflexivity. Qed.

Lemma maintains_overwrite_tasks (env : ApiEnv) (data : Body) :
  maintains wellKeyed (overwrite TaskModel env data).
Proof.
  intros db [He Hk]. rewrite overwrite_run.
  destruct (deleteMany_rejects env (modelName TaskModel)); [split; assumption|].
  assert (Hempty : wellKeyed (store TaskModel [] db)).
  { split; [exact He | constructor]. }
  assert (Hinsert : forall l, wellKeyed (fst (insertMany TaskModel env l
                                                  (store TaskModel [] db)))).
  { intros l. unfold insertMany.
    set (sent := match insertMany_rejects env (modelName TaskModel) with
                 | Some (n, _) => firstn n l
                 | None => l
                 end).
    pose proof (insertDocs_unique TaskModel (fun k r => eq_refl) (ObjectId env) sent 0
                  (docs TaskModel (store TaskModel [] db)) (NoDup_nil _)) as Hu.
    destruct (insertDocs TaskModel (ObjectId env) 0 sent
                (docs TaskModel (store TaskModel [] db))) as [l' [e|]];
      (split; [exact He | exact Hu]). }
  destruct data as [[|raw rest]|[|] doc|]; try exact Hempty; apply Hinsert.
Qed.

Lemma maintains_overwrite_other {D} (M : Model D) (env : ApiEnv) (data : Body) :
  (forall l d, Subscriptions (core (store M l d)) = Subscriptions (core d)) ->
  (forall l d, Tasks (core (store M l d)) = Tasks (core d)) ->
  maintains wellKeyed (overwrite M env data).
Proof.
  intros Hs Ht. apply maintains_of_keeps; apply keeps_overwrite; assumption.
Qed.

Lemma post_sync_wellKeyed (password : string) (env : ApiEnv)
    (authorization : option string) (module : string) (data : Body) :
  maintains wellKeyed (post_sync password env authorization module data).
Proof.
  unfold post_sync, authMiddleware. destruct (_ || _); [apply maintains_ret|].
  apply maintains_try_catch.
  - destruct (String.eqb module "tasks").
    { apply maintains_bind; [apply maintains_overwrite_tasks|].
      intros _. apply maintains_ret. }
    destruct (String.eqb module "habits").
    { apply maintains_bind; [apply maintains_overwrite_other; reflexivity|].
      intros _. apply maintains_ret. }
    destruct (String.eqb module "goals").
    { apply maintains_bind; [apply maintains_overwrite_other; reflexivity|].
      intros _. apply maintains_ret. }
    destruct (String.eqb module "inventory").
    { apply maintains_bind; [apply maintains_overwrite_other; reflexivity|].
      intros _. apply maintains_ret. }
    apply maintains_ret.
  - intros e. apply maintains_bind; [apply maintains_console|].
    intros _. apply maintains_ret.
Qed.

Lemma createTask_wellKeyed (env : ApiEnv) (args : ToolArgs) (id today responseText : string) :
  maintains wellKeyed (createTask env args id today responseText).
Proof.
  unfold createTask. apply maintains_try_catch.
  - apply maintains_bind; [|intros _; apply maintains_ret].
    intros db [He Hk]. unfold create.
    destruct (create_rejects env); [split; assumption|].
    pose proof (insertDocs_unique TaskModel (fun k r => eq_refl) (ObjectId env)
                  [newTask args id today] 0 (docs TaskModel db) Hk) as Hu.
    destruct (insertDocs TaskModel (ObjectId env) 0 [newTask args id today]
                (docs TaskModel db)) as [l [e|]];
      (split; [exact He | exact Hu]).
  - intros e. apply maintains_bind; [apply maintains_console|].
    intros _. apply maintains_ret.
Qed.

Lemma addToInventory_wellKeyed (Number_ofString : NumberParser) (env : ApiEnv)
    (args : ItemArgs) (id today responseText : string) :
  maintains wellKeyed (addToInventory Number_ofString env args id today responseText).
Proof.
  apply maintains_of_keeps; unfold addToInventory;
    (apply keeps_try_catch;
     [apply keeps_bind; [|intros _; apply keeps_ret]
     |intros e; apply keeps_bind; [intros db; reflexivity | intros _; apply keeps_ret]]);
    (destruct (castNumber Number_ofString (newItem_quantity args)) as [quantity|];
     [|apply keeps_throw]);
    intros db; unfold create;
    (destruct (create_rejects env); [reflexivity|]);
    destruct (insertDocs InventoryModel (ObjectId env) 0 [newItem args quantity id today]
                (docs InventoryModel db)) as [l [e|]]; reflexivity.
Qed.

Lemma perform_wellKeyed (password : string) (op : Operation) (db : Database) :
  wellKeyed db -> wellKeyed (perform password op db).
Proof.
  intros H. destruct op as [env | env subData | p | env a | env a m data
                            | env args id today txt | num env args id today txt]; simpl.
  - rewrite tickDb_run. apply tick_wellKeyed. exact H.
  - destruct H as [He Hk]. rewrite post_subscribe_run.
    destruct (findOneAndUpdate_rejects env); simpl; split; try assumption.
    apply upsert_unique. exact He.
  - unfold post_login. destruct p as [p|]; [destruct (String.eqb p password)|]; exact H.
  - rewrite get_data_readonly. exact H.
  - apply post_sync_wellKeyed. exact H.
  - apply createTask_wellKeyed. exact H.
  - apply addToInventory_wellKeyed. exact H.
Qed.

Lemma performAll_wellKeyed (password : string) (ops : list Operation) :
  forall db, wellKeyed db -> wellKeyed (performAll password ops db).
Proof.
  induction ops as [|op ops IH]; intros db H; simpl; [exact H|].
  apply IH. apply perform_wellKeyed. exact H.
Qed.

(** X22.  Whatever requests and ticks the server has gone through since
    it started on empty collections, in any order and with any failures
    of the store or of the push service, no two stored subscriptions
    share an endpoint and no two stored tasks share a key: what C5 and C7
    assume of the store holds in every state the server can reach. *)
Theorem reachable_databases_are_well_keyed (password : string) (ops : list Operation) :
  uniqueEndpoints (core (performAll password ops emptyDatabase))
  /\ uniqueKeys (core (performAll password ops emptyDatabase)).
Proof.
  apply (performAll_wellKeyed password ops emptyDatabase).
  split; constructor.
Qed.

(** ** A task made by the assistant *)

(** X23.  When [Task.create] goes through with a fresh key, the
    [createTask] branch appends one task and reports [dataChanged]: the
    task is not completed and not notified, an absent or empty title,
    date or start time is replaced by its default, and the reminder
    offset is the one given (0 included) or 5 when none is given; unless
    that offset is -1 the task is matched by the tick that reads its
    trigger minute.  When [Task.create] is rejected the reply is the
    unchanged text of the model, [dataChanged] is false and no task is
    added. *)
Theorem assistant_task_is_reminded
    (env : ApiEnv) (args : ToolArgs) (id today responseText : string) (db : Database) :
  (create_rejects env = None ->
   ~ In (ObjectId env 0) (map _id (Tasks (core db))) ->
   createTask env args id today responseText db
   = (mkDatabase (mkWorld (Tasks (core db)
                           ++ [castTask (ObjectId env 0) (newTask args id today)])
                          (Subscriptions (core db)) (journal (core db)))
                 (Habits db) (Goals db) (Inventory db),
      Normal ("已创建任务: " ++ or_default (a_title args) "新任务", true))
   /\ castTask (ObjectId env 0) (newTask args id today)
      = mkTask (ObjectId env 0)
               (Some (or_default (a_title args) "新任务"))
               (Some (or_default (a_date args) today))
               (Some (or_default (a_startTime args) "09:00"))
               (Some false)
               (Some match a_reminderOffset args with
                     | Some o => o
                     | None => 5
                     end)
               (Some false)
   /\ (a_reminderOffset args <> Some (-1) ->
       forall tickEnv,
         isDue (Date_parse tickEnv) (minuteBucket (now tickEnv))
               (castTask (ObjectId env 0) (newTask args id today)) = true ->
         In (castTask (ObjectId env 0) (newTask args id today))
            (dueIn tickEnv (core (fst (createTask env args id today responseText db))))))
  /\ (forall e, create_rejects env = Some e ->
        createTask env args id today responseText db
        = (mkDatabase (journaled (core db) [console_error ("Tool execution failed " ++ e)])
                      (Habits db) (Goals db) (Inventory db),
           Normal (responseText, false))).
Proof.
  split.
  - intros Hok Hfresh.
    assert (Hex : existsb (Nat.eqb (ObjectId env 0)) (map _id (Tasks (core db))) = false).
    { apply Bool.not_true_iff_false. intros Hex. apply Hfresh.
      apply existsb_exists in Hex. destruct Hex as (k & Hin & E).
      apply Nat.eqb_eq in E. subst k. exact Hin. }
    assert (Hrun : createTask env args id today responseText db
                   = (mkDatabase (mkWorld (Tasks (core db)
                                           ++ [castTask (ObjectId env 0)
                                                        (newTask args id today)])
                                          (Subscriptions (core db)) (journal (core db)))
                                 (Habits db) (Goals db) (Inventory db),
                      Normal ("已创建任务: " ++ or_default (a_title args) "新任务", true))).
    { unfold createTask, try_catchApi, bindApi, create. rewrite Hok.
      cbn [insertDocs newTask r__id docs TaskModel keyOf cast].
      rewrite Hex. reflexivity. }
    split; [exact Hrun|]. split; [reflexivity|].
    intros Hoff tickEnv Hdue. rewrite Hrun. cbn [fst core].
    apply dueIn_In. split; [|split].
    + cbn [Tasks]. apply in_or_app. right. left. reflexivity.
    + apply candidateQuery_true_iff. cbn. repeat split.
      destruct (a_reminderOffset args) as [o|]; [congruence | discriminate].
    + exact Hdue.
  - intros e He. unfold createTask, try_catchApi, bindApi, create. rewrite He.
    reflexivity.
Qed.

Lemma assistant_task_is_reminded_witness :
  In (mkTask 100 (Some "Review") (Some "2024-01-15") (Some "10:00") (Some false)
             (Some 5) (Some false))
     (dueIn healthyEnv
        (core (fst (createTask okApi reviewArgs "t-42" "2024-01-14" "{}" sampleDatabase))))
  /\ snd (createTask createFailsApi reviewArgs "t-42" "2024-01-14" "{}" sampleDatabase)
     = Normal ("{}", false).
Proof.
  destruct (assistant_task_is_reminded okApi reviewArgs "t-42" "2024-01-14" "{}"
              sampleDatabase) as [Hok _].
  assert (Hfresh : ~ In (ObjectId okApi 0) (map _id (Tasks (core sampleDatabase)))).
  { simpl. intuition discriminate. }
  destruct (Hok eq_refl Hfresh) as (_ & _ & Hdue).
  assert (Hoff : a_reminderOffset reviewArgs <> Some (-1)) by discriminate.
  destruct (assistant_task_is_reminded createFailsApi reviewArgs "t-42" "2024-01-14" "{}"
              sampleDatabase) as [_ Hfail].
  split.
  - exact (Hdue Hoff healthyEnv eq_refl).
  - rewrite (Hfail "ValidationError" eq_refl). reflexivity.
Defined.

(** ** An item added by the assistant *)



